(** * finance-tracker-frontend: a shallow embedding of the client logic

    The repository holds three revisions of one single-page application:
    - [src/src/App.jsx], lines 1-1337: the revision with the staged
      statement import (modules [AppJsx], [Classification], [DashboardTab],
      [AccountsTab], [ImportModal] and [App]);
    - [src/src/App.jsx], lines 1338-2755: the earliest revision (modules
      [AppJsxEarly] and [AccountsTabEarly]);
    - [src/unnamed/part_000]: the revision with the direct CSV import
      (module [Part000]).

    JavaScript numbers are IEEE-754 binary64 values: they are embedded as
    the Standard Library's [spec_float] with precision 53 and maximal
    exponent 1024, so that sums and quotients round as they do in the
    browser.  Objects used as dictionaries are [gmap]s, the state of a
    component is threaded explicitly, and requests, notifications and the
    callbacks of the parent are recorded as effects.  The definitions come
    first, the properties after them. *)

From Stdlib Require Import ZArith List String Ascii Bool Lia SpecFloat DecimalString.
From stdpp Require Import gmap strings list.

Local Open Scope Z_scope.

(** ** JavaScript values used by the helpers *)

Module Js.

Abbreviation number := spec_float.

Definition prec : Z := 53.
Definition emax : Z := 1024.

(** The double nearest to an integer literal. *)
Definition of_Z (n : Z) : number := binary_normalize prec emax n 0 false.

Definition pzero : number := S754_zero false.
Definition add : number -> number -> number := SFadd prec emax.
Definition sub : number -> number -> number := SFsub prec emax.
Definition div : number -> number -> number := SFdiv prec emax.
Definition abs : number -> number := SFabs.

(** [x >= y]; false as soon as one side is NaN. *)
Definition geb (x y : number) : bool := SFleb y x.

(** A decimal literal [p / 10^k] with [p] and [10^k] exactly representable:
    the quotient of the two doubles is correctly rounded, hence it is the
    double the literal denotes. *)
Definition decimal (p : Z) (k : Z) : number := div (of_Z p) (of_Z (10 ^ k)).

(** ToBoolean on a number: [0], [-0] and [NaN] are falsy. *)
Definition truthy (x : number) : bool :=
  match x with
  | S754_zero _ | S754_nan => false
  | _ => true
  end.

(** [x || 0] on a number. *)
Definition or_zero (x : number) : number := if truthy x then x else pzero.

(** [o || 0] where [o] is a property that may be undefined. *)
Definition opt_or_zero (o : option number) : number :=
  match o with
  | Some x => or_zero x
  | None => pzero
  end.

(** [parseFloat(x)] for a number [x]: the number is printed and read back,
    which returns it unchanged except that [-0] prints as ["0"]. *)
Definition parseFloat_number (x : number) : number :=
  match x with
  | S754_zero _ => pzero
  | _ => x
  end.

(** *** Strings *)

(** ToBoolean on a string that may be null or undefined. *)
Definition str_truthy (o : option string) : bool :=
  match o with
  | Some s => negb (String.eqb s "")
  | None => false
  end.

(** [String(n)] for an integer-valued number. *)
Definition String_of_Z (n : Z) : string := NilZero.string_of_int (Z.to_int n).

Fixpoint repeat_to (pad cur : list ascii) (n : nat) : list ascii :=
  match n with
  | O => []
  | S n' =>
      match cur with
      | c :: cur' => c :: repeat_to pad cur' n'
      | [] =>
          match pad with
          | c :: cur' => c :: repeat_to pad cur' n'
          | [] => []
          end
      end
  end.

(** [s.padStart(target, pad)] *)
Definition padStart (s : string) (target : nat) (pad : string) : string :=
  let p := list_ascii_of_string pad in
  string_of_list_ascii (repeat_to p p (target - String.length s)) +:+ s.

(** [s.includes(needle)] *)
Fixpoint includes (needle s : string) : bool :=
  String.prefix needle s ||
  match s with
  | EmptyString => false
  | String _ s' => includes needle s'
  end.

(** The property names that every plain object inherits from
    [Object.prototype]: for such a key [o[key]] is not undefined although
    the key was never set on [o]. *)
Definition Object_prototype : list string :=
  ["constructor"; "hasOwnProperty"; "isPrototypeOf"; "propertyIsEnumerable";
   "toLocaleString"; "toString"; "valueOf"; "__proto__"; "__defineGetter__";
   "__defineSetter__"; "__lookupGetter__"; "__lookupSetter__"].

Definition inherited_name (key : string) : bool := existsb (String.eqb key) Object_prototype.

(** [s.split(sep)] for a separator of one character. *)
Fixpoint split (sep : ascii) (s : string) : list string :=
  match s with
  | EmptyString => [EmptyString]
  | String c s' =>
      if Ascii.eqb c sep then EmptyString :: split sep s'
      else match split sep s' with
           | part :: parts => String c part :: parts
           | [] => [String c EmptyString]
           end
  end.

(** The white space and the line terminators of ECMAScript, as the bytes
    of their UTF-8 encodings: tab, line feed, vertical tab, form feed,
    carriage return, space, U+00A0, U+1680, U+2000 to U+200A, U+2028,
    U+2029, U+202F, U+205F, U+3000 and U+FEFF. *)
Definition bytes (codes : list nat) : string :=
  string_of_list_ascii (map ascii_of_nat codes).

Definition WhiteSpace : list string :=
  map bytes
    [[9]; [10]; [11]; [12]; [13]; [32]; [194; 160]; [225; 154; 128];
     [226; 128; 128]; [226; 128; 129]; [226; 128; 130]; [226; 128; 131];
     [226; 128; 132]; [226; 128; 133]; [226; 128; 134]; [226; 128; 135];
     [226; 128; 136]; [226; 128; 137]; [226; 128; 138]; [226; 128; 168];
     [226; 128; 169]; [226; 128; 175]; [226; 129; 159]; [227; 128; 128];
     [239; 187; 191]]%nat.

(** The rest of [s] after the prefix [w], if [s] starts with it. *)
Fixpoint strip_prefix (w s : string) : option string :=
  match w with
  | EmptyString => Some s
  | String a w' =>
      match s with
      | String b s' => if Ascii.eqb a b then strip_prefix w' s' else None
      | EmptyString => None
      end
  end.

Definition strip_one (spaces : list string) (s : string) : option string :=
  head (omap (fun w => strip_prefix w s) spaces).

Fixpoint strip_all (spaces : list string) (n : nat) (s : string) : string :=
  match n with
  | O => s
  | S n' =>
      match strip_one spaces s with
      | Some rest => strip_all spaces n' rest
      | None => s
      end
  end.

(** [s.trim()] *)
Definition trimStart (s : string) : string := strip_all WhiteSpace (String.length s) s.

Definition trimEnd (s : string) : string :=
  String.rev (strip_all (map String.rev WhiteSpace) (String.length s) (String.rev s)).

Definition trim (s : string) : string := trimEnd (trimStart s).

(** *** Rounding a double to a decimal string *)

(** The integer nearest to [m * 2^e * 10^f], the larger one on a tie. *)
Definition nearest_scaled (m : positive) (e : Z) (f : nat) : Z :=
  let num := Zpos m * 10 ^ Z.of_nat f in
  if 0 <=? e then num * 2 ^ e
  else let den := 2 ^ (- e) in (2 * num + den) / (2 * den).

(** The digits of [n] with a decimal point before the last [f] ones. *)
Definition fixed_digits (n : Z) (f : nat) : string :=
  let m := String_of_Z n in
  match f with
  | O => m
  | S _ =>
      let m' := padStart m (S f) "0" in
      let k := String.length m' in
      String.substring 0 (k - f) m' +:+ "." +:+ String.substring (k - f) f m'
  end.

(** [x.toFixed(f)].  From [10^21] on JavaScript prints the number in
    exponent notation, which is not embedded: the result is [None]. *)
Definition toFixed (x : number) (f : nat) : option string :=
  match x with
  | S754_nan => Some "NaN"
  | S754_infinity false => Some "Infinity"
  | S754_infinity true => Some "-Infinity"
  | S754_zero _ => Some (fixed_digits 0 f)
  | S754_finite s m e =>
      if geb (abs x) (of_Z (10 ^ 21)) then None
      else Some ((if s then "-" else "") +:+ fixed_digits (nearest_scaled m e f) f)
  end.

Fixpoint group_rev (ds : list ascii) (k : nat) : list ascii :=
  match ds with
  | [] => []
  | d :: rest =>
      match k with
      | O => ","%char :: d :: group_rev rest 1
      | S k' => d :: group_rev rest k'
      end
  end.

(** Indian digit grouping: the last three digits, then groups of two. *)
Definition group_indian (digits : string) : string :=
  string_of_list_ascii (rev (group_rev (rev (list_ascii_of_string digits)) 3)).

(** The integer part printed by [toLocaleString("en-IN",
    {maximumFractionDigits: 0})]: the magnitude rounded to the nearest
    integer, ties away from zero, with Indian grouping. *)
Definition en_IN_integer (x : number) : string :=
  match x with
  | S754_nan => "NaN"
  | S754_infinity _ => "∞"
  | S754_zero _ => "0"
  | S754_finite _ m e => group_indian (String_of_Z (nearest_scaled m e 0))
  end.

Definition negative (x : number) : bool :=
  match x with
  | S754_zero s | S754_infinity s | S754_finite s _ _ => s
  | S754_nan => false
  end.

(** [x.toLocaleString("en-IN", {maximumFractionDigits: 0})] *)
Definition toLocaleString_en_IN (x : number) : string :=
  (if negative x then "-" else "") +:+ en_IN_integer x.

(** [x.toLocaleString("en-IN", {style: "currency", currency: "INR",
    maximumFractionDigits: 0})] *)
Definition toLocaleString_en_IN_INR (x : number) : string :=
  (if negative x then "-" else "") +:+ "₹" +:+ en_IN_integer x.

End Js.

(** ** Results of asynchronous calls *)

(** A settled promise: the value it resolved to, or the message of the
    error it rejected with. *)
Inductive outcome (A : Type) : Type :=
  | Resolves (data : A)
  | Rejects (message : string).
Arguments Resolves {A} data.
Arguments Rejects {A} message.

(** ** The helpers and the API layer of [src/src/App.jsx], lines 1-93 *)

Module AppJsx.

Import Js.

(** [fmt], lines 11-18, on a numeric argument. *)
Definition fmt (n : number) : option string :=
  let num := or_zero (parseFloat_number n) in
  let abs := Js.abs num in
  if geb abs (of_Z 10000000) then
    (fun s => s +:+ "Cr") <$> toFixed (div num (of_Z 10000000)) 2
  else if geb abs (of_Z 100000) then
    (fun s => s +:+ "L") <$> toFixed (div num (of_Z 100000)) 2
  else if geb abs (of_Z 1000) then
    (fun s => s +:+ "K") <$> toFixed (div num (of_Z 1000)) 1
  else Some (toLocaleString_en_IN num).

(** [fmtFull], lines 19-20, on a numeric argument: [parseFloat(n || 0)]. *)
Definition fmtFull (n : number) : string :=
  toLocaleString_en_IN_INR (parseFloat_number (or_zero n)).

Record range := { start : string; end_ : string }.

(** [getFYRange], line 30. *)
Definition getFYRange (fy : Z) : range :=
  {| start := String_of_Z fy +:+ "-04-01";
     end_ := String_of_Z (fy + 1) +:+ "-03-31" |}.

(** [MONTHS], line 32. *)
Definition MONTHS : list string :=
  ["Apr"; "May"; "Jun"; "Jul"; "Aug"; "Sep"; "Oct"; "Nov"; "Dec"; "Jan"; "Feb"; "Mar"]%string.

(** [getMonthRange], lines 33-40.  JavaScript's [%] is the remainder that
    takes the sign of the dividend, [Z.rem]. *)
Definition getMonthRange (fy monthIdx : Z) : range :=
  let year := if monthIdx <? 9 then fy else fy + 1 in
  let month := Z.rem (monthIdx + 3) 12 + 1 in
  let start := String_of_Z year +:+ "-" +:+ padStart (String_of_Z month) 2 "0" +:+ "-01" in
  let nm := if month =? 12 then 1 else month + 1 in
  let ny := if month =? 12 then year + 1 else year in
  {| start := start;
     end_ := String_of_Z ny +:+ "-" +:+ padStart (String_of_Z nm) 2 "0" +:+ "-01" |}.

(** *** [api.call], lines 56-69 *)

(** The JSON document [res.json()] resolves to: an object whose [error]
    property, when present, is a string, next to the rest of the document. *)
Record json (A : Type) := { error : option string; payload : A }.
Arguments error {A} _.
Arguments payload {A} _.

Inductive body (A : Type) : Type :=
  | BodyRejects (message : string)      (* [res.json()] rejects: not JSON *)
  | BodyJson (data : json A).
Arguments BodyRejects {A} message.
Arguments BodyJson {A} data.

Record response (A : Type) := { status : Z; res_body : body A }.
Arguments status {A} _.
Arguments res_body {A} _.

(** What [fetch] does: it rejects with an error carrying a message when no
    response arrives, and resolves to the response otherwise.  The method,
    path, headers and body of the request decide what the server answers
    and nothing else: [call] is given the answer. *)
Inductive fetched (A : Type) : Type :=
  | FetchRejects (message : string)
  | FetchResolves (res : response A).
Arguments FetchRejects {A} message.
Arguments FetchResolves {A} res.

(** [res.ok] *)
Definition ok {A} (res : response A) : bool :=
  (200 <=? status res) && (status res <=? 299).

Definition advisory : string := "Server waking up (~30s). Please retry.".

(** [data.error || `Request failed (${res.status})`] *)
Definition failure_reason {A} (res : response A) (data : json A) : string :=
  match error data with
  | Some e => if String.eqb e "" then "Request failed (" +:+ String_of_Z (status res) +:+ ")" else e
  | None => "Request failed (" +:+ String_of_Z (status res) +:+ ")"
  end.

(** The [try] block: the value it returns, or the message of the error
    thrown inside it. *)
Definition call_try {A} (f : fetched A) : json A + string :=
  match f with
  | FetchRejects m => inr m
  | FetchResolves res =>
      match res_body res with
      | BodyRejects m => inr m
      | BodyJson data => if negb (ok res) then inr (failure_reason res data) else inl data
      end
  end.

(** The [catch] block. *)
Definition call_catch {A} (m : string) : outcome (json A) :=
  if includes "Failed to fetch" m then Rejects advisory else Rejects m.

Definition call {A} (f : fetched A) : outcome (json A) :=
  match call_try f with
  | inl data => Resolves data
  | inr m => call_catch m
  end.

End AppJsx.

(** ** The helpers of [src/unnamed/part_000], lines 11-82 *)

Module Part000.

Import Js.

(** [fmt], lines 11-18: the unit is separated from the digits by a space. *)
Definition fmt (n : number) : option string :=
  let num := or_zero (parseFloat_number n) in
  let abs := Js.abs num in
  if geb abs (of_Z 10000000) then
    (fun s => s +:+ " Cr") <$> toFixed (div num (of_Z 10000000)) 2
  else if geb abs (of_Z 100000) then
    (fun s => s +:+ " L") <$> toFixed (div num (of_Z 100000)) 2
  else if geb abs (of_Z 1000) then
    (fun s => s +:+ " K") <$> toFixed (div num (of_Z 1000)) 1
  else Some (toLocaleString_en_IN num).

(** [getFYRange], lines 43-46. *)
Definition getFYRange (fy : Z) : AppJsx.range :=
  {| AppJsx.start := String_of_Z fy +:+ "-04-01";
     AppJsx.end_ := String_of_Z (fy + 1) +:+ "-03-31" |}.

(** [getMonthRange], lines 51-59. *)
Definition getMonthRange (fy monthIdx : Z) : AppJsx.range :=
  let year := if monthIdx <? 9 then fy else fy + 1 in
  let month := Z.rem (monthIdx + 3) 12 + 1 in
  let start := String_of_Z year +:+ "-" +:+ padStart (String_of_Z month) 2 "0" +:+ "-01" in
  let nextMonth := if month =? 12 then 1 else month + 1 in
  let nextYear := if month =? 12 then year + 1 else year in
  let end_ := String_of_Z nextYear +:+ "-" +:+ padStart (String_of_Z nextMonth) 2 "0" +:+ "-01" in
  {| AppJsx.start := start; AppJsx.end_ := end_ |}.

(** [api.call], lines 69-82, is the text of [AppJsx.call]. *)
Definition call {A} (f : AppJsx.fetched A) : outcome (AppJsx.json A) := AppJsx.call f.

End Part000.

(** [fmt] of the earliest revision, [src/src/App.jsx] lines 1348-1355. *)

Module AppJsxEarly.

Import Js.

Definition fmt (n : number) : option string :=
  let num := or_zero (parseFloat_number n) in
  let abs := Js.abs num in
  if geb abs (of_Z 10000000) then
    (fun s => s +:+ "Cr") <$> toFixed (div num (of_Z 10000000)) 2
  else if geb abs (of_Z 100000) then
    (fun s => s +:+ "L") <$> toFixed (div num (of_Z 100000)) 2
  else if geb abs (of_Z 1000) then
    (fun s => s +:+ "K") <$> toFixed (div num (of_Z 1000)) 1
  else Some (toLocaleString_en_IN num).

End AppJsxEarly.

(** ** Classification of a transaction by its two account types

    [TransactionsTab], [src/src/App.jsx] lines 605-608, and the recent
    transactions of [DashboardTab], lines 439-447. *)

Module Classification.

Record transaction := {
  transaction_id : Z;
  debit_account_type : string;
  credit_account_type : string
}.

Definition isExp (tx : transaction) : bool := String.eqb (debit_account_type tx) "Expense".
Definition isInc (tx : transaction) : bool := String.eqb (credit_account_type tx) "Income".
Definition isTransfer (tx : transaction) : bool := negb (isExp tx) && negb (isInc tx).

(** The conditional [isExp ? e : isInc ? i : t] that picks the colour and
    the sign of the amount. *)
Definition pick {A : Type} (tx : transaction) (e i t : A) : A :=
  if isExp tx then e else if isInc tx then i else t.

Definition amtColor (tx : transaction) : string := pick tx "#dc2626" "#059669" "#2563eb".
Definition sign (tx : transaction) : string := pick tx "−" "+" "↔".

(** [DashboardTab]: the sign before the amount of a recent transaction. *)
Definition dashboard_sign (tx : transaction) : string := pick tx "−" "+" "".

Inductive label := expense | income | transfer.

(** The label a transaction is displayed under. *)
Definition classify (tx : transaction) : label := pick tx expense income transfer.

End Classification.

(** ** Net worth *)

Module Accounts.

Import Js.

(** A balance property of an account as the server's JSON carries it. *)
Inductive field :=
  | Missing                 (* absent or null *)
  | Num (x : number)
  | Str (s : string).

Definition field_truthy (v : field) : bool :=
  match v with
  | Missing => false
  | Num x => truthy x
  | Str s => negb (String.eqb s "")
  end.

Record account := {
  account_id : Z;
  account_type : string;
  sub_type : option string;
  description : option string;
  calculated_balance : field;
  current_balance : field
}.

(** The group of an account in the tree of [AccountsTab], lines 997-1001
    (part_000 571-576):
    [path=a.description||""; parts=path.split(":");
     group=parts.length>=2?parts[1].trim():(a.sub_type||"Other")]. *)
Definition group_of (a : account) : string :=
  let path := if str_truthy (description a) then default ""%string (description a)
              else ""%string in
  match split ":" path with
  | _ :: part :: _ => trim part
  | _ => if str_truthy (sub_type a) then default ""%string (sub_type a) else "Other"%string
  end.

(** A group of the tree: [{total, accounts}], each account with its
    balance. *)
Module Group.
Record t := { total : number; accounts : list (account * number) }.
End Group.

(** A node of the tree: [{total, groups}]. *)
Record node := { total : number; groups : gmap string Group.t }.

Section Balance.

(** [parseFloat] on a string is the browser's; it is a parameter. *)
Variable parseFloat_string : string -> number.

Definition parseFloat (v : field) : number :=
  match v with
  | Missing => S754_nan
  | Num x => parseFloat_number x
  | Str s => parseFloat_string s
  end.

(** [parseFloat(a.calculated_balance || a.current_balance || 0)] *)
Definition bal (a : account) : number :=
  parseFloat
    (if field_truthy (calculated_balance a) then calculated_balance a
     else if field_truthy (current_balance a) then current_balance a
     else Num pzero).

(** [!t[k]] for a dictionary of numbers. *)
Definition unset (o : option number) : bool :=
  match o with
  | Some x => negb (truthy x)
  | None => true
  end.

(** [t[k] += x]: an undefined entry plus a number is NaN. *)
Definition plus_entry (o : option number) (x : number) : number :=
  match o with
  | Some v => add v x
  | None => S754_nan
  end.

(** The body of [accounts.forEach] in [DashboardTab], line 284:
    [if(!t[a.account_type]) t[a.account_type]=0;
     t[a.account_type]+=parseFloat(...)].
    For a type that [t] inherits, [t[type]] is a function or an object: it
    is not replaced by 0, and [+=] stores a text under the type, or
    nothing for [__proto__]; the dictionary of numbers is left as it is. *)
Definition accumulate (t : gmap string number) (a : account) : gmap string number :=
  let k := account_type a in
  if inherited_name k then t
  else
    let t0 := if unset (t !! k) then <[k := pzero]> t else t in
    <[k := plus_entry (t0 !! k) (bal a)]> t0.

Definition totals (accounts : list account) : gmap string number :=
  fold_left accumulate accounts ∅.

(** [filtered], line 992. *)
Definition filtered (filter : string) (accounts : list account) : list account :=
  if String.eqb filter "All" then accounts
  else List.filter (fun a => String.eqb (account_type a) filter) accounts.

(** The body of [filtered.forEach] in [AccountsTab], lines 996-1007
    (part_000 570-583); [None] when it throws a [TypeError].  For a type
    that [tree] inherits no node is created and [tree[type].groups] is
    undefined, so line 1002 throws; for a group that [groups] inherits no
    group is created and [groups[group].accounts] is undefined, so line
    1006 throws. *)
Definition grow (tree : gmap string node) (a : account) : option (gmap string node) :=
  let type := account_type a in
  if inherited_name type then None
  else
    let n := default {| total := pzero; groups := ∅ |} (tree !! type) in
    let group := group_of a in
    if inherited_name group then None
    else
      let g := default {| Group.total := pzero; Group.accounts := [] |} (groups n !! group) in
      let bal := bal a in
      Some (<[type := {| total := add (total n) bal;
                         groups := <[group := {| Group.total := add (Group.total g) bal;
                                                 Group.accounts := Group.accounts g ++ [(a, bal)] |}]>
                                     (groups n) |}]> tree).

(** The loop of lines 995-1007.  [hierarchy] is this tree after line 1008
    has sorted, in place, the list of accounts of every group; the totals
    are those of [tree]. *)
Definition tree (filter : string) (accounts : list account) : option (gmap string node) :=
  fold_left (fun t a => t ≫= fun t => grow t a) (filtered filter accounts) (Some ∅).

End Balance.

End Accounts.

(** [DashboardTab], [src/src/App.jsx] lines 282-288 (and
    [src/unnamed/part_000] lines 737-743). *)
Module DashboardTab.

Definition netWorth (parseFloat_string : string -> Js.number)
    (accounts : list Accounts.account) : Js.number :=
  let totals := Accounts.totals parseFloat_string accounts in
  Js.sub (Js.opt_or_zero (totals !! "Asset"))
         (Js.abs (Js.opt_or_zero (totals !! "Liability"))).

End DashboardTab.

(** [AccountsTab], [src/src/App.jsx] lines 992-1012 (and
    [src/unnamed/part_000] lines 565-590):
    [(hierarchy.Asset?.total||0)-Math.abs(hierarchy.Liability?.total||0)];
    [None] when building the tree throws and nothing is rendered. *)
Module AccountsTab.

Definition netWorth (parseFloat_string : string -> Js.number) (filter : string)
    (accounts : list Accounts.account) : option Js.number :=
  hierarchy ← Accounts.tree parseFloat_string filter accounts;
  Some (Js.sub (Js.opt_or_zero (Accounts.total <$> hierarchy !! "Asset"))
               (Js.abs (Js.opt_or_zero (Accounts.total <$> hierarchy !! "Liability")))).

End AccountsTab.

(** [AccountsTab] of the earliest revision, [src/src/App.jsx] lines
    2164-2190.  The loop of lines 2167-2171 that groups the filtered
    accounts by type throws a [TypeError] for a type that [grouped]
    inherits ([grouped[type].push] is undefined); the totals of lines
    2185-2189 are those of all accounts, and line 2190 subtracts the
    liabilities as they are. *)
Module AccountsTabEarly.

Definition netWorth (parseFloat_string : string -> Js.number) (filter : string)
    (accounts : list Accounts.account) : option Js.number :=
  if existsb (fun a => Js.inherited_name (Accounts.account_type a))
       (Accounts.filtered filter accounts)
  then None
  else
    let totals := Accounts.totals parseFloat_string accounts in
    Some (Js.sub (Js.opt_or_zero (totals !! "Asset")) (Js.opt_or_zero (totals !! "Liability"))).

End AccountsTabEarly.

(** ** The staged statement import

    [ImportModal], [src/src/App.jsx] lines 725-979, with the requests of
    lines 87-92 and its use in [TransactionsTab], line 669. *)

Module ImportModal.

Import Js.

(** A staged row.  The date, description, amount and direction of a row
    are only printed and are left out. *)
Record row := {
  id : Z;
  status : string;
  suggested_category : string;
  confidence : number;
  suggested_debit_account_id : option Z;     (* null or a number *)
  suggested_credit_account_id : option Z
}.

(** ToBoolean on an account reference: null and [0] are falsy. *)
Definition ref_truthy (o : option Z) : bool :=
  match o with
  | Some n => negb (n =? 0)
  | None => false
  end.

(** [r.status!=='rejected'] *)
Definition active (r : row) : bool := negb (String.eqb (status r) "rejected").

(** The filter of [withAccounts], line 806. *)
Definition ready (r : row) : bool :=
  active r && ref_truthy (suggested_debit_account_id r)
           && ref_truthy (suggested_credit_account_id r).

(** Lines 805-807. *)
Definition activeCount (staged : list row) : nat := length (List.filter active staged).
Definition withAccounts (staged : list row) : nat := length (List.filter ready staged).
Definition highConf (staged : list row) : nat :=
  length (List.filter (fun r => active r && geb (confidence r) (decimal 5 1)) staged).

(** What the list of lines 876-939 shows of one row. *)
Record row_view := {
  key : Z;
  isRejected : bool;         (* dimmed, a cross instead of the checkbox *)
  hasAccounts : bool;
  needs_accounts : bool;     (* the "needs accounts" warning *)
  has_buttons : bool         (* checkbox, Edit and Reject *)
}.

Definition render_row (tx : row) : row_view :=
  let isRejected := String.eqb (status tx) "rejected" in
  let hasAccounts := ref_truthy (suggested_debit_account_id tx)
                     && ref_truthy (suggested_credit_account_id tx) in
  {| key := id tx;
     isRejected := isRejected;
     hasAccounts := hasAccounts;
     needs_accounts := negb hasAccounts && negb isRejected;
     has_buttons := negb isRejected |}.

Definition render_rows (staged : list row) : list row_view := map render_row staged.

(** The object passed to [api.updateStaged]: the properties it sets. *)
Record updates := {
  set_status : option string;
  set_suggested_category : option string;
  set_suggested_debit_account_id : option (option Z);
  set_suggested_credit_account_id : option (option Z)
}.

(** [{...r, ...updates}] *)
Definition merge (r : row) (u : updates) : row :=
  {| id := id r;
     status := default (status r) (set_status u);
     suggested_category := default (suggested_category r) (set_suggested_category u);
     confidence := confidence r;
     suggested_debit_account_id :=
       default (suggested_debit_account_id r) (set_suggested_debit_account_id u);
     suggested_credit_account_id :=
       default (suggested_credit_account_id r) (set_suggested_credit_account_id u) |}.

(** [{status:'rejected'}] *)
Definition rejection : updates :=
  {| set_status := Some "rejected"%string;
     set_suggested_category := None;
     set_suggested_debit_account_id := None;
     set_suggested_credit_account_id := None |}.

(** The state update of [updateRow], line 778. *)
Definition update_rows (i : Z) (u : updates) (prev : list row) : list row :=
  map (fun r => if id r =? i then merge r u else r) prev.

(** The state update of [rejectSelected], line 784. *)
Definition reject_rows (sel : gset Z) (prev : list row) : list row :=
  map (fun r => if decide (id r ∈ sel) then merge r rejection else r) prev.

Record upload_response := { batch_id : option string; total_parsed : Z }.
Record import_result := { imported : Z; skipped : Z; errors : list string }.

(** The requests of the import, lines 87-92. *)
Inductive api_call :=
  | importUpload
  | getStaged (batchId : option string)
  | updateStaged (i : Z) (data : updates)
  | updateStagedBulk (ids : list Z) (u : updates)
  | confirmImport (batchId : option string)
  | clearStaged (batchId : option string).

Definition batch_query (batchId : option string) : string :=
  match batchId with
  | Some b => if String.eqb b "" then "" else "?batch_id=" +:+ b
  | None => ""
  end.

(** Method and path of each request. *)
Definition request_line (c : api_call) : string * string :=
  match c with
  | importUpload => ("POST", "/import/upload")
  | getStaged b => ("GET", "/import/staged" +:+ batch_query b)
  | updateStaged i _ => ("PUT", "/import/staged/" +:+ String_of_Z i)
  | updateStagedBulk _ _ => ("PUT", "/import/staged-bulk")
  | confirmImport _ => ("POST", "/import/confirm")
  | clearStaged b => ("DELETE", "/import/staged" +:+ batch_query b)
  end%string.

(** What a handler does besides updating the state. *)
Inductive effect :=
  | Api (c : api_call)                       (* a request is issued *)
  | Toast (message type : string)            (* a notification is shown *)
  | FetchTxns                                (* the caller refetches the list *)
  | FetchSummary.                            (* the caller refetches the period totals *)

(** The state of the modal and [showImport] of the calling tab ([open]).
    The PDF password, the row being edited, the bulk category panel and
    the parse summary are left out. *)
Record state := {
  open : bool;
  step : Z;                           (* 1 = Upload, 2 = Review, 3 = Done *)
  file : option string;
  sourceAccount : string;
  loading : bool;
  batchId : option string;
  staged : list row;
  result : option import_result;
  selected : gset Z
}.

Definition initial : state :=
  {| open := false; step := 1; file := None; sourceAccount := ""; loading := false;
     batchId := None; staged := []; result := None; selected := ∅ |}.

Definition set_open (b : bool) (s : state) : state :=
  {| open := b; step := step s; file := file s; sourceAccount := sourceAccount s;
     loading := loading s; batchId := batchId s; staged := staged s;
     result := result s; selected := selected s |}.
Definition set_step (n : Z) (s : state) : state :=
  {| open := open s; step := n; file := file s; sourceAccount := sourceAccount s;
     loading := loading s; batchId := batchId s; staged := staged s;
     result := result s; selected := selected s |}.
Definition set_file (f : option string) (s : state) : state :=
  {| open := open s; step := step s; file := f; sourceAccount := sourceAccount s;
     loading := loading s; batchId := batchId s; staged := staged s;
     result := result s; selected := selected s |}.
Definition set_sourceAccount (a : string) (s : state) : state :=
  {| open := open s; step := step s; file := file s; sourceAccount := a;
     loading := loading s; batchId := batchId s; staged := staged s;
     result := result s; selected := selected s |}.
Definition set_loading (b : bool) (s : state) : state :=
  {| open := open s; step := step s; file := file s; sourceAccount := sourceAccount s;
     loading := b; batchId := batchId s; staged := staged s;
     result := result s; selected := selected s |}.
Definition set_batchId (b : option string) (s : state) : state :=
  {| open := open s; step := step s; file := file s; sourceAccount := sourceAccount s;
     loading := loading s; batchId := b; staged := staged s;
     result := result s; selected := selected s |}.
Definition set_staged (l : list row) (s : state) : state :=
  {| open := open s; step := step s; file := file s; sourceAccount := sourceAccount s;
     loading := loading s; batchId := batchId s; staged := l;
     result := result s; selected := selected s |}.
Definition set_result (r : option import_result) (s : state) : state :=
  {| open := open s; step := step s; file := file s; sourceAccount := sourceAccount s;
     loading := loading s; batchId := batchId s; staged := staged s;
     result := r; selected := selected s |}.
Definition set_selected (x : gset Z) (s : state) : state :=
  {| open := open s; step := step s; file := file s; sourceAccount := sourceAccount s;
     loading := loading s; batchId := batchId s; staged := staged s;
     result := result s; selected := x |}.

(** The callbacks of line 669. *)
Definition onClose (s : state) : state * list effect := (set_open false s, []).
Definition onSuccess (s : state) : state * list effect :=
  (set_open false s, [FetchTxns; FetchSummary]).

(** The effect of line 742, run when [open] becomes true. *)
Definition reset_on_open (s : state) : state :=
  set_selected ∅ (set_result None (set_staged [] (set_batchId None
    (set_sourceAccount "" (set_file None (set_step 1 s)))))).

(** [disabled={disabled||loading}] of [Btn], line 162. *)
Definition Btn_enabled (disabled loading : bool) : bool := negb (disabled || loading).

(** The Upload button, line 838. *)
Definition upload_enabled (s : state) : bool :=
  Btn_enabled (negb (bool_decide (is_Some (file s))) || String.eqb (sourceAccount s) "")
              (loading s).

(** The Confirm Import button, line 949. *)
Definition confirm_enabled (s : state) : bool :=
  Btn_enabled (Nat.eqb (withAccounts (staged s)) 0) (loading s).

(** [handleUpload] up to its first [await], lines 753-762. *)
Definition handleUpload (s : state) : state * list effect :=
  match file s with
  | None => (s, [Toast "Select a file" "error"])
  | Some _ =>
      if String.eqb (sourceAccount s) "" then
        (s, [Toast "Select the source bank/CC account" "error"])
      else (set_loading true s, [Api importUpload])
  end.

(** [handleConfirm] up to its [await], lines 794-797. *)
Definition handleConfirm (s : state) : state * list effect :=
  (set_loading true s, [Api (confirmImport (batchId s))]).

(** The [onClose] handed to [Modal], line 811: the close button and a
    click on the backdrop. *)
Definition modal_onClose (s : state) : state * list effect :=
  let cleared := if str_truthy (batchId s) && (step s =? 2)
                 then [Api (clearStaged (batchId s))] else [] in
  let '(s', es) := onClose s in
  (s', cleared ++ es).

(** The Cancel button of the Review step, line 945. *)
Definition review_cancel (s : state) : state * list effect :=
  let '(s', es) := onClose s in
  (s', Api (clearStaged (batchId s)) :: es).

(** [selectAllActive], line 791. *)
Definition selectAllActive (s : state) : state :=
  let act := List.filter active (staged s) in
  if Nat.eqb (size (selected s)) (length act) then set_selected ∅ s
  else set_selected (list_to_set (map id act)) s.

(** [toggleSel], line 790. *)
Definition toggleSel (i : Z) (s : state) : state :=
  if decide (i ∈ selected s) then set_selected (selected s ∖ {[ i ]}) s
  else set_selected (selected s ∪ {[ i ]}) s.

(** What happens to the modal: the user's actions on the controls it
    shows, and the settling of the requests it issued.  A settling event
    carries what the continuation captured when the request was made. *)
Inductive event :=
  | OpenModal                                   (* the Import button of the tab *)
  | ChooseFile (name : string)
  | ChooseSource (account : string)
  | ClickUpload
  | UploadSettled (r : outcome upload_response)
  | StagedSettled (data : upload_response) (r : outcome (list row))
  | ClickReject (i : Z)
  | UpdateSettled (i : Z) (u : updates) (r : outcome unit)
  | ToggleSel (i : Z)
  | SelectAllActive
  | ClickRejectSelected
  | RejectSelectedSettled (sel : gset Z) (r : outcome unit)
  | ClickConfirm
  | ConfirmSettled (r : outcome import_result)
  | ClickCancel
  | CloseModal                                  (* the close button or the backdrop *)
  | ClickDone
  | ClearSettled (r : outcome unit).

(** Is the row with this id shown with its buttons? *)
Definition row_clickable (i : Z) (s : state) : bool :=
  existsb (fun r => (id r =? i) && active r) (staged s).

Definition handle (s : state) (e : event) : state * list effect :=
  match e with
  | OpenModal =>
      if open s then (s, []) else (reset_on_open (set_open true s), [])
  | ChooseFile name =>
      if open s && (step s =? 1) then (set_file (Some name) s, []) else (s, [])
  | ChooseSource account =>
      if open s && (step s =? 1) then (set_sourceAccount account s, []) else (s, [])
  | ClickUpload =>
      if open s && (step s =? 1) && upload_enabled s then handleUpload s else (s, [])
  | UploadSettled (Resolves data) =>
      (set_batchId (batch_id data) s, [Api (getStaged (batch_id data))])
  | UploadSettled (Rejects m) => (set_loading false s, [Toast m "error"])
  | StagedSettled data (Resolves rows) =>
      (set_loading false (set_step 2 (set_staged rows s)),
       [Toast ("Parsed " +:+ String_of_Z (total_parsed data) +:+ " transactions!") "success"])
  | StagedSettled _ (Rejects m) => (set_loading false s, [Toast m "error"])
  | ClickReject i =>
      if open s && (step s =? 2) && row_clickable i s
      then (s, [Api (updateStaged i rejection)]) else (s, [])
  | UpdateSettled i u (Resolves _) => (set_staged (update_rows i u (staged s)) s, [])
  | UpdateSettled _ _ (Rejects m) => (s, [Toast m "error"])
  | ToggleSel i =>
      if open s && (step s =? 2) && row_clickable i s then (toggleSel i s, []) else (s, [])
  | SelectAllActive =>
      if open s && (step s =? 2) then (selectAllActive s, []) else (s, [])
  | ClickRejectSelected =>
      if open s && (step s =? 2) && negb (Nat.eqb (size (selected s)) 0)
      then (s, [Api (updateStagedBulk (elements (selected s)) rejection)]) else (s, [])
  | RejectSelectedSettled sel (Resolves _) =>
      (set_selected ∅ (set_staged (reject_rows sel (staged s)) s),
       [Toast ("Rejected " +:+ String_of_Z (Z.of_nat (size sel))) "info"])
  | RejectSelectedSettled _ (Rejects m) => (s, [Toast m "error"])
  | ClickConfirm =>
      if open s && (step s =? 2) && confirm_enabled s then handleConfirm s else (s, [])
  | ConfirmSettled (Resolves data) =>
      (set_loading false (set_step 3 (set_result (Some data) s)),
       [Toast ("Imported " +:+ String_of_Z (imported data) +:+ " transactions!") "success"])
  | ConfirmSettled (Rejects m) => (set_loading false s, [Toast m "error"])
  | ClickCancel =>
      if open s && (step s =? 1) then onClose s
      else if open s && (step s =? 2) then review_cancel s
      else (s, [])
  | CloseModal => if open s then modal_onClose s else (s, [])
  | ClickDone =>
      if open s && (step s =? 3) && bool_decide (is_Some (result s)) then onSuccess s
      else (s, [])
  | ClearSettled _ => (s, [])                   (* [.catch(()=>{})] *)
  end.

(** A run: the events in order, the effects accumulated. *)
Fixpoint run (s : state) (events : list event) : state * list effect :=
  match events with
  | [] => (s, [])
  | e :: rest =>
      let '(s1, es1) := handle s e in
      let '(s2, es2) := run s1 rest in
      (s2, es1 ++ es2)
  end.

End ImportModal.

(** ** Start of the application

    [App], [src/src/App.jsx] lines 1248-1273; the earliest revision, lines
    2598-2636, has the same effect with the statements on separate lines. *)

Module App.

Record user_t := { name : string; email : string }.

(** The requests of [api] that the start and the login screen issue, each
    with the value of [api.token] that [api.call] puts in its
    [Authorization] header. *)
Inductive api_call :=
  | login (email password : string)
  | register (name email password : string)
  | me
  | getAccounts.

Record request := { what : api_call; bearer : option string }.

(** Client-local storage, the token of the shared [api] object, and the
    state of the [App] component; [requests] is the trace of the calls. *)
Record world := {
  localStorage : gmap string string;
  api_token : option string;
  user : option user_t;
  accounts : list Accounts.account;
  init : bool;
  requests : list request
}.

(** A computation that reads and writes the world and may throw. *)
Definition M (A : Type) : Type := world -> outcome A * world.

#[export] Instance M_ret : MRet M := fun A x w => (Resolves x, w).

#[export] Instance M_bind : MBind M := fun A B f m w =>
  match m w with
  | (Resolves x, w') => f x w'
  | (Rejects e, w') => (Rejects e, w')
  end.

(** [try { m } catch { h }] *)
Definition try_catch {A} (m : M A) (h : M A) : M A := fun w =>
  match m w with
  | (Rejects _, w') => h w'
  | r => r
  end.

Definition getItem (k : string) : M (option string) := fun w =>
  (Resolves (localStorage w !! k), w).

Definition removeItem (k : string) : M unit := fun w =>
  (Resolves tt,
   {| localStorage := delete k (localStorage w); api_token := api_token w; user := user w;
      accounts := accounts w; init := init w; requests := requests w |}).

Definition set_api_token (t : option string) : M unit := fun w =>
  (Resolves tt,
   {| localStorage := localStorage w; api_token := t; user := user w;
      accounts := accounts w; init := init w; requests := requests w |}).

Definition setUser (u : option user_t) : M unit := fun w =>
  (Resolves tt,
   {| localStorage := localStorage w; api_token := api_token w; user := u;
      accounts := accounts w; init := init w; requests := requests w |}).

Definition setAccounts (a : list Accounts.account) : M unit := fun w =>
  (Resolves tt,
   {| localStorage := localStorage w; api_token := api_token w; user := user w;
      accounts := a; init := init w; requests := requests w |}).

Definition setInit (b : bool) : M unit := fun w =>
  (Resolves tt,
   {| localStorage := localStorage w; api_token := api_token w; user := user w;
      accounts := accounts w; init := b; requests := requests w |}).

(** [await api.f()]: the request is recorded with the current token and
    settles as the server decides. *)
Definition await {A} (c : api_call) (r : outcome A) : M A := fun w =>
  (r,
   {| localStorage := localStorage w; api_token := api_token w; user := user w;
      accounts := accounts w; init := init w;
      requests := requests w ++ [{| what := c; bearer := api_token w |}] |}).

(** The effect of lines 1259-1263, given how [api.me()] and
    [api.getAccounts()] settle. *)
Definition startup (me_settles : outcome user_t)
    (accounts_settle : outcome (list Accounts.account)) : M unit :=
  token ← getItem "ft_token";
  (if Js.str_truthy token then
     set_api_token token;;
     try_catch
       (u ← await me me_settles;
        setUser (Some u);;
        a ← await getAccounts accounts_settle;
        setAccounts a)
       (removeItem "ft_token";; set_api_token None)
   else mret tt);;
  setInit false.

(** What [App] renders, lines 1272-1273. *)
Inductive screen := Spinner | AuthScreen | Tabs.

Definition render (w : world) : screen :=
  if init w then Spinner
  else match user w with
       | None => AuthScreen
       | Some _ => Tabs
       end.

(** The world when the page loads with the given storage. *)
Definition boot (storage : gmap string string) : world :=
  {| localStorage := storage; api_token := None; user := None; accounts := [];
     init := true; requests := [] |}.

Definition is_credentials (r : request) : bool :=
  match what r with
  | login _ _ | register _ _ _ => true
  | _ => false
  end.

End App.


(** ** Notions used to state the properties *)

Module Notions.

(** The names of the calendar months, January first. *)
Definition calendar : list string :=
  ["Jan"; "Feb"; "Mar"; "Apr"; "May"; "Jun"; "Jul"; "Aug"; "Sep"; "Oct"; "Nov"; "Dec"]%string.

(** The calendar month (1 to 12) a slot of the selector stands for. *)
Definition month_of_slot (monthIdx : Z) : Z := Z.rem (monthIdx + 3) 12 + 1.

(** *** Sums of balances *)

(** The balances of the accounts of one type, in list order. *)
Definition balances (parseFloat_string : string -> Js.number) (type : string)
    (accounts : list Accounts.account) : list Js.number :=
  map (Accounts.bal parseFloat_string)
      (List.filter (fun a => String.eqb (Accounts.account_type a) type) accounts).

(** The sum of a list of numbers, accumulated from the left starting at
    [s] as the loops of the source do. *)
Definition sum_from (s : Js.number) (xs : list Js.number) : Js.number :=
  fold_left Js.add xs s.

Definition seq_sum (xs : list Js.number) : Js.number := sum_from Js.pzero xs.

(** Neither NaN nor the negative zero. *)
Definition steady (x : Js.number) : bool :=
  match x with
  | S754_nan | S754_zero true => false
  | _ => true
  end.

(** Every running total of the sum is steady. *)
Fixpoint clean_from (s : Js.number) (xs : list Js.number) : bool :=
  match xs with
  | [] => true
  | x :: rest => steady (Js.add s x) && clean_from (Js.add s x) rest
  end.

Definition clean (xs : list Js.number) : bool := clean_from Js.pzero xs.

(** One entry of the dictionary of totals seen alone: what an account of
    its type does to it in [Accounts.accumulate] and in [Accounts.grow]. *)
Definition tally (cur : option Js.number) (x : Js.number) : option Js.number :=
  Some (Accounts.plus_entry (if Accounts.unset cur then Some Js.pzero else cur) x).

Definition node_total (cur : option Js.number) (x : Js.number) : option Js.number :=
  Some (Accounts.plus_entry (match cur with None => Some Js.pzero | Some _ => cur end) x).

(** An account with a numeric balance. *)
Definition account_of (type : string) (balance : Js.number) : Accounts.account :=
  {| Accounts.account_id := 0;
     Accounts.account_type := type;
     Accounts.sub_type := None;
     Accounts.description := None;
     Accounts.calculated_balance := Accounts.Num balance;
     Accounts.current_balance := Accounts.Missing |}.

(** Neither the type nor the group of the account is a name that objects
    inherit: the tree of the Accounts tab can take the account. *)
Definition plain_names (a : Accounts.account) : bool :=
  negb (Js.inherited_name (Accounts.account_type a))
  && negb (Js.inherited_name (Accounts.group_of a)).

(** Whole amounts: their sum, and the sum of their absolute values. *)
Definition whole_sum (zs : list Z) : Z := fold_right Z.add 0 zs.

Definition magnitude (zs : list Z) : Z := fold_right (fun z acc => Z.abs z + acc) 0 zs.

(** [n * 2^d] for a shift [d] that is not negative, and the mantissa of 53
    bits that stands for [n] in a double. *)
Definition shift_pos (n : positive) (d : Z) : positive :=
  match d with
  | Zpos p => Pos.iter xO n p
  | _ => n
  end.

Definition canon (n : positive) : positive :=
  shift_pos n (Js.prec - Zpos (digits2_pos n)).

(** Strings are not parsed in the examples: every balance is a number. *)
Definition no_strings (s : string) : Js.number := S754_nan.

(** *** Counting the rows that satisfy a property *)

Inductive counts {A : Type} (P : A -> Prop) : list A -> nat -> Prop :=
  | counts_nil : counts P [] 0
  | counts_yes a l n : P a -> counts P l n -> counts P (a :: l) (S n)
  | counts_no a l n : ~ P a -> counts P l n -> counts P (a :: l) n.

(** An account reference holds an id: it is not null, and not [0], which
    the edit controls of the Review step store as null. *)
Definition populated (o : option Z) : Prop := exists n, o = Some n /\ n <> 0.

Definition rejected (r : ImportModal.row) : Prop := ImportModal.status r = "rejected"%string.

(** Ready to import: not rejected, both suggested accounts populated. *)
Definition importable (r : ImportModal.row) : Prop :=
  ~ rejected r
  /\ populated (ImportModal.suggested_debit_account_id r)
  /\ populated (ImportModal.suggested_credit_account_id r).

(** *** A sample import *)

Definition sample_row : ImportModal.row :=
  {| ImportModal.id := 1;
     ImportModal.status := "pending";
     ImportModal.suggested_category := "Food";
     ImportModal.confidence := Js.decimal 9 1;
     ImportModal.suggested_debit_account_id := Some 3;
     ImportModal.suggested_credit_account_id := Some 4 |}.

(** A row whose credit account is still to be chosen. *)
Definition incomplete_row : ImportModal.row :=
  {| ImportModal.id := 2;
     ImportModal.status := "pending";
     ImportModal.suggested_category := "Uncategorized";
     ImportModal.confidence := Js.decimal 2 1;
     ImportModal.suggested_debit_account_id := Some 3;
     ImportModal.suggested_credit_account_id := None |}.

Definition sample_upload : ImportModal.upload_response :=
  {| ImportModal.batch_id := Some "b1"%string; ImportModal.total_parsed := 1 |}.

Definition sample_result : ImportModal.import_result :=
  {| ImportModal.imported := 1; ImportModal.skipped := 0; ImportModal.errors := [] |}.

(** The modal is opened, a statement is uploaded and parsed, and the
    Review step shows its one row. *)
Definition to_review : list ImportModal.event :=
  [ImportModal.OpenModal;
   ImportModal.ChooseFile "statement.csv";
   ImportModal.ChooseSource "12";
   ImportModal.ClickUpload;
   ImportModal.UploadSettled (Resolves sample_upload);
   ImportModal.StagedSettled sample_upload (Resolves [sample_row])].

(** The import is then confirmed, and the Done step is shown. *)
Definition to_done : list ImportModal.event :=
  to_review ++ [ImportModal.ClickConfirm; ImportModal.ConfirmSettled (Resolves sample_result)].

(** The states a run from the initial state can pass through. *)
Inductive reachable : ImportModal.state -> Prop :=
  | reachable_initial : reachable ImportModal.initial
  | reachable_handle s e : reachable s -> reachable (fst (ImportModal.handle s e)).

Definition is_clear (e : ImportModal.effect) : bool :=
  match e with
  | ImportModal.Api (ImportModal.clearStaged _) => true
  | _ => false
  end.

Definition is_refresh (e : ImportModal.effect) : bool :=
  match e with
  | ImportModal.FetchTxns | ImportModal.FetchSummary => true
  | _ => false
  end.

Definition is_toast (e : ImportModal.effect) : bool :=
  match e with
  | ImportModal.Toast _ _ => true
  | _ => false
  end.

Definition is_request (e : ImportModal.effect) : bool :=
  match e with
  | ImportModal.Api _ => true
  | _ => false
  end.

Definition sample_user : App.user_t := {| App.name := "Asha"; App.email := "asha@example.com" |}.

End Notions.

(** ** More of the staged import: the header checkbox of the Review step *)

Module ReviewSelection.

(** [checked={selected.size===activeCount&&activeCount>0}],
    [src/src/App.jsx] line 856. *)
Definition all_checked (s : ImportModal.state) : bool :=
  Nat.eqb (size (ImportModal.selected s)) (ImportModal.activeCount (ImportModal.staged s))
  && negb (Nat.eqb (ImportModal.activeCount (ImportModal.staged s)) 0).

(** The ids of the rows that are not rejected, in list order. *)
Definition active_ids (staged : list ImportModal.row) : list Z :=
  map ImportModal.id (List.filter ImportModal.active staged).

End ReviewSelection.

(** ** The period shown by the Transactions tab

    [getCurrentFY], [src/src/App.jsx] line 29, and [dateParams] of
    [TransactionsTab], lines 481-484. *)

Module Period.

Import Js AppJsx.

(** [getCurrentFY] for a date whose [getFullYear()] and [getMonth()] (0 for
    January) are given. *)
Definition getCurrentFY (fullYear month : Z) : Z :=
  if month <? 3 then fullYear - 1 else fullYear.

(** [dateParams]: [month] is null or a slot of the selector. *)
Definition dateParams (fy : Z) (month : option Z) : string :=
  match month with
  | Some m =>
      let r := getMonthRange fy m in
      "start_date=" +:+ start r +:+ "&end_date=" +:+ end_ r
  | None =>
      let r := getFYRange fy in
      "start_date=" +:+ start r +:+ "&end_date=" +:+ end_ r
  end.

End Period.

(** ** Balances in the list of the Accounts tab

    [fmtBal], [src/src/App.jsx] line 1013, and the colour of an account's
    balance, line 1073. *)

Module AccountsList.

Import Js.

Definition fmtBal (bal : number) (type : string) : string :=
  if String.eqb type "Liability" || String.eqb type "Income"
  then AppJsx.fmtFull (Js.abs bal)
  else AppJsx.fmtFull bal.

(** [x < 0] *)
Definition below_zero (x : number) : bool := SFltb x pzero.

(** [a.balance<0&&type!=="Liability"&&type!=="Income"?T.danger:T.text] *)
Definition balance_colour (balance : number) (type : string) : string :=
  if below_zero balance && negb (String.eqb type "Liability") && negb (String.eqb type "Income")
  then "#dc2626" else "#1c1917".

End AccountsList.

(** ** The pager of the Transactions tab

    [src/src/App.jsx] lines 651-657 (and [src/unnamed/part_000] lines
    424-430): the pager is shown when more than 30 transactions match, and
    each page holds 30. *)

Module Pager.

(** [Math.ceil(total/30)] for an integer [total]. *)
Definition pages (total : Z) : Z := (total + 29) / 30.

Record pager := { page : Z; total : Z }.

(** [total>30] *)
Definition shown (p : pager) : bool := 30 <? total p.

(** [disabled={page<=1}] and [disabled={page>=Math.ceil(total/30)}] *)
Definition prev_enabled (p : pager) : bool := negb (page p <=? 1).
Definition next_enabled (p : pager) : bool := negb (pages (total p) <=? page p).

(** [onClick={()=>setPage(page-1)}] and [onClick={()=>setPage(page+1)}];
    a button that is not shown or is disabled does nothing. *)
Definition click_prev (p : pager) : pager :=
  if shown p && prev_enabled p then {| page := page p - 1; total := total p |} else p.
Definition click_next (p : pager) : pager :=
  if shown p && next_enabled p then {| page := page p + 1; total := total p |} else p.

(** [setTotal(data.pagination?.total||0)] after a fetch: the page stays. *)
Definition fetched (n : Z) (p : pager) : pager := {| page := page p; total := n |}.

(** The effect of line 510: a change of period, filter or search goes
    back to the first page. *)
Definition filter_changed (p : pager) : pager := {| page := 1; total := total p |}.

End Pager.

(** ** Transactions grouped by date

    [groupedByDate] of [TransactionsTab], [src/src/App.jsx] lines 530-534. *)

Module Grouping.

Record transaction := {
  transaction_id : Z;
  date : option string            (* an ISO time stamp, or null *)
}.

(** [s.split("T")[0]] *)
Fixpoint before_T (s : string) : string :=
  match s with
  | EmptyString => EmptyString
  | String c s' => if Ascii.eqb c "T" then EmptyString else String c (before_T s')
  end.

(** [tx.date?.split("T")[0]||"unknown"] *)
Definition key_of (tx : transaction) : string :=
  match date tx with
  | Some d => if String.eqb (before_T d) "" then "unknown" else before_T d
  | None => "unknown"
  end.

(** A group: [{date:key,txns:[...]}]. *)
Record group := { group_date : string; txns : list transaction }.

(** The body of the loop on the dictionary [groups], kept in the order in
    which its keys were inserted: a new key is added at the end, a known
    one has the transaction pushed to its list.  (JavaScript lists keys
    that are array indices first; a date key such as 2024-05-01 is none.) *)
Fixpoint add (key : string) (tx : transaction) (groups : list group) : list group :=
  match groups with
  | [] => [{| group_date := key; txns := [tx] |}]
  | g :: rest =>
      if String.eqb (group_date g) key
      then {| group_date := group_date g; txns := txns g ++ [tx] |} :: rest
      else g :: add key tx rest
  end.

(** The loop over the transactions, for keys that [groups] does not
    inherit. *)
Definition grouped (l : list transaction) : list group :=
  fold_left (fun groups tx => add (key_of tx) tx groups) l [].

(** The names that the dictionary inherits from [Object.prototype]: for
    such a key [groups[key]] is defined before the key is inserted, no
    group is created, and [groups[key].txns.push(tx)] throws a
    [TypeError]. *)
Definition inherited (key : string) : bool :=
  existsb (String.eqb key)
    ["constructor"; "hasOwnProperty"; "isPrototypeOf"; "propertyIsEnumerable";
     "toLocaleString"; "toString"; "valueOf"; "__proto__"; "__defineGetter__";
     "__defineSetter__"; "__lookupGetter__"; "__lookupSetter__"].

(** [groupedByDate]; [None] when the loop throws. *)
Definition groupedByDate (l : list transaction) : option (list group) :=
  if existsb (fun tx => inherited (key_of tx)) l then None else Some (grouped l).

End Grouping.

(** ** The transaction form

    [TransactionModal], [src/src/App.jsx] lines 677-699: the values of the
    form that [save] tests, the presets, and what [save] does up to its
    [await]. *)

Module TransactionModal.

(** A value of the form: the text of an input or of a select option, or
    the number copied from an account or from the edited transaction. *)
Inductive value :=
  | Text (s : string)
  | Number (n : Z).

Definition truthy (v : value) : bool :=
  match v with
  | Text s => negb (String.eqb s "")
  | Number n => negb (n =? 0)
  end.

(** The fields of the form that [save] tests and the presets set, and the
    category; the date, the description, the narration and the tax section
    are carried along with the category and left out. *)
Record form := {
  amount : value;
  debit_account_id : value;
  credit_account_id : value;
  category : string
}.

Record preset := { label : string; dt : string; ct : string }.

(** Line 692. *)
Definition presets : list preset :=
  [{| label := "🛒 Expense"; dt := "Expense"; ct := "Asset" |};
   {| label := "💰 Income"; dt := "Asset"; ct := "Income" |};
   {| label := "🔄 Transfer"; dt := "Asset"; ct := "Asset" |};
   {| label := "💳 EMI"; dt := "Liability"; ct := "Asset" |}]%string.

(** [accounts.find(a=>a.account_type===t)?.account_id||""] *)
Definition first_of_type (accounts : list Accounts.account) (t : string) : value :=
  match List.find (fun a => String.eqb (Accounts.account_type a) t) accounts with
  | Some a => if Accounts.account_id a =? 0 then Text "" else Number (Accounts.account_id a)
  | None => Text ""
  end.

(** The click on a preset, line 701. *)
Definition apply_preset (accounts : list Accounts.account) (p : preset) (f : form) : form :=
  {| amount := amount f;
     debit_account_id := first_of_type accounts (dt p);
     credit_account_id := first_of_type accounts (ct p);
     category := category f |}.

Inductive effect :=
  | Toast (message type : string)
  | createTransaction (p : form)
  | updateTransaction (transaction_id : Z) (p : form).

(** [save], lines 685-690, up to the request: [editTx] is the id of the
    transaction being edited, if any.  The payload of a request is the
    form with its amount read as a number; the request is recorded with
    the form it is built from. *)
Definition save (editTx : option Z) (f : form) : list effect :=
  if negb (truthy (amount f)) || negb (truthy (debit_account_id f))
     || negb (truthy (credit_account_id f))
  then [Toast "Fill: Amount, From, To" "error"]
  else match editTx with
       | Some i => [updateTransaction i f]
       | None => [createTransaction f]
       end.

End TransactionModal.

(** ** Signing in and out

    [submit] of [AuthScreen], [src/src/App.jsx] lines 245-249, with
    [handleLogin] and [handleLogout] of [App], lines 1265-1266, in the
    monad of [App]. *)

Module Session.

Import App.

(** The answer to a login or a registration: [{token, user}]. *)
Record granted := { token : option string; granted_user : user_t }.

(** What the login screen holds besides the fields of the form. *)
Record auth := { loading : bool; error : string }.

(** [String(v)] of a string that may be undefined, as [setItem] stores it. *)
Definition stored (v : option string) : string := default "undefined"%string v.

Definition setItem (k : string) (v : option string) : M unit := fun w =>
  (Resolves tt,
   {| localStorage := <[k := stored v]> (localStorage w); api_token := api_token w;
      user := user w; accounts := accounts w; init := init w; requests := requests w |}).

(** [handleLogin], line 1265: a failure of the accounts fetch is ignored. *)
Definition handleLogin (u : user_t) (t : option string)
    (accounts_settle : outcome (list Accounts.account)) : M unit :=
  setUser (Some u);;
  set_api_token t;;
  try_catch (a ← await getAccounts accounts_settle; setAccounts a) (mret tt).

(** [handleLogout], line 1266. *)
Definition handleLogout : M unit :=
  removeItem "ft_token";;
  set_api_token None;;
  setUser None;;
  setAccounts [].

(** [submit] in login mode, for the credentials typed, given how the
    login request and the accounts fetch settle; the result is what the
    screen shows afterwards. *)
Definition submit (email password : string) (login_settles : outcome granted)
    (accounts_settle : outcome (list Accounts.account)) : M auth := fun w =>
  match await (login email password) login_settles w with
  | (Resolves data, w1) =>
      match (set_api_token (token data);;
             setItem "ft_token" (token data);;
             handleLogin (granted_user data) (token data) accounts_settle) w1 with
      | (_, w2) => (Resolves {| loading := false; error := "" |}, w2)
      end
  | (Rejects e, w1) => (Resolves {| loading := false; error := e |}, w1)
  end.

(** A reload of the page: storage survives, the rest starts afresh. *)
Definition reload (w : world) : world := boot (localStorage w).

End Session.

(** ** Selecting transactions on a page of the Transactions tab

    The state of [TransactionsTab] that the selection involves,
    [src/src/App.jsx] lines 474, 492-494, 510, 514-515, 586, 596 and 609. *)

Module TransactionsTab.

Record state := {
  txns : list Grouping.transaction;     (* the page shown *)
  selected : gset Z;
  pager : Pager.pager
}.

Definition set_selected (v : gset Z) (s : state) : state :=
  {| txns := txns s; selected := v; pager := pager s |}.

Definition set_pager (p : Pager.pager) (s : state) : state :=
  {| txns := txns s; selected := selected s; pager := p |}.

(** [txns.map(t=>t.transaction_id)] *)
Definition page_ids (s : state) : list Z := map Grouping.transaction_id (txns s).

(** [toggleSelect], line 514. *)
Definition toggleSelect (id : Z) (s : state) : state :=
  if decide (id ∈ selected s) then set_selected (selected s ∖ {[ id ]}) s
  else set_selected (selected s ∪ {[ id ]}) s.

(** [selectAll], line 515. *)
Definition selectAll (s : state) : state :=
  if Nat.eqb (size (selected s)) (length (txns s)) then set_selected ∅ s
  else set_selected (list_to_set (page_ids s)) s.

(** The header checkbox, line 596:
    [checked={selected.size===txns.length&&txns.length>0}]. *)
Definition header_checked (s : state) : bool :=
  Nat.eqb (size (selected s)) (length (txns s)) && Nat.ltb 0 (length (txns s)).

(** [isSel], line 609. *)
Definition isSel (s : state) (tx : Grouping.transaction) : bool :=
  bool_decide (Grouping.transaction_id tx ∈ selected s).

(** The Clear button of the bulk bar, line 586. *)
Definition clear (s : state) : state := set_selected ∅ s.

(** The buttons of the pager. *)
Definition click_prev (s : state) : state := set_pager (Pager.click_prev (pager s)) s.
Definition click_next (s : state) : state := set_pager (Pager.click_next (pager s)) s.

(** [fetchTxns] resolving, lines 492-494:
    [setTxns(data.transactions||[]);setTotal(data.pagination?.total||0)]. *)
Definition loaded (transactions : option (list Grouping.transaction)) (total : option Z)
    (s : state) : state :=
  {| txns := default [] transactions; selected := selected s;
     pager := Pager.fetched (default 0 total) (pager s) |}.

(** The effect of line 510, run when the period, the account filter or
    the search text changes. *)
Definition period_changed (s : state) : state :=
  {| txns := txns s; selected := ∅; pager := Pager.filter_changed (pager s) |}.

End TransactionsTab.

(** ** The direct import of [src/unnamed/part_000]

    [ImportModal], lines 507-552, inside the Transactions tab that opens it
    (lines 271, 331 and 433).  [api.importCSV] (lines 97-101) does not go
    through [api.call]: the promise resolves with the body of the answer
    whatever its status, and rejects when the request or the parsing of
    the body fails. *)

Module Part000ImportModal.

(** The body of the answer, an object; a field may be missing. *)
Record import_data := {
  imported : option Z;
  skipped : option Z;
  errors : option (list string);
  error : option string
}.

(** [x > 0], false for [undefined]. *)
Definition positive (x : option Z) : bool :=
  match x with
  | Some n => 0 <? n
  | None => false
  end.

Inductive effect :=
  | Toast (message type : string)
  | importCSV (file : string)
  | FetchTxns.

Record state := {
  open : bool;                    (* [showImport] of the tab *)
  file : option string;           (* the name of the chosen file *)
  loading : bool;
  result : option import_data
}.

Definition initial : state :=
  {| open := false; file := None; loading := false; result := None |}.

(** [result?.imported > 0] *)
Definition done (s : state) : bool :=
  match result s with
  | Some data => positive (imported data)
  | None => false
  end.

(** The label of the main button. *)
Definition main_label (s : state) : string :=
  if done s then "Done" else "Upload & Import".

(** [handleUpload] up to its [await], lines 512-518. *)
Definition handleUpload (s : state) : state * list effect :=
  match file s with
  | None => (s, [Toast "Select a CSV file" "error"])
  | Some f =>
      ({| open := open s; file := file s; loading := true; result := result s |},
       [importCSV f])
  end.

(** The rest of [handleUpload], lines 519-523. *)
Definition settled (r : outcome import_data) (s : state) : state * list effect :=
  match r with
  | Resolves data =>
      ({| open := open s; file := file s; loading := false; result := Some data |},
       [if positive (imported data)
        then Toast ("Imported " +:+ default "undefined"%string (Js.String_of_Z <$> imported data)
                    +:+ " transactions!") "success"
        else Toast (if Js.str_truthy (error data) then default ""%string (error data)
                    else "No transactions imported") "error"])
  | Rejects m =>
      ({| open := open s; file := file s; loading := false; result := result s |},
       [Toast m "error"])
  end.

(** [() => { onClose(); setFile(null); setResult(null); }] with the
    [onClose] of line 433. *)
Definition close (s : state) : state * list effect :=
  ({| open := false; file := None; loading := loading s; result := None |}, []).

(** [() => { onSuccess(); setFile(null); setResult(null); }] with the
    [onSuccess] of line 433. *)
Definition finish (s : state) : state * list effect :=
  ({| open := false; file := None; loading := loading s; result := None |}, [FetchTxns]).

Inductive event :=
  | OpenModal                                   (* the Import button, line 331 *)
  | ChooseFile (f : option string)              (* [e.target.files[0]] *)
  | ClickMain
  | ClickCancel
  | CloseModal                                  (* the close button or the backdrop *)
  | UploadSettled (r : outcome import_data).

Definition handle (s : state) (e : event) : state * list effect :=
  match e with
  | OpenModal =>
      ({| open := true; file := file s; loading := loading s; result := result s |}, [])
  | ChooseFile f =>
      if open s
      then ({| open := open s; file := f; loading := loading s; result := result s |}, [])
      else (s, [])
  | ClickMain =>
      if open s && negb (loading s)
      then (if done s then finish s else handleUpload s)
      else (s, [])
  | ClickCancel | CloseModal => if open s then close s else (s, [])
  | UploadSettled r => settled r s
  end.

(** A run: the events in order, the effects accumulated. *)
Fixpoint run (s : state) (events : list event) : state * list effect :=
  match events with
  | [] => (s, [])
  | e :: rest =>
      let '(s1, es1) := handle s e in
      let '(s2, es2) := run s1 rest in
      (s2, es1 ++ es2)
  end.

End Part000ImportModal.

(** ** The export to comma-separated values *)

Module Csv.

(** A row handed to [exportCSV] (lines 43-49): the own enumerable
    properties of a plain object, in the order in which [Object.keys] lists
    them; a value is absent ([null] or [undefined]) or given by the text
    its [toString()] yields. *)
Definition object := list (string * option string).

Definition keys (r : object) : list string := map fst r.

Definition dquote : ascii := "034"%char.
Definition comma : ascii := ","%char.
Definition newline : ascii := "010"%char.

(** The [replace] of line 46: every double quote is written twice. *)
Fixpoint replace_quotes (s : string) : string :=
  match s with
  | EmptyString => EmptyString
  | String c s' =>
      if Ascii.eqb c dquote then String dquote (String dquote (replace_quotes s'))
      else String c (replace_quotes s')
  end.

(** [Array.prototype.join] *)
Fixpoint join (sep : string) (l : list string) : string :=
  match l with
  | [] => ""
  | x :: l' => match l' with [] => x | _ :: _ => x +:+ sep +:+ join sep l' end
  end.

Section Prototype.

(** The text that [Object.prototype[name].toString()] yields for a name
    the row inherits: the source text of a native function, whose layout
    is the browser's, or that of [Object.prototype] itself for
    [__proto__].  It is a parameter. *)
Variable prototype_text : string -> string.

(** [r[h]]: the row's own property, else the one it inherits. *)
Definition get (r : object) (h : string) : option string :=
  match List.find (fun kv => String.eqb (fst kv) h) r with
  | Some (_, v) => v
  | None => if Js.inherited_name h then Some (prototype_text h) else None
  end.

Definition cell (v : option string) : string :=
  String dquote (replace_quotes (default ""%string v)) +:+ String dquote "".

Definition line (headers : list string) (r : object) : string :=
  join (String comma "") (map (fun h => cell (get r h)) headers).

(** The text of the file offered for download; [None] when the function
    returns without offering one. *)
Definition exportCSV (rows : list object) : option string :=
  match rows with
  | [] => None
  | r0 :: _ =>
      let headers := keys r0 in
      Some (join (String newline "")
              (join (String comma "") headers :: map (line headers) rows))
  end.

End Prototype.

End Csv.

(** ** Notions used to state the further properties *)

Module MoreNotions.

(** The transactions of a list filed under a key, in list order. *)
Definition filed_under (key : string) (l : list Grouping.transaction) : list Grouping.transaction :=
  List.filter (fun tx => String.eqb (Grouping.key_of tx) key) l.

(** The transactions of the group with a given key, if there is one. *)
Fixpoint find_group (key : string) (groups : list Grouping.group)
    : option (list Grouping.transaction) :=
  match groups with
  | [] => None
  | g :: rest =>
      if String.eqb (Grouping.group_date g) key then Some (Grouping.txns g)
      else find_group key rest
  end.

Definition is_request (e : TransactionModal.effect) : bool :=
  match e with
  | TransactionModal.Toast _ _ => false
  | _ => true
  end.

Inductive mode := Unquoted | Quoted | Closed.

(** A reader of comma-separated values after RFC 4180, records split at
    line feeds: a field is bare, without quote, comma or line feed, or it is
    enclosed in quotes with every quote inside it doubled. *)
Fixpoint read (m : mode) (field : string) (record : list string)
    (records : list (list string)) (s : string) : option (list (list string)) :=
  match s with
  | EmptyString =>
      match m with
      | Quoted => None
      | _ => Some (records ++ [record ++ [field]])
      end
  | String c s' =>
      match m with
      | Unquoted =>
          if Ascii.eqb c Csv.dquote
          then (if String.eqb field "" then read Quoted "" record records s' else None)
          else if Ascii.eqb c Csv.comma then read Unquoted "" (record ++ [field]) records s'
          else if Ascii.eqb c Csv.newline
               then read Unquoted "" [] (records ++ [record ++ [field]]) s'
          else read Unquoted (field +:+ String c "") record records s'
      | Quoted =>
          if Ascii.eqb c Csv.dquote then read Closed field record records s'
          else read Quoted (field +:+ String c "") record records s'
      | Closed =>
          if Ascii.eqb c Csv.dquote then read Quoted (field +:+ String Csv.dquote "") record records s'
          else if Ascii.eqb c Csv.comma then read Unquoted "" (record ++ [field]) records s'
          else if Ascii.eqb c Csv.newline
               then read Unquoted "" [] (records ++ [record ++ [field]]) s'
          else None
      end
  end.

Definition read_csv (s : string) : option (list (list string)) := read Unquoted "" [] [] s.

(** A name that can stand bare in a line of the file. *)
Fixpoint bare (s : string) : bool :=
  match s with
  | EmptyString => true
  | String c s' =>
      negb (Ascii.eqb c Csv.dquote) && negb (Ascii.eqb c Csv.comma) && negb (Ascii.eqb c Csv.newline)
      && bare s'
  end.

(** What a row holds under a column name: the text of its own property
    of that name, empty when the property is absent; when the row has no
    such property, the text of the property it inherits if the name is
    one that objects inherit, and the empty text otherwise. *)
Definition value_of (prototype_text : string -> string) (r : Csv.object) (h : string)
    : string :=
  match List.find (fun kv => String.eqb (fst kv) h) r with
  | Some (_, Some text) => text
  | Some (_, None) => ""
  | None => if Js.inherited_name h then prototype_text h else ""
  end.

Definition values (prototype_text : string -> string) (headers : list string)
    (r : Csv.object) : list string :=
  map (value_of prototype_text r) headers.

(** The layout of native functions in Chromium. *)
Definition chromium_text (name : string) : string :=
  if String.eqb name "__proto__" then "[object Object]"
  else if String.eqb name "constructor" then "function Object() { [native code] }"
  else "function " +:+ name +:+ "() { [native code] }".

(** Every selected id is the id of a transaction of the page shown. *)
Definition within_page (s : TransactionsTab.state) : Prop :=
  forall i : Z, i ∈ TransactionsTab.selected s -> In i (TransactionsTab.page_ids s).

(** The refreshes of the list among the effects of the direct import, and
    the uploads that imported something among its events. *)
Definition refreshes (es : list Part000ImportModal.effect) : nat :=
  length (List.filter (fun e => match e with Part000ImportModal.FetchTxns => true | _ => false end) es).

Definition imports (events : list Part000ImportModal.event) : nat :=
  length (List.filter
            (fun e => match e with
                      | Part000ImportModal.UploadSettled (Resolves data) =>
                          Part000ImportModal.positive (Part000ImportModal.imported data)
                      | _ => false
                      end) events).

Definition uploads (es : list Part000ImportModal.effect) : nat :=
  length (List.filter (fun e => match e with Part000ImportModal.importCSV _ => true | _ => false end) es).

(** An import that reported transactions and was not yet acknowledged. *)
Definition pending (s : Part000ImportModal.state) : nat :=
  if Part000ImportModal.done s then 1%nat else 0%nat.

Definition counts_as_import (e : Part000ImportModal.event) : nat := imports [e].

End MoreNotions.
(** * Properties *)

(** ** Formatting of amounts *)

Section Formatting.

Import Js.

Example toFixed_rounds_the_double :
  toFixed (decimal 145 2) 1 = Some "1.4"%string /\ toFixed (decimal 125 2) 1 = Some "1.3"%string.
Proof. split; vm_compute; reflexivity. Qed.

Example en_IN_grouping :
  toLocaleString_en_IN (of_Z 12345678) = "1,23,45,678"%string
  /\ toLocaleString_en_IN (decimal 9996 1) = "1,000"%string.
Proof. split; vm_compute; reflexivity. Qed.

(** C5, as stated, fails on [fmt] of [src/src/App.jsx]: it prints the unit
    right after the digits, so 12,345,678 does not become "1.23 Cr". *)
Lemma fmt_App_jsx_not_spaced :
  ~ (AppJsx.fmt (of_Z 12345678) = Some "1.23 Cr"%string
     /\ AppJsx.fmt (of_Z 234567) = Some "2.35 L"%string
     /\ AppJsx.fmt (of_Z 4500) = Some "4.5 K"%string
     /\ AppJsx.fmt (of_Z 900) = Some "900"%string).
Proof. intros [H _]. vm_compute in H. discriminate H. Qed.

(** C5, amended: [fmt] of [src/unnamed/part_000] maps 12,345,678 to
    "1.23 Cr", 234,567 to "2.35 L", 4,500 to "4.5 K" and 900 to "900";
    [fmt] of [src/src/App.jsx] (both revisions in that file) prints the
    same digits with the unit attached: "1.23Cr", "2.35L", "4.5K", and
    "900". *)
Theorem fmt_examples :
  (Part000.fmt (of_Z 12345678) = Some "1.23 Cr"%string
   /\ Part000.fmt (of_Z 234567) = Some "2.35 L"%string
   /\ Part000.fmt (of_Z 4500) = Some "4.5 K"%string
   /\ Part000.fmt (of_Z 900) = Some "900"%string)
  /\ (AppJsx.fmt (of_Z 12345678) = Some "1.23Cr"%string
      /\ AppJsx.fmt (of_Z 234567) = Some "2.35L"%string
      /\ AppJsx.fmt (of_Z 4500) = Some "4.5K"%string
      /\ AppJsx.fmt (of_Z 900) = Some "900"%string)
  /\ (AppJsxEarly.fmt (of_Z 12345678) = Some "1.23Cr"%string
      /\ AppJsxEarly.fmt (of_Z 234567) = Some "2.35L"%string
      /\ AppJsxEarly.fmt (of_Z 4500) = Some "4.5K"%string
      /\ AppJsxEarly.fmt (of_Z 900) = Some "900"%string).
Proof. repeat split; vm_compute; reflexivity. Qed.

End Formatting.

(** ** Financial years and months *)

Section FinancialYear.

Import AppJsx Notions.

Lemma slot_cases (i : Z) :
  0 <= i < 12 ->
  i = 0 \/ i = 1 \/ i = 2 \/ i = 3 \/ i = 4 \/ i = 5 \/ i = 6 \/ i = 7 \/ i = 8
  \/ i = 9 \/ i = 10 \/ i = 11.
Proof. lia. Qed.

(** The month number computed for a slot is that of the slot's label. *)
Lemma month_of_slot_label (i : Z) :
  0 <= i < 12 ->
  calendar !! Z.to_nat (month_of_slot i - 1) = MONTHS !! Z.to_nat i.
Proof.
  intros H. destruct (slot_cases i H) as [-> | H']; [reflexivity |].
  repeat (destruct H' as [-> | H']; [reflexivity |]). subst i. reflexivity.
Qed.

(** The two revisions that have the helpers compute the same ranges. *)
Lemma getMonthRange_same fy i : Part000.getMonthRange fy i = getMonthRange fy i.
Proof. reflexivity. Qed.

Lemma getFYRange_same fy : Part000.getFYRange fy = getFYRange fy.
Proof. reflexivity. Qed.

(** X1: The twelve month ranges tile the financial year: the first starts
    where the year starts, each ends where the next starts, and the last
    ends on the first day of the next financial year. *)
Lemma month_ranges_tile (fy i : Z) :
  0 <= i < 11 ->
  start (getMonthRange fy 0) = start (getFYRange fy)
  /\ end_ (getMonthRange fy i) = start (getMonthRange fy (i + 1))
  /\ end_ (getMonthRange fy 11) = start (getFYRange (fy + 1)).
Proof.
  intros H. split; [reflexivity |]. split; [| reflexivity].
  assert (Hi : 0 <= i < 12) by lia.
  destruct (slot_cases i Hi) as [-> | H']; [reflexivity |].
  repeat (destruct H' as [-> | H']; [reflexivity |]). lia.
Qed.

(** C3, as stated, fails: slot 10 of the selector is February, and the
    range computed for it within FY 2024 starts on 2025-02-01. *)
Lemma month_10_is_not_january :
  ~ (getFYRange 2024 = {| start := "2024-04-01"; end_ := "2025-03-31" |}
     /\ getMonthRange 2024 10 = {| start := "2025-01-01"; end_ := "2025-02-01" |}).
Proof. intros [_ H]. vm_compute in H. discriminate H. Qed.

(** C3, amended: the range of FY 2024 is 2024-04-01 to 2025-03-31;
    January is slot 9 of the month selector, and [getMonthRange] maps slot 9
    of FY 2024 to 2025-01-01 and 2025-02-01, while slot 10 is February and
    maps to 2025-02-01 and 2025-03-01.  Both revisions that have the
    helpers agree. *)
Theorem fy_2024_ranges :
  getFYRange 2024 = {| start := "2024-04-01"; end_ := "2025-03-31" |}
  /\ MONTHS !! 9%nat = Some "Jan"%string
  /\ getMonthRange 2024 9 = {| start := "2025-01-01"; end_ := "2025-02-01" |}
  /\ MONTHS !! 10%nat = Some "Feb"%string
  /\ getMonthRange 2024 10 = {| start := "2025-02-01"; end_ := "2025-03-01" |}
  /\ Part000.getFYRange 2024 = getFYRange 2024
  /\ Part000.getMonthRange 2024 9 = getMonthRange 2024 9
  /\ Part000.getMonthRange 2024 10 = getMonthRange 2024 10.
Proof. repeat split; vm_compute; reflexivity. Qed.

End FinancialYear.

(** ** Classification of transactions *)

Section ClassificationFacts.

Import Classification.

Lemma isExp_iff tx : isExp tx = true <-> debit_account_type tx = "Expense"%string.
Proof. unfold isExp. apply String.eqb_eq. Qed.

Lemma isInc_iff tx : isInc tx = true <-> credit_account_type tx = "Income"%string.
Proof. unfold isInc. apply String.eqb_eq. Qed.

(** What is shown follows the label: the sign, and the Transfer pill. *)
Lemma sign_of_label tx :
  sign tx = match classify tx with
            | expense => "−" | income => "+" | transfer => "↔"
            end%string.
Proof. unfold sign, classify, pick. destruct (isExp tx), (isInc tx); reflexivity. Qed.

Lemma dashboard_sign_of_label tx :
  dashboard_sign tx = match classify tx with
                      | expense => "−" | income => "+" | transfer => ""
                      end%string.
Proof. unfold dashboard_sign, classify, pick. destruct (isExp tx), (isInc tx); reflexivity. Qed.

Lemma isTransfer_label tx : isTransfer tx = true <-> classify tx = transfer.
Proof.
  unfold isTransfer, classify, pick.
  destruct (isExp tx), (isInc tx); simpl; split; congruence.
Qed.

(** C2, as stated, fails: a transaction that debits an Expense account and
    credits an Income account is shown as an expense, although its credit
    account's type is Income. *)
Lemma expense_from_income_is_not_income :
  let tx := {| transaction_id := 1;
               debit_account_type := "Expense";
               credit_account_type := "Income" |} in
  classify tx = expense
  /\ ~ (classify tx = income <-> credit_account_type tx = "Income"%string).
Proof.
  split; [reflexivity |].
  intros [_ H]. specialize (H eq_refl). vm_compute in H. discriminate H.
Qed.

(** C2, amended: a transaction is labelled expense if and only if its debit
    account's type is Expense; income if and only if its credit account's
    type is Income and its debit account's type is not Expense; transfer if
    and only if neither holds.  The three conditions are mutually exclusive
    and exhaustive, so every transaction receives exactly one label. *)
Theorem classify_spec (tx : transaction) :
  let D := debit_account_type tx = "Expense"%string in
  let C := credit_account_type tx = "Income"%string in
  (classify tx = expense <-> D)
  /\ (classify tx = income <-> C /\ ~ D)
  /\ (classify tx = transfer <-> ~ D /\ ~ C)
  /\ (D \/ (C /\ ~ D) \/ (~ D /\ ~ C))
  /\ ~ (D /\ (C /\ ~ D)) /\ ~ (D /\ (~ D /\ ~ C)) /\ ~ ((C /\ ~ D) /\ (~ D /\ ~ C)).
Proof.
  intros D C. subst D C.
  pose proof (isExp_iff tx) as HE. pose proof (isInc_iff tx) as HI.
  unfold classify, pick.
  destruct (isExp tx) eqn:E, (isInc tx) eqn:I;
    repeat split; try congruence; try tauto;
    try (intros _; tauto); try (intros; exfalso; intuition congruence);
    intuition congruence.
Qed.

End ClassificationFacts.

(** ** The shared API client *)

Section ApiCall.

Import Js AppJsx.

Context {A : Type}.

Lemma includes_prefix needle s : String.prefix needle s = true -> includes needle s = true.
Proof. intros H. destruct s; simpl in *; rewrite H; reflexivity. Qed.

(** The message thrown for a response that is not 2xx and carries JSON. *)
Lemma failure_reason_error (res : response A) (data : json A) (e : string) :
  error data = Some e -> e <> ""%string -> failure_reason res data = e.
Proof.
  intros He Hne. unfold failure_reason. rewrite He.
  destruct (String.eqb_spec e ""); [contradiction | reflexivity].
Qed.

Lemma failure_reason_default (res : response A) (data : json A) :
  error data = None \/ error data = Some ""%string ->
  failure_reason res data = ("Request failed (" +:+ String_of_Z (status res) +:+ ")")%string.
Proof. intros [H | H]; unfold failure_reason; rewrite H; reflexivity. Qed.

(** Whatever is thrown inside [try] passes through the same test. *)
Lemma call_rejects (f : fetched A) (m : string) :
  call_try f = inr m ->
  call f = Rejects (if includes "Failed to fetch" m then advisory else m).
Proof.
  intros H. unfold call, call_catch. rewrite H.
  destruct (includes "Failed to fetch" m); reflexivity.
Qed.

Lemma call_resolves (res : response A) (data : json A) :
  res_body res = BodyJson data -> ok res = true -> call (FetchResolves res) = Resolves data.
Proof. intros Hb Hok. unfold call, call_try. rewrite Hb, Hok. reflexivity. Qed.

(** What [api.call] surfaces.  A response that is not 2xx and whose body is
    a JSON object is surfaced with the body's [error] field, or with
    "Request failed (status)" when the field is absent or empty, unless
    that text contains "Failed to fetch"; the message is replaced by the
    advisory exactly when the error raised inside the call (by [fetch], by
    reading the body, or for the status) has a message containing "Failed
    to fetch", as the message of Chromium's network failure does. *)
Lemma call_failure_reason :
  (* a response that is not 2xx, with a JSON body *)
  (forall (res : response A) (data : json A),
     res_body res = BodyJson data -> ok res = false ->
     (forall e, error data = Some e -> e <> ""%string -> failure_reason res data = e)
     /\ (error data = None \/ error data = Some ""%string ->
         failure_reason res data
         = ("Request failed (" +:+ String_of_Z (status res) +:+ ")")%string)
     /\ (includes "Failed to fetch" (failure_reason res data) = false ->
         call (FetchResolves res) = Rejects (failure_reason res data))
     /\ (includes "Failed to fetch" (failure_reason res data) = true ->
         call (FetchResolves res) = Rejects advisory))
  (* no response at all *)
  /\ (forall m : string,
        (call (A := A) (FetchRejects m) = Rejects advisory
         <-> includes "Failed to fetch" m = true \/ m = advisory)
        /\ (includes "Failed to fetch" m = false -> call (A := A) (FetchRejects m) = Rejects m))
  /\ call (A := A) (FetchRejects "Failed to fetch") = Rejects advisory
  (* a 2xx response with a JSON body is returned *)
  /\ (forall (res : response A) (data : json A),
        res_body res = BodyJson data -> ok res = true ->
        call (FetchResolves res) = Resolves data).
Proof.
  split; [| split; [| split; [reflexivity | apply call_resolves]]].
  - intros res data Hb Hok.
    assert (Htry : call_try (FetchResolves res) = inr (failure_reason res data)).
    { unfold call_try. rewrite Hb, Hok. reflexivity. }
    split; [intros e; apply failure_reason_error |].
    split; [apply failure_reason_default |].
    split; intros H; rewrite (call_rejects _ _ Htry), H; reflexivity.
  - intros m. unfold call, call_try, call_catch.
    destruct (includes "Failed to fetch" m) eqn:E.
    + split; [split; auto | discriminate].
    + split; [split | reflexivity].
      * intros H. injection H as ->. right. reflexivity.
      * intros [H | ->]; [discriminate | reflexivity].
Qed.

End ApiCall.

(** C6, evaluated on two failures.  A 500 response whose [error] field is
    "Failed to fetch transactions" is not a network-level failure, yet the
    caller receives the advisory and not the field: the error is thrown
    inside the [try] block whose [catch] tests the message.  And a
    network-level failure worded as Firefox words it does not contain
    "Failed to fetch": the caller receives it unchanged, not the
    advisory. *)
Theorem failure_kind_is_misjudged :
  let res := {| AppJsx.status := 500;
                AppJsx.res_body :=
                  AppJsx.BodyJson {| AppJsx.error := Some "Failed to fetch transactions"%string;
                                     AppJsx.payload := tt |} |} in
  let firefox := "NetworkError when attempting to fetch resource."%string in
  AppJsx.ok res = false
  /\ AppJsx.call (AppJsx.FetchResolves res) = Rejects AppJsx.advisory
  /\ AppJsx.call (AppJsx.FetchResolves res) <> Rejects "Failed to fetch transactions"%string
  /\ AppJsx.call (A := unit) (AppJsx.FetchRejects firefox) = Rejects firefox
  /\ AppJsx.call (A := unit) (AppJsx.FetchRejects firefox) <> Rejects AppJsx.advisory
  /\ Part000.call (AppJsx.FetchResolves res) = Rejects AppJsx.advisory
  /\ Part000.call (A := unit) (AppJsx.FetchRejects firefox) = Rejects firefox.
Proof. repeat split; vm_compute; congruence. Qed.

(** A 404 without an [error] field. *)
Lemma call_failure_reason_witness :
  AppJsx.call (AppJsx.FetchResolves
     {| AppJsx.status := 404;
        AppJsx.res_body := AppJsx.BodyJson {| AppJsx.error := None; AppJsx.payload := tt |} |})
  = Rejects "Request failed (404)"%string.
Proof.
  destruct (call_failure_reason (A := unit)) as (H & _).
  destruct (H {| AppJsx.status := 404;
                 AppJsx.res_body :=
                   AppJsx.BodyJson {| AppJsx.error := None; AppJsx.payload := tt |} |}
              {| AppJsx.error := None; AppJsx.payload := tt |} eq_refl eq_refl)
    as (_ & _ & Hs & _).
  rewrite Hs; reflexivity.
Defined.

(** ** Net worth *)

Section Whole.

Import Js Notions.

(** *** Sums of whole numbers do not round *)

Lemma iter_pos_swap {A} (f : A -> A) (p : positive) : forall x,
  SpecFloat.iter_pos f p (f x) = f (SpecFloat.iter_pos f p x).
Proof.
  induction p as [p IH | p IH |]; intros x; cbn [SpecFloat.iter_pos].
  - rewrite !IH. reflexivity.
  - rewrite !IH. reflexivity.
  - reflexivity.
Qed.

Lemma iter_pos_succ {A} (f : A -> A) (p : positive) (x : A) :
  SpecFloat.iter_pos f (Pos.succ p) x = f (SpecFloat.iter_pos f p x).
Proof.
  revert x. induction p as [p IH | p IH |]; intros x.
  - change (SpecFloat.iter_pos f (Pos.succ p) (SpecFloat.iter_pos f (Pos.succ p) x)
            = f (SpecFloat.iter_pos f p (SpecFloat.iter_pos f p (f x)))).
    rewrite !IH, !iter_pos_swap. reflexivity.
  - change (SpecFloat.iter_pos f p (SpecFloat.iter_pos f p (f x))
            = f (SpecFloat.iter_pos f p (SpecFloat.iter_pos f p x))).
    rewrite !iter_pos_swap. reflexivity.
  - reflexivity.
Qed.

Lemma Zpos_shift (m d : positive) : Zpos (Pos.iter xO m d) = Zpos m * 2 ^ Zpos d.
Proof.
  induction d as [| d IH] using Pos.peano_ind.
  - cbn. lia.
  - rewrite Pos.iter_succ, Pos2Z.inj_xO, IH, Pos2Z.inj_succ, Z.pow_succ_r by lia. lia.
Qed.

Lemma digits_shift (m d : positive) :
  digits2_pos (Pos.iter xO m d) = (digits2_pos m + d)%positive.
Proof.
  induction d as [| d IH] using Pos.peano_ind.
  - cbn. lia.
  - rewrite Pos.iter_succ. cbn [digits2_pos]. rewrite IH. lia.
Qed.

Lemma shr_exact (k p : positive) :
  SpecFloat.iter_pos shr_1 p (Build_shr_record (Zpos (Pos.iter xO k p)) false false)
  = Build_shr_record (Zpos k) false false.
Proof.
  induction p as [| p IH] using Pos.peano_ind.
  - reflexivity.
  - rewrite iter_pos_succ, Pos.iter_succ, <- iter_pos_swap. cbn [shr_1 orb]. exact IH.
Qed.

Lemma shift_pos_add (n : positive) (a b : Z) :
  0 <= a -> 0 <= b -> shift_pos (shift_pos n a) b = shift_pos n (a + b).
Proof.
  intros Ha Hb. destruct a as [| a | a]; [| | lia]; destruct b as [| b | b]; try lia;
    try reflexivity.
  change (Pos.iter xO (Pos.iter xO n a) b = Pos.iter xO n (a + b)).
  rewrite Pos.add_comm, Pos.iter_add. reflexivity.
Qed.

Lemma digits_shift_pos (n : positive) (d : Z) :
  0 <= d -> Zpos (digits2_pos (shift_pos n d)) = Zpos (digits2_pos n) + d.
Proof.
  intros Hd. destruct d as [| p | p]; [cbn; lia | | lia].
  cbn [shift_pos]. rewrite digits_shift. lia.
Qed.

Lemma digits_canon (n : positive) :
  Zpos (digits2_pos n) <= prec -> Zpos (digits2_pos (canon n)) = prec.
Proof. intros H. unfold canon. rewrite digits_shift_pos by lia. lia. Qed.

Lemma fexp_digits (d t : Z) : d = prec -> -1074 <= t -> fexp prec emax (d + t) = t.
Proof. intros -> Ht. unfold fexp, emin, prec, emax in *. lia. Qed.

Lemma round_aux_canon (s : bool) (k : positive) (t : Z) :
  Zpos (digits2_pos k) = prec -> -1074 <= t <= 971 ->
  binary_round_aux prec emax s (Zpos k) t loc_Exact = S754_finite s k t.
Proof.
  intros Hk Ht. unfold binary_round_aux, shr_fexp.
  cbn [Zdigits2 shr_record_of_loc]. rewrite (fexp_digits _ t Hk) by lia.
  rewrite Z.sub_diag. cbn [shr loc_of_shr_record shr_m round_nearest_even Zdigits2 shr_record_of_loc].
  rewrite (fexp_digits _ t Hk) by lia. rewrite Z.sub_diag. cbn [shr shr_m].
  destruct (Z.leb_spec t (emax - prec)) as [_ | H]; [reflexivity | unfold emax, prec in H; lia].
Qed.

Lemma round_aux_shifted (s : bool) (k p : positive) (t : Z) :
  Zpos (digits2_pos k) = prec -> -1074 <= t <= 971 ->
  binary_round_aux prec emax s (Zpos (Pos.iter xO k p)) (t - Zpos p) loc_Exact
  = S754_finite s k t.
Proof.
  intros Hk Ht. unfold binary_round_aux, shr_fexp.
  cbn [Zdigits2 shr_record_of_loc]. rewrite digits_shift.
  replace (Zpos (digits2_pos k + p) + (t - Zpos p)) with (Zpos (digits2_pos k) + t) by lia.
  rewrite (fexp_digits _ t Hk) by lia.
  replace (t - (t - Zpos p)) with (Zpos p) by lia.
  cbn [shr]. rewrite shr_exact.
  cbn [loc_of_shr_record shr_m round_nearest_even Zdigits2 shr_record_of_loc].
  replace (t - Zpos p + Zpos p) with t by lia.
  rewrite (fexp_digits _ t Hk) by lia. rewrite Z.sub_diag. cbn [shr shr_m].
  destruct (Z.leb_spec t (emax - prec)) as [_ | H]; [reflexivity | unfold emax, prec in H; lia].
Qed.

(** Rounding a whole number below 2^53, given at any scale, is exact. *)
Lemma round_scaled (s : bool) (n : positive) (j : Z) :
  Zpos (digits2_pos n) <= prec -> 0 <= j ->
  binary_round prec emax s (shift_pos n j) (- j)
  = S754_finite s (canon n) (Zpos (digits2_pos n) - prec).
Proof.
  intros Hn Hj. unfold binary_round.
  rewrite digits_shift_pos by assumption.
  replace (Zpos (digits2_pos n) + j + - j) with (prec + (Zpos (digits2_pos n) - prec)) by lia.
  rewrite fexp_digits by (unfold prec in *; lia).
  set (t := Zpos (digits2_pos n) - prec).
  assert (Ht : -1074 <= t <= 971) by (unfold t, prec in *; lia).
  unfold shl_align.
  destruct (Z.le_gt_cases j (prec - Zpos (digits2_pos n))) as [H | H].
  - assert (Hc : canon n = shift_pos (shift_pos n j) (prec - Zpos (digits2_pos n) - j)).
    { rewrite shift_pos_add by lia. unfold canon. f_equal. lia. }
    replace (t - - j) with (- (prec - Zpos (digits2_pos n) - j)) by (unfold t; lia).
    destruct (prec - Zpos (digits2_pos n) - j) as [| d | d] eqn:E; [| | lia].
    + change (- 0) with 0. change (shift_pos (shift_pos n j) 0) with (shift_pos n j) in Hc.
      lazy beta iota. rewrite <- Hc. replace (- j) with t by (unfold t; lia).
      apply round_aux_canon; [apply digits_canon, Hn | exact Ht].
    + change (- Zpos d) with (Zneg d).
      change (shift_pos (shift_pos n j) (Zpos d)) with (Pos.iter xO (shift_pos n j) d) in Hc.
      lazy beta iota. rewrite <- Hc.
      apply round_aux_canon; [apply digits_canon, Hn | exact Ht].
  - set (p := Z.to_pos (j - (prec - Zpos (digits2_pos n)))).
    assert (Hp : Zpos p = j - (prec - Zpos (digits2_pos n))) by (unfold p; rewrite Z2Pos.id; lia).
    assert (Hm : shift_pos n j = Pos.iter xO (canon n) p).
    { change (Pos.iter xO (canon n) p) with (shift_pos (canon n) (Zpos p)).
      unfold canon. rewrite shift_pos_add by lia. f_equal. lia. }
    replace (t - - j) with (Zpos p) by (unfold t; lia).
    lazy beta iota. rewrite Hm. replace (- j) with (t - Zpos p) by (unfold t; lia).
    apply round_aux_shifted; [apply digits_canon, Hn | exact Ht].
Qed.

Lemma Zpos_shift_pos (n : positive) (j : Z) :
  0 <= j -> Zpos (shift_pos n j) = Zpos n * 2 ^ j.
Proof.
  intros Hj. destruct j as [| p | p]; [cbn; lia | apply Zpos_shift | lia].
Qed.

Lemma digits_lower (n : positive) : 2 ^ (Zpos (digits2_pos n) - 1) <= Zpos n.
Proof.
  induction n as [n IH | n IH |]; cbn [digits2_pos]; [| | cbn; lia].
  - rewrite Pos2Z.inj_succ. replace (Z.succ (Zpos (digits2_pos n)) - 1)
      with (Z.succ (Zpos (digits2_pos n) - 1)) by lia.
    rewrite Z.pow_succ_r by lia. lia.
  - rewrite Pos2Z.inj_succ. replace (Z.succ (Zpos (digits2_pos n)) - 1)
      with (Z.succ (Zpos (digits2_pos n) - 1)) by lia.
    rewrite Z.pow_succ_r by lia. lia.
Qed.

Lemma digits_bound (n : positive) : Zpos n < 2 ^ prec -> Zpos (digits2_pos n) <= prec.
Proof.
  intros H. destruct (Z.le_gt_cases (Zpos (digits2_pos n)) prec) as [Hd | Hd]; [exact Hd |].
  pose proof (digits_lower n) as Hl.
  assert (2 ^ prec <= 2 ^ (Zpos (digits2_pos n) - 1)) by (apply Z.pow_le_mono_r; unfold prec in *; lia).
  lia.
Qed.

(** A whole number given at a scale is normalised to the double of the number. *)
Lemma normalize_scaled (z j : Z) :
  Z.abs z < 2 ^ prec -> 0 <= j ->
  binary_normalize prec emax (z * 2 ^ j) (- j) false = of_Z z.
Proof.
  intros Hz Hj. unfold of_Z. destruct z as [| p | p].
  - reflexivity.
  - replace (Zpos p * 2 ^ j) with (Zpos (shift_pos p j)) by (apply Zpos_shift_pos, Hj).
    cbn [binary_normalize].
    rewrite (round_scaled false p j) by (try apply digits_bound; assumption).
    change 0 with (- 0). rewrite <- (round_scaled false p 0) by (try apply digits_bound; lia).
    reflexivity.
  - replace (Zneg p * 2 ^ j) with (Zneg (shift_pos p j))
      by (rewrite <- !Pos2Z.opp_pos, Zpos_shift_pos by exact Hj; lia).
    cbn [binary_normalize].
    rewrite (round_scaled true p j) by (try apply digits_bound; assumption).
    change 0 with (- 0). rewrite <- (round_scaled true p 0) by (try apply digits_bound; lia).
    reflexivity.
Qed.

(** The double of a whole number that is not zero. *)
Lemma of_Z_finite (s : bool) (p : positive) :
  Zpos p < 2 ^ prec ->
  of_Z (cond_Zopp s (Zpos p))
  = S754_finite s (canon p) (Zpos (digits2_pos p) - prec).
Proof.
  intros Hp. unfold of_Z. destruct s; cbn [cond_Zopp Z.opp binary_normalize];
    change 0 with (- 0); rewrite <- (round_scaled _ p 0) by (try apply digits_bound; lia);
    reflexivity.
Qed.

Lemma aligned (p : positive) (ez : Z) :
  Zpos p < 2 ^ prec -> ez <= Zpos (digits2_pos p) - prec ->
  Zpos (fst (shl_align (canon p) (Zpos (digits2_pos p) - prec) ez)) = Zpos p * 2 ^ (- ez).
Proof.
  intros Hp He. pose proof (digits_bound p Hp) as Hd.
  assert (E : fst (shl_align (canon p) (Zpos (digits2_pos p) - prec) ez)
              = shift_pos (canon p) (Zpos (digits2_pos p) - prec - ez)).
  { unfold shl_align.
    replace (ez - (Zpos (digits2_pos p) - prec)) with (- (Zpos (digits2_pos p) - prec - ez)) by lia.
    destruct (Zpos (digits2_pos p) - prec - ez) as [| d | d] eqn:Ed; [reflexivity | reflexivity | exfalso; lia]. }
  rewrite E. unfold canon. rewrite shift_pos_add by lia.
  rewrite Zpos_shift_pos by (unfold prec in *; lia). f_equal. f_equal. lia.
Qed.

Lemma cond_Zopp_mul (s : bool) (x y : Z) : cond_Zopp s x * y = cond_Zopp s (x * y).
Proof. destruct s; cbn; lia. Qed.

(** Adding two whole numbers whose sum stays below 2^53 does not round. *)
Lemma add_whole (a b : Z) :
  Z.abs a < 2 ^ prec -> Z.abs b < 2 ^ prec -> Z.abs (a + b) < 2 ^ prec ->
  add (of_Z a) (of_Z b) = of_Z (a + b).
Proof.
  intros Ha Hb Hab.
  assert (Hsplit : forall z, z = 0 \/ exists s p, z = cond_Zopp s (Zpos p)).
  { intros [| p | p]; [left; reflexivity | right; exists false, p; reflexivity
                       | right; exists true, p; reflexivity]. }
  destruct (Hsplit a) as [-> | (sa & pa & ->)]; destruct (Hsplit b) as [-> | (sb & pb & ->)].
  - reflexivity.
  - assert (Hp : Zpos pb < 2 ^ prec) by (destruct sb; exact Hb).
    rewrite Z.add_0_l, (of_Z_finite sb pb Hp). reflexivity.
  - assert (Hp : Zpos pa < 2 ^ prec) by (destruct sa; exact Ha).
    rewrite Z.add_0_r, (of_Z_finite sa pa Hp). reflexivity.
  - assert (Hpa : Zpos pa < 2 ^ prec) by (destruct sa; exact Ha).
    assert (Hpb : Zpos pb < 2 ^ prec) by (destruct sb; exact Hb).
    rewrite (of_Z_finite sa pa Hpa), (of_Z_finite sb pb Hpb).
    unfold add, SFadd.
    set (ez := Z.min (Zpos (digits2_pos pa) - prec) (Zpos (digits2_pos pb) - prec)).
    pose proof (digits_bound pa Hpa). pose proof (digits_bound pb Hpb).
    rewrite (aligned pa ez), (aligned pb ez) by (assumption || (unfold ez; lia)).
    rewrite <- !cond_Zopp_mul, <- Z.mul_add_distr_r.
    replace ez with (- - ez) at 2 by lia.
    apply normalize_scaled; [exact Hab | unfold ez; lia].
Qed.

Lemma of_Z_steady (z : Z) : Z.abs z < 2 ^ prec -> steady (of_Z z) = true.
Proof.
  intros Hz. destruct z as [| p | p].
  - reflexivity.
  - change (of_Z (Zpos p)) with (of_Z (cond_Zopp false (Zpos p))).
    rewrite (of_Z_finite false p) by exact Hz. reflexivity.
  - change (of_Z (Zneg p)) with (of_Z (cond_Zopp true (Zpos p))).
    rewrite (of_Z_finite true p) by exact Hz. reflexivity.
Qed.

Lemma magnitude_nonneg (zs : list Z) : 0 <= magnitude zs.
Proof. induction zs as [| z l IH]; cbn [magnitude fold_right]; [lia |]. fold (magnitude l). lia. Qed.

Lemma whole_sum_bound (zs : list Z) : Z.abs (whole_sum zs) <= magnitude zs.
Proof.
  induction zs as [| z l IH]; cbn [whole_sum magnitude fold_right]; [lia |].
  fold (whole_sum l). fold (magnitude l). lia.
Qed.

(** The running total of whole numbers is the double of their sum, and
    every running total is steady. *)
Lemma sum_from_whole (zs : list Z) : forall s : Z,
  Z.abs s + magnitude zs < 2 ^ prec ->
  sum_from (of_Z s) (map of_Z zs) = of_Z (s + whole_sum zs)
  /\ clean_from (of_Z s) (map of_Z zs) = true.
Proof.
  induction zs as [| z l IH]; intros s Hs.
  - cbn. rewrite Z.add_0_r. split; reflexivity.
  - cbn [magnitude fold_right] in Hs. fold (magnitude l) in Hs.
    pose proof (magnitude_nonneg l) as Hl.
    cbn [map sum_from fold_left clean_from whole_sum fold_right]. fold (whole_sum l).
    rewrite add_whole by lia.
    destruct (IH (s + z) ltac:(lia)) as [IH1 IH2].
    unfold sum_from in IH1. rewrite IH1, IH2, of_Z_steady by lia.
    split; [f_equal; lia | reflexivity].
Qed.

Lemma seq_sum_whole (zs : list Z) :
  magnitude zs < 2 ^ prec ->
  seq_sum (map of_Z zs) = of_Z (whole_sum zs) /\ clean (map of_Z zs) = true.
Proof.
  intros H. unfold seq_sum, clean. change pzero with (of_Z 0).
  destruct (sum_from_whole zs 0 ltac:(cbn [Z.abs]; lia)) as [H1 H2].
  rewrite H1, H2. split; reflexivity.
Qed.

Lemma whole_sum_perm (l l' : list Z) : l ≡ₚ l' -> whole_sum l = whole_sum l'.
Proof.
  induction 1 as [| x l l' _ IH | x y l | l l' l'' _ IH1 _ IH2]; cbn [whole_sum fold_right] in *;
    try fold (whole_sum l) in *; try fold (whole_sum l') in *; lia.
Qed.

Lemma magnitude_perm (l l' : list Z) : l ≡ₚ l' -> magnitude l = magnitude l'.
Proof.
  induction 1 as [| x l l' _ IH | x y l | l l' l'' _ IH1 _ IH2]; cbn [magnitude fold_right] in *;
    try fold (magnitude l) in *; try fold (magnitude l') in *; lia.
Qed.

End Whole.

Section NetWorth.

Import Js Accounts Notions.

Variable parseFloat_string : string -> number.

Local Abbreviation bal := (Accounts.bal parseFloat_string).
Local Abbreviation balances := (Notions.balances parseFloat_string).

(** *** One entry of the totals depends on the accounts of its type only *)

Lemma accumulate_same (t : gmap string number) (a : account) :
  inherited_name (account_type a) = false ->
  accumulate parseFloat_string t a !! account_type a = tally (t !! account_type a) (bal a).
Proof.
  intros Hi. unfold accumulate, tally. rewrite Hi, lookup_insert_eq.
  destruct (unset (t !! account_type a)); [rewrite lookup_insert_eq |]; reflexivity.
Qed.

Lemma accumulate_other (t : gmap string number) (a : account) (k : string) :
  account_type a <> k -> accumulate parseFloat_string t a !! k = t !! k.
Proof.
  intros Hne. unfold accumulate.
  destruct (inherited_name (account_type a)); [reflexivity |].
  rewrite lookup_insert_ne by assumption.
  destruct (unset (t !! account_type a)); [rewrite lookup_insert_ne by assumption |]; reflexivity.
Qed.

Lemma totals_entry (accounts : list account) (t : gmap string number) (k : string) :
  inherited_name k = false ->
  fold_left (accumulate parseFloat_string) accounts t !! k
  = fold_left tally (balances k accounts) (t !! k).
Proof.
  intros Hk. revert t. induction accounts as [| a l IH]; intros t; [reflexivity |].
  cbn [fold_left]. rewrite IH. unfold Notions.balances. cbn [List.filter].
  destruct (String.eqb_spec (account_type a) k) as [E | Hne].
  - subst k. cbn [map fold_left]. rewrite accumulate_same by exact Hk. reflexivity.
  - rewrite accumulate_other by assumption. reflexivity.
Qed.

(** An account whose names are plain is taken into the tree; the total of
    the node of its type grows by its balance, the other nodes stay. *)
Lemma grow_plain (t : gmap string node) (a : account) :
  plain_names a = true ->
  exists t', grow parseFloat_string t a = Some t'
    /\ (total <$> t' !! account_type a) = node_total (total <$> t !! account_type a) (bal a)
    /\ forall k, account_type a <> k -> t' !! k = t !! k.
Proof.
  intros Hp. unfold plain_names in Hp. apply andb_prop in Hp as [Ht Hg].
  apply negb_true_iff in Ht, Hg. unfold grow. rewrite Ht, Hg.
  eexists. split; [reflexivity |]. split.
  - rewrite lookup_insert_eq. unfold node_total.
    destruct (t !! account_type a) as [n |]; reflexivity.
  - intros k Hne. apply lookup_insert_ne, Hne.
Qed.

(** An account with a name that objects inherit stops the loop. *)
Lemma grow_throws (t : gmap string node) (a : account) :
  plain_names a = false -> grow parseFloat_string t a = None.
Proof.
  unfold plain_names, grow. intros Hp.
  destruct (inherited_name (account_type a)); [reflexivity |].
  destruct (inherited_name (group_of a)); [reflexivity | discriminate Hp].
Qed.

Lemma tree_entry (accounts : list account) : forall t : gmap string node,
  forallb plain_names accounts = true ->
  exists t', fold_left (fun t a => t ≫= fun t => grow parseFloat_string t a) accounts (Some t)
             = Some t'
    /\ forall k, (total <$> t' !! k) = fold_left node_total (balances k accounts) (total <$> t !! k).
Proof.
  induction accounts as [| a l IH]; intros t Hp.
  - exists t. split; reflexivity.
  - cbn [forallb] in Hp. apply andb_prop in Hp as [Ha Hl].
    destruct (grow_plain t a Ha) as (t1 & Hg & Hsame & Hother).
    destruct (IH t1 Hl) as (t' & Hf & Hk).
    exists t'. cbn [fold_left mbind option_bind]. rewrite Hg. split; [exact Hf |].
    intros k. rewrite Hk. unfold Notions.balances. cbn [List.filter].
    destruct (String.eqb_spec (account_type a) k) as [E | Hne].
    + subst k. cbn [map fold_left]. rewrite Hsame. reflexivity.
    + rewrite (Hother k Hne). reflexivity.
Qed.

Lemma tree_throws (accounts : list account) :
  forallb plain_names accounts = false ->
  fold_left (fun t a => t ≫= fun t => grow parseFloat_string t a) accounts None = None
  /\ forall t, fold_left (fun t a => t ≫= fun t => grow parseFloat_string t a) accounts (Some t)
               = None.
Proof.
  induction accounts as [| a l IH]; intros Hp; [discriminate Hp |].
  assert (Hnone : forall l' : list account,
            fold_left (fun t a => t ≫= fun t => grow parseFloat_string t a) l' None = None).
  { induction l' as [| x l' IHl]; [reflexivity | exact IHl]. }
  split; [apply Hnone |]. intros t. cbn [fold_left mbind option_bind].
  cbn [forallb] in Hp. destruct (plain_names a) eqn:Ha.
  - destruct (grow_plain t a Ha) as (t1 & Hg & _). rewrite Hg. apply IH, Hp.
  - rewrite (grow_throws t a Ha). apply Hnone.
Qed.

(** *** Running totals that are steady are plain sums *)

Lemma steady_or_zero (x : number) : steady x = true -> or_zero x = x.
Proof. destruct x as [[] | | |]; cbv; congruence. Qed.

Lemma steady_unset (x : number) :
  steady x = true -> (if unset (Some x) then Some pzero else Some x) = Some x.
Proof. destruct x as [[] | | |]; cbv; congruence. Qed.

Lemma tally_steady (xs : list number) (s : number) :
  steady s = true -> clean_from s xs = true ->
  fold_left tally xs (Some s) = Some (sum_from s xs)
  /\ steady (sum_from s xs) = true.
Proof.
  revert s. induction xs as [| x l IH]; intros s Hs Hc; [split; [reflexivity | exact Hs] |].
  cbn [clean_from] in Hc. apply andb_prop in Hc as [Hx Hl].
  cbn [fold_left sum_from]. unfold tally at 2. rewrite (steady_unset s Hs).
  cbn [plus_entry]. apply (IH (add s x) Hx Hl).
Qed.

Lemma tally_clean (xs : list number) :
  clean xs = true -> opt_or_zero (fold_left tally xs None) = seq_sum xs.
Proof.
  unfold clean, seq_sum. destruct xs as [| x l]; [reflexivity |].
  intros Hc. cbn [clean_from] in Hc. apply andb_prop in Hc as [Hx Hl].
  cbn [fold_left sum_from]. unfold tally at 2. cbn [unset plus_entry].
  destruct (tally_steady l (add pzero x) Hx Hl) as [-> Hs].
  cbn [opt_or_zero]. apply steady_or_zero, Hs.
Qed.

Lemma node_total_sum (xs : list number) (s : number) :
  fold_left node_total xs (Some s) = Some (sum_from s xs).
Proof. revert s. induction xs as [| x l IH]; intros s; [reflexivity | apply IH]. Qed.

Lemma node_total_or_zero (xs : list number) :
  opt_or_zero (fold_left node_total xs None) = or_zero (seq_sum xs).
Proof.
  destruct xs as [| x l]; [reflexivity |].
  cbn [fold_left]. unfold node_total at 2. cbn [plus_entry].
  rewrite node_total_sum. reflexivity.
Qed.

Lemma clean_steady (xs : list number) : clean xs = true -> steady (seq_sum xs) = true.
Proof.
  unfold clean, seq_sum. intros Hc.
  apply (tally_steady xs pzero eq_refl Hc).
Qed.

(** *** The computations *)

Lemma dashboard_entries (accounts : list account) :
  DashboardTab.netWorth parseFloat_string accounts
  = sub (opt_or_zero (fold_left tally (balances "Asset" accounts) None))
        (abs (opt_or_zero (fold_left tally (balances "Liability" accounts) None))).
Proof.
  unfold DashboardTab.netWorth, totals.
  rewrite !totals_entry, !lookup_empty by reflexivity. reflexivity.
Qed.

(** With the filter at "All" the Accounts tab sums every account. *)
Lemma accounts_tab_entries (filter : string) (accounts : list account) :
  forallb plain_names (filtered filter accounts) = true ->
  AccountsTab.netWorth parseFloat_string filter accounts
  = Some (sub (or_zero (seq_sum (balances "Asset" (filtered filter accounts))))
              (abs (or_zero (seq_sum (balances "Liability" (filtered filter accounts)))))).
Proof.
  intros Hp. unfold AccountsTab.netWorth, tree.
  destruct (tree_entry (filtered filter accounts) ∅ Hp) as (t' & -> & Hk).
  cbn [mbind option_bind]. rewrite !Hk, !lookup_empty. cbn [fmap option_fmap option_map].
  rewrite !node_total_or_zero. reflexivity.
Qed.

(** The tab renders nothing when a name of an account is one that objects
    inherit. *)
Lemma accounts_tab_throws (filter : string) (accounts : list account) :
  forallb plain_names (filtered filter accounts) = false ->
  AccountsTab.netWorth parseFloat_string filter accounts = None.
Proof.
  intros Hp. unfold AccountsTab.netWorth, tree.
  destruct (tree_throws (filtered filter accounts) Hp) as [_ H]. rewrite H. reflexivity.
Qed.

Lemma early_entries (filter : string) (accounts : list account) :
  forallb plain_names (filtered filter accounts) = true ->
  AccountsTabEarly.netWorth parseFloat_string filter accounts
  = Some (sub (opt_or_zero (fold_left tally (balances "Asset" accounts) None))
              (opt_or_zero (fold_left tally (balances "Liability" accounts) None))).
Proof.
  intros Hp. unfold AccountsTabEarly.netWorth.
  assert (E : existsb (fun a => inherited_name (account_type a)) (filtered filter accounts) = false).
  { apply not_true_is_false. intros H. apply existsb_exists in H as (a & Hin & Ha).
    rewrite forallb_forall in Hp. specialize (Hp a Hin). unfold plain_names in Hp.
    rewrite Ha in Hp. discriminate Hp. }
  rewrite E. unfold totals. rewrite !totals_entry, !lookup_empty by reflexivity. reflexivity.
Qed.

Lemma balances_perm (k : string) (l l' : list account) :
  l ≡ₚ l' -> balances k l ≡ₚ balances k l'.
Proof.
  intros H. unfold Notions.balances. apply Permutation_map.
  induction H as [| x l l' _ IH | x y l | l l' l'' _ IH1 _ IH2]; cbn [List.filter].
  - reflexivity.
  - destruct (String.eqb (account_type x) k); [constructor |]; exact IH.
  - destruct (String.eqb (account_type x) k), (String.eqb (account_type y) k);
      try reflexivity. constructor.
  - etransitivity; eassumption.
Qed.

Lemma plain_names_perm (l l' : list account) :
  l ≡ₚ l' -> forallb plain_names l = true -> forallb plain_names l' = true.
Proof.
  intros H Hp. rewrite forallb_forall in *. intros a Ha. apply Hp.
  apply (Permutation_in a (Permutation_sym H) Ha).
Qed.

(** The value shown for a list whose sums are clean. *)
Lemma netWorth_clean (l : list account) :
  clean (balances "Asset" l) = true -> clean (balances "Liability" l) = true ->
  let value := sub (seq_sum (balances "Asset" l)) (abs (seq_sum (balances "Liability" l))) in
  DashboardTab.netWorth parseFloat_string l = value
  /\ (forallb plain_names l = true -> AccountsTab.netWorth parseFloat_string "All" l = Some value).
Proof.
  intros HA HL value. subst value. split.
  - rewrite dashboard_entries, !tally_clean by assumption. reflexivity.
  - intros Hp. rewrite accounts_tab_entries by exact Hp.
    unfold filtered. cbn [String.eqb Ascii.eqb Bool.eqb].
    rewrite !steady_or_zero by (apply clean_steady; assumption). reflexivity.
Qed.

(** C4, amended: in the Dashboard, and in the Accounts tab while its type
    filter is "All" and no account has for its type or its group a name
    that objects inherit, the net worth is the sum of the Asset balances
    minus the absolute value of the sum of the Liability balances, each sum
    accumulated in list order in double arithmetic, whenever no running
    total of either sum is NaN or the negative zero.  The value is the same
    for every reordering of the accounts that keeps the accounts of each of
    the two types in their relative order; and it is the same for every
    reordering at all when the Asset balances and the Liability balances
    are whole numbers whose absolute values add up, within each type, to
    less than 2^53: no addition rounds then. *)
Theorem netWorth_formula (accounts reordered : list account) :
  reordered ≡ₚ accounts ->
  clean (balances "Asset" accounts) = true ->
  clean (balances "Liability" accounts) = true ->
  let value := sub (seq_sum (balances "Asset" accounts))
                   (abs (seq_sum (balances "Liability" accounts))) in
  (* the formula *)
  (DashboardTab.netWorth parseFloat_string accounts = value
   /\ (forallb plain_names accounts = true ->
       AccountsTab.netWorth parseFloat_string "All" accounts = Some value))
  (* the order within each type kept *)
  /\ (balances "Asset" reordered = balances "Asset" accounts ->
      balances "Liability" reordered = balances "Liability" accounts ->
      DashboardTab.netWorth parseFloat_string reordered = value
      /\ (forallb plain_names accounts = true ->
          AccountsTab.netWorth parseFloat_string "All" reordered = Some value))
  (* whole numbers, in any order *)
  /\ (forall assets liabilities : list Z,
        balances "Asset" accounts = map of_Z assets ->
        balances "Liability" accounts = map of_Z liabilities ->
        magnitude assets < 2 ^ 53 -> magnitude liabilities < 2 ^ 53 ->
        value = sub (of_Z (whole_sum assets)) (abs (of_Z (whole_sum liabilities)))
        /\ DashboardTab.netWorth parseFloat_string reordered = value
        /\ (forallb plain_names accounts = true ->
            AccountsTab.netWorth parseFloat_string "All" reordered = Some value)).
Proof.
  intros Hperm HA HL value.
  assert (Hplain : forallb plain_names accounts = true -> forallb plain_names reordered = true)
    by apply (plain_names_perm _ _ (Permutation_sym Hperm)).
  split; [apply (netWorth_clean accounts HA HL) |]. split.
  - intros EA EL.
    destruct (netWorth_clean reordered) as [Hd Ht]; [rewrite EA; exact HA | rewrite EL; exact HL |].
    rewrite EA, EL in Hd, Ht. split; [exact Hd | intros Hp; apply Ht, Hplain, Hp].
  - intros assets liabilities EA EL MA ML.
    pose proof (balances_perm "Asset" _ _ Hperm) as PA.
    pose proof (balances_perm "Liability" _ _ Hperm) as PL.
    rewrite EA in PA. rewrite EL in PL.
    apply Permutation_map_inv in PA as (assets' & EA' & PA').
    apply Permutation_map_inv in PL as (liabilities' & EL' & PL').
    assert (MA' : magnitude assets' < 2 ^ prec)
      by (rewrite <- (magnitude_perm _ _ PA'); exact MA).
    assert (ML' : magnitude liabilities' < 2 ^ prec)
      by (rewrite <- (magnitude_perm _ _ PL'); exact ML).
    destruct (seq_sum_whole assets MA) as [SA _].
    destruct (seq_sum_whole liabilities ML) as [SL _].
    destruct (seq_sum_whole assets' MA') as [SA' CA'].
    destruct (seq_sum_whole liabilities' ML') as [SL' CL'].
    assert (Hv : value = sub (of_Z (whole_sum assets)) (abs (of_Z (whole_sum liabilities))))
      by (subst value; rewrite EA, EL, SA, SL; reflexivity).
    split; [exact Hv |].
    destruct (netWorth_clean reordered) as [Hd Ht];
      [rewrite EA'; exact CA' | rewrite EL'; exact CL' |].
    rewrite EA', EL', SA', SL', <- (whole_sum_perm _ _ PA'), <- (whole_sum_perm _ _ PL'), <- Hv
      in Hd, Ht.
    split; [exact Hd | intros Hp; apply Ht, Hplain, Hp].
Qed.

End NetWorth.

Section NetWorthExamples.

Import Js Accounts Notions.

(** C4, as stated, fails.  The three Asset balances 0.1, 0.1 and 4.3 sum to
    4.5 in that order and to 4.499999999999999 with the largest first, so a
    permutation of the accounts changes the net worth, in the Dashboard and
    in the Accounts tab, and the rupee amount displayed for it. *)
Lemma netWorth_claim_fails :
  let l1 := [account_of "Asset" (decimal 1 1); account_of "Asset" (decimal 1 1);
             account_of "Asset" (decimal 43 1)] in
  let l2 := [account_of "Asset" (decimal 43 1); account_of "Asset" (decimal 1 1);
             account_of "Asset" (decimal 1 1)] in
  l1 ≡ₚ l2
  /\ DashboardTab.netWorth no_strings l1 <> DashboardTab.netWorth no_strings l2
  /\ AccountsTab.netWorth no_strings "All" l1 <> AccountsTab.netWorth no_strings "All" l2
  /\ AppJsx.fmtFull (DashboardTab.netWorth no_strings l1) = "₹5"%string
  /\ AppJsx.fmtFull (DashboardTab.netWorth no_strings l2) = "₹4"%string.
Proof.
  split; [apply (Permutation_app_comm [_; _] [_]) |].
  repeat split; vm_compute; congruence.
Qed.

(** Assets of 1000 and 250 against a liability of 400, and the same
    accounts with the smaller asset first. *)
Lemma netWorth_formula_witness :
  let reordered := [account_of "Asset" (of_Z 250); account_of "Asset" (of_Z 1000);
                    account_of "Liability" (of_Z 400)] in
  DashboardTab.netWorth no_strings reordered = of_Z 850
  /\ AccountsTab.netWorth no_strings "All" reordered = Some (of_Z 850).
Proof.
  cbv zeta.
  destruct (netWorth_formula no_strings
              [account_of "Asset" (of_Z 1000); account_of "Liability" (of_Z 400);
               account_of "Asset" (of_Z 250)]
              [account_of "Asset" (of_Z 250); account_of "Asset" (of_Z 1000);
               account_of "Liability" (of_Z 400)]
              (Permutation_app_comm [_] [_; _])
              ltac:(vm_compute; reflexivity) ltac:(vm_compute; reflexivity))
    as (_ & _ & H).
  destruct (H [1000; 250] [400] ltac:(vm_compute; reflexivity) ltac:(vm_compute; reflexivity)
              ltac:(vm_compute; reflexivity) ltac:(vm_compute; reflexivity))
    as (Hv & Hd & Ht).
  rewrite Hd, (Ht eq_refl), Hv. split; vm_compute; reflexivity.
Defined.

(** The sign the server gives a liability does not matter to the formula. *)
Example netWorth_negative_liability :
  DashboardTab.netWorth no_strings
    [account_of "Asset" (of_Z 1000); account_of "Liability" (of_Z (-400))] = of_Z 600.
Proof. vm_compute. reflexivity. Qed.

(** Under a type filter the Accounts tab computes its net worth from the
    accounts that pass the filter: with "Asset" the liabilities are not
    subtracted. *)
Example accounts_tab_net_worth_under_filter :
  let l := [account_of "Asset" (of_Z 1000); account_of "Liability" (of_Z 400)] in
  AccountsTab.netWorth no_strings "All" l = Some (of_Z 600)
  /\ AccountsTab.netWorth no_strings "Asset" l = Some (of_Z 1000)
  /\ AccountsTab.netWorth no_strings "Liability" l = Some (of_Z (-400))
  /\ AccountsTab.netWorth no_strings "Income" l = Some pzero.
Proof. repeat split; vm_compute; reflexivity. Qed.

(** An account whose description names the group "constructor", or whose
    type is "constructor", makes the loop of the Accounts tab throw: no
    net worth is shown there, while the Dashboard shows 1000. *)
Example accounts_tab_inherited_name :
  let grouped := {| account_id := 2; account_type := "Asset"; sub_type := None;
                    description := Some "x:constructor"%string;
                    calculated_balance := Num (of_Z 5); current_balance := Missing |} in
  let typed := account_of "constructor" (of_Z 5) in
  AccountsTab.netWorth no_strings "All" [account_of "Asset" (of_Z 1000); grouped] = None
  /\ AccountsTab.netWorth no_strings "All" [account_of "Asset" (of_Z 1000); typed] = None
  /\ DashboardTab.netWorth no_strings [account_of "Asset" (of_Z 1000); typed] = of_Z 1000.
Proof. repeat split; vm_compute; reflexivity. Qed.

(** The earliest revision subtracts the Liability total as it is: a
    negative total is added. *)
Example early_net_worth_without_abs :
  let l := [account_of "Asset" (of_Z 1000); account_of "Liability" (of_Z (-400))] in
  AccountsTabEarly.netWorth no_strings "All" l = Some (of_Z 1400)
  /\ DashboardTab.netWorth no_strings l = of_Z 600.
Proof. repeat split; vm_compute; reflexivity. Qed.

(** A balance that does not parse is forgotten by the Dashboard as soon as
    another account of its type follows, and zeroes the total when it comes
    last. *)
Example unparsable_balance :
  let bad := {| account_id := 7; account_type := "Asset"; sub_type := None;
                description := None;
                calculated_balance := Str "n/a"; current_balance := Missing |} in
  DashboardTab.netWorth no_strings [bad; account_of "Asset" (of_Z 5)] = of_Z 5
  /\ DashboardTab.netWorth no_strings [account_of "Asset" (of_Z 5); bad] = pzero.
Proof. repeat split; vm_compute; reflexivity. Qed.

End NetWorthExamples.

(** ** The Review step of the staged import *)

Section Review.

Import Js ImportModal Notions.

(** *** Counting *)

Lemma counts_filter {A : Type} (P : A -> Prop) (f : A -> bool) (l : list A) :
  (forall a, f a = true <-> P a) -> counts P l (length (List.filter f l)).
Proof.
  intros Hf. induction l as [| a l IH]; [constructor |].
  cbn [List.filter]. destruct (f a) eqn:E.
  - cbn [length]. apply counts_yes; [apply Hf, E | exact IH].
  - apply counts_no; [| exact IH]. intros HP. apply Hf in HP. congruence.
Qed.

Lemma counts_unique {A : Type} (P : A -> Prop) (l : list A) (n m : nat) :
  counts P l n -> counts P l m -> n = m.
Proof.
  intros Hn. revert m. induction Hn; intros m Hm; inversion Hm; subst;
    try reflexivity; try contradiction; auto.
Qed.

Lemma active_iff (r : row) : active r = true <-> ~ rejected r.
Proof.
  unfold active, rejected. destruct (String.eqb_spec (status r) "rejected"); simpl; split;
    congruence.
Qed.

Lemma ref_truthy_iff (o : option Z) : ref_truthy o = true <-> populated o.
Proof.
  unfold ref_truthy, populated. destruct o as [n |].
  - destruct (Z.eqb_spec n 0) as [-> | Hn]; simpl; split.
    + discriminate.
    + intros (k & [= <-] & Hk). contradiction.
    + intros _. exists n. split; [reflexivity | exact Hn].
    + reflexivity.
  - split; [discriminate | intros (k & [=] & _)].
Qed.

Lemma ready_iff (r : row) : ready r = true <-> importable r.
Proof.
  unfold ready, importable. rewrite !andb_true_iff, active_iff, !ref_truthy_iff. tauto.
Qed.

(** *** Rejecting rows *)

Lemma merge_rejection_id (r : row) : id (merge r rejection) = id r.
Proof. reflexivity. Qed.

Lemma merge_rejection_inactive (r : row) :
  active (merge r rejection) = false /\ ready (merge r rejection) = false.
Proof. split; reflexivity. Qed.

Lemma update_rows_ids (i : Z) (u : updates) (l : list row) :
  map id (update_rows i u l) = map id l.
Proof.
  unfold update_rows. induction l as [| r l IH]; [reflexivity |].
  cbn [map]. rewrite IH. destruct (id r =? i); reflexivity.
Qed.

Lemma reject_rows_ids (sel : gset Z) (l : list row) : map id (reject_rows sel l) = map id l.
Proof.
  unfold reject_rows. induction l as [| r l IH]; [reflexivity |].
  cbn [map]. rewrite IH. destruct (decide (id r ∈ sel)); reflexivity.
Qed.

Lemma render_rows_keys (l : list row) : map key (render_rows l) = map id l.
Proof. unfold render_rows. induction l as [| r l IH]; [reflexivity | cbn; rewrite IH; reflexivity]. Qed.

(** After the rejection of the rows picked by [hit], a filter that only
    lets active rows through sees the rows that were not picked. *)
Lemma filter_after_rejection (hit : row -> bool) (f : row -> bool) (l : list row) :
  (forall r, f (merge r rejection) = false) ->
  length (List.filter f (map (fun r => if hit r then merge r rejection else r) l))
  = length (List.filter (fun r => negb (hit r) && f r) l).
Proof.
  intros Hf. induction l as [| r l IH]; [reflexivity |].
  cbn [map List.filter]. destruct (hit r) eqn:E; cbn [negb andb].
  - rewrite Hf. exact IH.
  - destruct (f r); cbn [length]; rewrite IH; reflexivity.
Qed.

Lemma counts_after_update (i : Z) (l : list row) :
  counts (fun r => id r <> i /\ ~ rejected r) l (activeCount (update_rows i rejection l))
  /\ counts (fun r => id r <> i /\ importable r) l (withAccounts (update_rows i rejection l)).
Proof.
  unfold activeCount, withAccounts, update_rows. split.
  - rewrite (filter_after_rejection (fun r => id r =? i) active) by reflexivity.
    apply counts_filter. intros r. rewrite andb_true_iff, negb_true_iff, Z.eqb_neq, active_iff.
    reflexivity.
  - rewrite (filter_after_rejection (fun r => id r =? i) ready) by reflexivity.
    apply counts_filter. intros r. rewrite andb_true_iff, negb_true_iff, Z.eqb_neq, ready_iff.
    reflexivity.
Qed.

Lemma counts_after_bulk (sel : gset Z) (l : list row) :
  counts (fun r => (id r ∉ sel) /\ ~ rejected r) l (activeCount (reject_rows sel l))
  /\ counts (fun r => (id r ∉ sel) /\ importable r) l (withAccounts (reject_rows sel l)).
Proof.
  unfold activeCount, withAccounts, reject_rows.
  assert (E : forall l, map (fun r => if decide (id r ∈ sel) then merge r rejection else r) l
              = map (fun r => if bool_decide (id r ∈ sel) then merge r rejection else r) l).
  { intros l0. apply map_ext. intros r. destruct (decide (id r ∈ sel)) as [H | H].
    - rewrite bool_decide_eq_true_2 by assumption. reflexivity.
    - rewrite bool_decide_eq_false_2 by assumption. reflexivity. }
  rewrite E. split.
  - rewrite (filter_after_rejection (fun r => bool_decide (id r ∈ sel)) active) by reflexivity.
    apply counts_filter. intros r.
    rewrite andb_true_iff, negb_true_iff, bool_decide_eq_false, active_iff. reflexivity.
  - rewrite (filter_after_rejection (fun r => bool_decide (id r ∈ sel)) ready) by reflexivity.
    apply counts_filter. intros r.
    rewrite andb_true_iff, negb_true_iff, bool_decide_eq_false, ready_iff. reflexivity.
Qed.

(** The handlers store exactly these lists. *)
Lemma reject_row_settles (s : state) (i : Z) :
  handle s (UpdateSettled i rejection (Resolves tt))
  = (set_staged (update_rows i rejection (staged s)) s, []).
Proof. reflexivity. Qed.

(** C1: the "ready to import" count is the number of rows that are not
    rejected and whose two suggested accounts are populated (neither null
    nor 0), and the "active" count the number of rows that are not
    rejected; once a row is rejected, alone or with the selection, the
    rows with its id are counted in neither, while the displayed list
    keeps every row, in order; and a row that is not rejected and lacks a
    suggested account is not ready, is shown with the warning and stays
    active. *)
Theorem ready_count_spec (staged : list row) :
  counts importable staged (withAccounts staged)
  /\ counts (fun r => ~ rejected r) staged (activeCount staged)
  /\ (forall i : Z,
        let staged' := update_rows i rejection staged in
        map id staged' = map id staged
        /\ map key (render_rows staged') = map id staged
        /\ counts (fun r => id r <> i /\ ~ rejected r) staged (activeCount staged')
        /\ counts (fun r => id r <> i /\ importable r) staged (withAccounts staged'))
  /\ (forall sel : gset Z,
        let staged' := reject_rows sel staged in
        map id staged' = map id staged
        /\ map key (render_rows staged') = map id staged
        /\ counts (fun r => (id r ∉ sel) /\ ~ rejected r) staged (activeCount staged')
        /\ counts (fun r => (id r ∉ sel) /\ importable r) staged (withAccounts staged'))
  /\ (forall r : row,
        In r staged -> ~ rejected r ->
        ~ (populated (suggested_debit_account_id r)
           /\ populated (suggested_credit_account_id r)) ->
        ready r = false
        /\ In (render_row r) (render_rows staged)
        /\ needs_accounts (render_row r) = true
        /\ isRejected (render_row r) = false
        /\ active r = true).
Proof.
  split; [apply counts_filter, ready_iff |].
  split; [apply counts_filter, active_iff |].
  split; [| split].
  - intros i staged'. subst staged'.
    split; [apply update_rows_ids |].
    split; [rewrite render_rows_keys; apply update_rows_ids |].
    apply counts_after_update.
  - intros sel staged'. subst staged'.
    split; [apply reject_rows_ids |].
    split; [rewrite render_rows_keys; apply reject_rows_ids |].
    apply counts_after_bulk.
  - intros r Hin Hact Hmiss.
    assert (Ha : active r = true) by (apply active_iff, Hact).
    assert (Hh : ref_truthy (suggested_debit_account_id r)
                 && ref_truthy (suggested_credit_account_id r) = false).
    { apply not_true_is_false. rewrite andb_true_iff, !ref_truthy_iff. exact Hmiss. }
    assert (Hs : String.eqb (status r) "rejected" = false).
    { unfold active in Ha. apply negb_true_iff in Ha. exact Ha. }
    split; [unfold ready; rewrite <- andb_assoc, Hh; apply andb_false_r |].
    split; [apply in_map, Hin |].
    unfold render_row; cbn [needs_accounts isRejected]. rewrite Hh, Hs.
    repeat split; assumption.
Qed.

(** *** The Confirm Import button *)

Lemma withAccounts_positive (l : list row) :
  Nat.eqb (withAccounts l) 0 = false <-> (1 <= withAccounts l)%nat.
Proof. rewrite Nat.eqb_neq. lia. Qed.

Lemma confirm_enabled_iff (s : state) :
  confirm_enabled s = true <-> (1 <= withAccounts (staged s))%nat /\ loading s = false.
Proof.
  unfold confirm_enabled, Btn_enabled.
  rewrite negb_true_iff, orb_false_iff, withAccounts_positive. reflexivity.
Qed.

(** C7, amended: the Confirm Import button is enabled if and only if the
    "ready to import" count is at least one and no request of the modal is
    in flight ([loading] is false); and in every state, whatever happens,
    a confirm request is issued only by a click on that button while the
    Review step is shown and the button is enabled, hence never with zero
    ready rows. *)
Theorem confirm_enabled_spec (s : state) :
  (confirm_enabled s = true <-> (1 <= withAccounts (staged s))%nat /\ loading s = false)
  /\ (forall (e : event) (b : option string),
        In (Api (confirmImport b)) (snd (handle s e)) ->
        e = ClickConfirm /\ b = batchId s /\ open s = true /\ step s = 2
        /\ (1 <= withAccounts (staged s))%nat /\ loading s = false).
Proof.
  split; [apply confirm_enabled_iff |].
  intros e b Hin.
  assert (Hc : e = ClickConfirm).
  { destruct e as [ | | | | [] | ? [] | | ? ? [] | | | | ? [] | | [] | | | | ];
      try reflexivity; exfalso; cbn [handle] in Hin;
      repeat match type of Hin with
             | context [if ?c then _ else _] => destruct c
             end;
      try (unfold handleUpload in Hin; destruct (file s);
           [destruct (String.eqb (sourceAccount s) "") |]);
      try (unfold modal_onClose in Hin;
           destruct (str_truthy (batchId s) && (step s =? 2)));
      cbn in Hin; intuition congruence. }
  subst e. cbn [handle] in Hin.
  destruct (open s && (step s =? 2) && confirm_enabled s) eqn:E; [| destruct Hin].
  destruct Hin as [[= <-] | []].
  apply andb_prop in E as [E Hen]. apply andb_prop in E as [Ho Hs].
  apply confirm_enabled_iff in Hen as [Hn Hl]. apply Z.eqb_eq in Hs.
  repeat split; assumption.
Qed.

End Review.

Section ReviewExamples.

Import ImportModal Notions.

(** Of a ready row and a row without a credit account, one is ready; once
    the ready row is rejected none is, and both are still listed. *)
Lemma ready_count_spec_witness :
  withAccounts [sample_row; incomplete_row] = 1%nat
  /\ needs_accounts (render_row incomplete_row) = true
  /\ withAccounts (update_rows 1 rejection [sample_row; incomplete_row]) = 0%nat
  /\ map id (update_rows 1 rejection [sample_row; incomplete_row]) = [1; 2].
Proof.
  destruct (ready_count_spec [sample_row; incomplete_row]) as (_ & _ & Hrej & _ & Hwarn).
  destruct (Hrej 1) as (Hids & _ & _ & _).
  assert (Hin : In incomplete_row [sample_row; incomplete_row]) by (right; left; reflexivity).
  assert (Hnr : ~ rejected incomplete_row) by (unfold rejected; vm_compute; congruence).
  assert (Hmiss : ~ (populated (suggested_debit_account_id incomplete_row)
                     /\ populated (suggested_credit_account_id incomplete_row))).
  { intros [_ (n & Hn & _)]. vm_compute in Hn. congruence. }
  destruct (Hwarn incomplete_row Hin Hnr Hmiss) as (_ & _ & Hw & _).
  split; [vm_compute; reflexivity |].
  split; [exact Hw |].
  split; [vm_compute; reflexivity | exact Hids].
Defined.

(** C7, as stated, fails: while the confirm request is in flight the
    Review step still shows one ready row, and the button is disabled. *)
Lemma confirm_disabled_while_loading :
  let s := fst (run initial (to_review ++ [ClickConfirm])) in
  open s = true /\ step s = 2
  /\ withAccounts (staged s) = 1%nat
  /\ confirm_enabled s = false.
Proof. repeat split; vm_compute; reflexivity. Qed.

(** In the Review step of the sample import, a click on Confirm Import
    posts the batch. *)
Lemma confirm_enabled_spec_witness :
  let s := fst (run initial to_review) in
  confirm_enabled s = true
  /\ snd (handle s ClickConfirm) = [Api (confirmImport (Some "b1"%string))].
Proof.
  destruct (confirm_enabled_spec (fst (run initial to_review))) as [H _].
  split; [| vm_compute; reflexivity].
  apply H. vm_compute. split; [lia | reflexivity].
Defined.

End ReviewExamples.

(** ** Leaving the import *)

Section Leaving.

Import Js ImportModal Notions.

(** The request that clears the staged rows of a batch. *)
Example clear_request :
  request_line (clearStaged (Some "b1"%string)) = ("DELETE", "/import/staged?batch_id=b1")%string.
Proof. vm_compute. reflexivity. Qed.

(** X8: Both ways out of the Review step issue the clear request for the
    batch of the state, and close the modal. *)
Lemma review_exit_clears (s : state) :
  open s = true -> step s = 2 -> str_truthy (batchId s) = true ->
  handle s ClickCancel = (set_open false s, [Api (clearStaged (batchId s))])
  /\ handle s CloseModal = (set_open false s, [Api (clearStaged (batchId s))]).
Proof.
  intros Ho Hs Hb. cbn [handle]. unfold review_cancel, modal_onClose, onClose.
  rewrite Ho, Hs, Hb. split; reflexivity.
Qed.

(** X10: The clear request is issued from the Review step only. *)
Lemma clear_only_from_review (s : state) (e : event) (b : option string) :
  In (Api (clearStaged b)) (snd (handle s e)) ->
  (e = ClickCancel \/ e = CloseModal) /\ open s = true /\ step s = 2 /\ b = batchId s.
Proof.
  intros Hin.
  assert (He : e = ClickCancel \/ e = CloseModal).
  { destruct e as [ | | | | [] | ? [] | | ? ? [] | | | | ? [] | | [] | | | | ];
      try (left; reflexivity); try (right; reflexivity); exfalso; cbn [handle] in Hin;
      repeat match type of Hin with
             | context [if ?c then _ else _] => destruct c
             end;
      try (unfold handleUpload in Hin; destruct (file s);
           [destruct (String.eqb (sourceAccount s) "") |]);
      cbn in Hin; intuition congruence. }
  destruct He as [-> | ->]; cbn [handle] in Hin.
  - destruct (open s) eqn:Ho; cbn [andb] in Hin.
    + destruct (step s =? 1) eqn:H1; [cbn in Hin; tauto |].
      destruct (step s =? 2) eqn:H2; [| cbn in Hin; tauto].
      apply Z.eqb_eq in H2. cbn in Hin. destruct Hin as [[= <-] | []]. auto.
    + cbn in Hin. tauto.
  - destruct (open s) eqn:Ho; [| cbn in Hin; tauto].
    unfold modal_onClose in Hin.
    destruct (str_truthy (batchId s) && (step s =? 2)) eqn:E; cbn in Hin; [| tauto].
    apply andb_prop in E as [_ H2]. apply Z.eqb_eq in H2.
    destruct Hin as [[= <-] | []]. auto.
Qed.

(** Along every run the step is one of the three, and the Done step has
    the result of the import. *)
Lemma reachable_step (s : state) :
  reachable s ->
  (step s = 1 \/ step s = 2 \/ step s = 3) /\ (step s = 3 -> is_Some (result s)).
Proof.
  induction 1 as [| s e _ [IH1 IH2]]; [split; [left; reflexivity | discriminate] |].
  destruct e as [ | | | | [] | ? [] | | ? ? [] | | | | ? [] | | [] | | | | ];
    cbn [handle];
    repeat match goal with
           | |- context [if ?c then _ else _] => destruct c
           end;
    try (unfold handleUpload; destruct (file s);
         [destruct (String.eqb (sourceAccount s) "") |]);
    try (unfold handleConfirm);
    try (unfold modal_onClose; destruct (str_truthy (batchId s) && (step s =? 2)));
    try (unfold selectAllActive;
         destruct (Nat.eqb (size (selected s)) (length (List.filter active (staged s)))));
    try (unfold toggleSel; match goal with
                           | |- context [decide ?P] => destruct (decide P)
                           end);
    cbn; try (split; [tauto | assumption]);
    split; try tauto; try discriminate; try (intros _; eexists; reflexivity).
Qed.

(** In the Done step the Done button refreshes the caller, and the close
    button of the modal only hides it. *)
Lemma done_exits (s : state) :
  open s = true -> step s = 3 -> is_Some (result s) ->
  handle s ClickDone = (set_open false s, [FetchTxns; FetchSummary])
  /\ handle s CloseModal = (set_open false s, [])
  /\ handle s ClickCancel = (s, []).
Proof.
  intros Ho Hs Hr. cbn [handle]. unfold modal_onClose, onSuccess, onClose.
  rewrite Ho, Hs, (bool_decide_eq_true_2 _ Hr), andb_false_r. repeat split; reflexivity.
Qed.

Lemma done_exits_reachable (s : state) :
  reachable s -> open s = true -> step s = 3 ->
  handle s ClickDone = (set_open false s, [FetchTxns; FetchSummary])
  /\ handle s CloseModal = (set_open false s, []).
Proof.
  intros Hr Ho Hs. destruct (done_exits s Ho Hs) as (H1 & H2 & _); [| split; assumption].
  apply (reachable_step s Hr), Hs.
Qed.

(** C8, evaluated on the run that uploads a statement, confirms the import
    and then leaves the Done step by the close button of the modal: the
    modal closes, no clear request is issued, and neither the transaction
    list nor the period summary is refetched; the same run ended by the
    Done button refetches both. *)
Theorem close_from_done_does_not_refresh :
  let closed := run initial (to_done ++ [CloseModal]) in
  let done := run initial (to_done ++ [ClickDone]) in
  step (fst (run initial to_done)) = 3
  /\ open (fst closed) = false
  /\ List.filter is_clear (snd closed) = []
  /\ List.filter is_refresh (snd closed) = []
  /\ open (fst done) = false
  /\ List.filter is_clear (snd done) = []
  /\ List.filter is_refresh (snd done) = [FetchTxns; FetchSummary].
Proof. repeat split; vm_compute; reflexivity. Qed.

(** The rows of an upload whose parse settles after the modal was closed
    and opened again reach the Review step without their batch id; closing
    that Review step issues no clear request. *)
Example settle_after_reopen :
  let late := [OpenModal; ChooseFile "statement.csv"; ChooseSource "12"; ClickUpload;
               UploadSettled (Resolves sample_upload);
               CloseModal; OpenModal;
               StagedSettled sample_upload (Resolves [sample_row])] in
  step (fst (run initial late)) = 2
  /\ batchId (fst (run initial late)) = None
  /\ List.filter is_clear (snd (run initial (late ++ [CloseModal]))) = [].
Proof. repeat split; vm_compute; reflexivity. Qed.

(** C10: when the Review step is left by Cancel or by closing the modal,
    the modal closes at once, and the failure of the clear request, when
    it settles, changes no state, shows no notification and issues no
    request: the run is the one of a successful clear, and the rows of the
    batch are not fetched again. *)
Theorem clear_failure_is_swallowed (s : state) (e : event) (m : string) :
  open s = true -> step s = 2 -> e = ClickCancel \/ e = CloseModal ->
  let failed := run s [e; ClearSettled (Rejects m)] in
  open (fst failed) = false
  /\ fst failed = set_open false s
  /\ List.filter is_toast (snd failed) = []
  /\ List.filter is_request (snd failed) = List.filter is_clear (snd failed)
  /\ failed = run s [e; ClearSettled (Resolves tt)]
  /\ handle (fst failed) (ClearSettled (Rejects m)) = (fst failed, []).
Proof.
  intros Ho Hs He failed. subst failed.
  destruct He as [-> | ->]; cbn [run handle]; unfold review_cancel, modal_onClose, onClose;
    rewrite Ho, Hs; cbn [andb Z.eqb Pos.eqb];
    [| destruct (str_truthy (batchId s)); cbn [andb app]];
    cbn; repeat split; reflexivity.
Qed.

End Leaving.

(** Leaving the Review step of the sample import by Cancel, the clear
    request failing with a 500. *)
Lemma clear_failure_is_swallowed_witness :
  let s := fst (ImportModal.run ImportModal.initial Notions.to_review) in
  snd (ImportModal.run s [ImportModal.ClickCancel;
                          ImportModal.ClearSettled (Rejects "Request failed (500)")])
  = [ImportModal.Api (ImportModal.clearStaged (Some "b1"%string))]
  /\ ImportModal.open
       (fst (ImportModal.run s [ImportModal.ClickCancel;
                                ImportModal.ClearSettled (Rejects "Request failed (500)")]))
     = false.
Proof.
  pose proof (clear_failure_is_swallowed
                (fst (ImportModal.run ImportModal.initial Notions.to_review))
                ImportModal.ClickCancel "Request failed (500)"
                ltac:(vm_compute; reflexivity) ltac:(vm_compute; reflexivity)
                ltac:(left; reflexivity)) as (H & _).
  split; [vm_compute; reflexivity | exact H].
Defined.

(** ** Start of the application *)

Section Startup.

Import App Notions.

Lemma str_truthy_token (token : string) :
  token <> ""%string -> Js.str_truthy (Some token) = true.
Proof.
  intros H. unfold Js.str_truthy.
  destruct (String.eqb_spec token ""); [contradiction | reflexivity].
Qed.

(** Without a stored token nothing is requested and the login screen is
    shown. *)
Lemma startup_without_token (storage : gmap string string)
    (me_settles : outcome user_t) (accounts_settle : outcome (list Accounts.account)) :
  storage !! "ft_token"%string = None ->
  let w := snd (startup me_settles accounts_settle (boot storage)) in
  requests w = [] /\ render w = AuthScreen /\ localStorage w = storage.
Proof.
  intros H w. subst w. unfold startup, boot, getItem, mbind, M_bind. cbn.
  rewrite H. cbn. repeat split; reflexivity.
Qed.

(** When both calls succeed the token is kept, in storage and in the
    client. *)
Lemma startup_keeps_token (storage : gmap string string) (token : string)
    (u : user_t) (a : list Accounts.account) :
  storage !! "ft_token"%string = Some token -> token <> ""%string ->
  let w := snd (startup (Resolves u) (Resolves a) (boot storage)) in
  localStorage w = storage /\ api_token w = Some token /\ accounts w = a.
Proof.
  intros H Hne w. subst w. unfold startup, boot, getItem, mbind, M_bind. cbn.
  rewrite H, (str_truthy_token token Hne). cbn. repeat split; reflexivity.
Qed.

(** C9: on startup with a stored session token, the token is sent with the
    validation call and with nothing that carries credentials; if the
    validation call succeeds the user is set to its result and the tabs
    are shown, not the login screen; if it fails the token is removed from
    client-local storage, the client token is cleared, no user is set and
    the login screen is shown. *)
Theorem startup_spec (storage : gmap string string) (token : string)
    (me_settles : outcome user_t) (accounts_settle : outcome (list Accounts.account)) :
  storage !! "ft_token"%string = Some token -> token <> ""%string ->
  let w := snd (startup me_settles accounts_settle (boot storage)) in
  init w = false
  /\ head (requests w) = Some {| what := me; bearer := Some token |}
  /\ List.filter is_credentials (requests w) = []
  /\ (forall u, me_settles = Resolves u -> user w = Some u /\ render w = Tabs)
  /\ (forall m, me_settles = Rejects m ->
        localStorage w !! "ft_token"%string = None
        /\ api_token w = None
        /\ user w = None
        /\ render w = AuthScreen).
Proof.
  intros H Hne w. subst w. unfold startup, boot, getItem, mbind, M_bind. cbn.
  rewrite H, (str_truthy_token token Hne). cbn.
  destruct me_settles as [u | m]; cbn.
  - destruct accounts_settle as [a | m']; cbn;
      (do 3 (split; [reflexivity |]); split;
       [intros u' [= <-]; split; reflexivity | intros m [=]]).
  - do 3 (split; [reflexivity |]). split; [intros u [=] |].
    intros _ _. split; [apply lookup_delete_eq |]. repeat split; reflexivity.
Qed.

End Startup.

(** A stored token that the server accepts, and one that it refuses. *)
Lemma startup_spec_witness :
  App.render (snd (App.startup (Resolves Notions.sample_user) (Resolves [])
                     (App.boot {[ "ft_token"%string := "t0k3n"%string ]}))) = App.Tabs
  /\ App.render (snd (App.startup (Rejects "Invalid token") (Resolves [])
                        (App.boot {[ "ft_token"%string := "t0k3n"%string ]}))) = App.AuthScreen.
Proof.
  assert (Hs : ({[ "ft_token"%string := "t0k3n"%string ]} : gmap string string)
               !! "ft_token"%string = Some "t0k3n"%string) by (vm_compute; reflexivity).
  assert (Hne : "t0k3n"%string <> ""%string) by discriminate.
  split.
  - destruct (startup_spec _ _ (Resolves Notions.sample_user) (Resolves []) Hs Hne)
      as (_ & _ & _ & Hok & _).
    apply (Hok Notions.sample_user eq_refl).
  - destruct (startup_spec _ _ (Rejects "Invalid token") (Resolves []) Hs Hne)
      as (_ & _ & _ & _ & Hko).
    apply (Hko "Invalid token"%string eq_refl).
Defined.

(** * Further properties of the code *)

(** ** The month ranges *)

(** December of FY 2024 ends where January 2025 starts. *)
Lemma month_ranges_tile_witness :
  AppJsx.end_ (AppJsx.getMonthRange 2024 8) = AppJsx.start (AppJsx.getMonthRange 2024 9).
Proof.
  destruct (month_ranges_tile 2024 8 ltac:(lia)) as (_ & H & _). exact H.
Defined.

(** ** The shared API client: when a call resolves *)

Section ApiCallResolves.

Import Js AppJsx.

Context {A : Type}.

(** X3: [api.call] resolves exactly for a 2xx response whose body is JSON, and
    then to that document; a 2xx response without a JSON body, such as an
    empty 204, is surfaced as a failure with the message of the parse
    error. *)
Theorem call_resolves_iff (f : fetched A) (d : json A) :
  (call f = Resolves d
   <-> exists res, f = FetchResolves res /\ ok res = true /\ res_body res = BodyJson d)
  /\ (forall (res : response A) (m : string),
        f = FetchResolves res -> res_body res = BodyRejects m ->
        call f = Rejects (if includes "Failed to fetch" m then advisory else m)).
Proof.
  split.
  - split.
    + unfold call, call_try, call_catch. destruct f as [m | res].
      * destruct (includes "Failed to fetch" m); discriminate.
      * destruct (res_body res) as [m | data] eqn:Hb.
        -- destruct (includes "Failed to fetch" m); discriminate.
        -- destruct (ok res) eqn:Hok; cbn.
           ++ intros [= ->]. exists res. auto.
           ++ destruct (includes "Failed to fetch" (failure_reason res data)); discriminate.
    + intros (res & -> & Hok & Hb). apply call_resolves; assumption.
  - intros res m -> Hb. apply call_rejects. unfold call_try. rewrite Hb. reflexivity.
Qed.

End ApiCallResolves.

(** A successful deletion answered with an empty body. *)
Lemma call_resolves_iff_witness :
  AppJsx.call (A := unit)
    (AppJsx.FetchResolves {| AppJsx.status := 204;
                             AppJsx.res_body := AppJsx.BodyRejects "Unexpected end of JSON input" |})
  = Rejects "Unexpected end of JSON input"%string.
Proof.
  destruct (call_resolves_iff (A := unit)
              (AppJsx.FetchResolves
                 {| AppJsx.status := 204;
                    AppJsx.res_body := AppJsx.BodyRejects "Unexpected end of JSON input" |})
              {| AppJsx.error := None; AppJsx.payload := tt |}) as [_ H].
  rewrite (H _ _ eq_refl eq_refl). reflexivity.
Defined.

(** ** Start of the application: the accounts cannot be fetched *)

Section StartupEdge.

Import App Notions.

(** X4: When the stored token is accepted and the fetch of the accounts then
    fails, the user is set and the tabs are shown, yet the token is removed
    from storage and from the client: the requests that follow carry no
    authorization. *)
Theorem startup_accounts_failure (storage : gmap string string) (token : string)
    (u : user_t) (m : string) :
  storage !! "ft_token"%string = Some token -> token <> ""%string ->
  let w := snd (startup (Resolves u) (Rejects m) (boot storage)) in
  user w = Some u
  /\ render w = Tabs
  /\ accounts w = []
  /\ api_token w = None
  /\ localStorage w !! "ft_token"%string = None
  /\ map what (requests w) = [me; getAccounts].
Proof.
  intros H Hne w. subst w. unfold startup, boot, getItem, mbind, M_bind. cbn.
  rewrite H, (str_truthy_token token Hne). cbn.
  do 4 (split; [reflexivity |]). split; [apply lookup_delete_eq | reflexivity].
Qed.

End StartupEdge.

Lemma startup_accounts_failure_witness :
  App.api_token (snd (App.startup (Resolves Notions.sample_user) (Rejects "Request failed (500)")
                        (App.boot {[ "ft_token"%string := "t0k3n"%string ]}))) = None
  /\ App.render (snd (App.startup (Resolves Notions.sample_user) (Rejects "Request failed (500)")
                        (App.boot {[ "ft_token"%string := "t0k3n"%string ]}))) = App.Tabs.
Proof.
  assert (Hs : ({[ "ft_token"%string := "t0k3n"%string ]} : gmap string string)
               !! "ft_token"%string = Some "t0k3n"%string) by (vm_compute; reflexivity).
  assert (Hne : "t0k3n"%string <> ""%string) by discriminate.
  destruct (startup_accounts_failure _ _ Notions.sample_user "Request failed (500)" Hs Hne)
    as (_ & Hr & _ & Ht & _).
  split; assumption.
Defined.

(** ** The staged import: what is requested, and when *)

Section ImportRequests.

Import Js ImportModal Notions ReviewSelection.

(** X7: The upload request is issued by a click on Upload & Parse only, in the
    Upload step, with a file and a source account chosen and no request in
    flight. *)
Theorem upload_request_guard (s : state) (e : event) :
  In (Api importUpload) (snd (handle s e)) ->
  e = ClickUpload /\ open s = true /\ step s = 1
  /\ is_Some (file s) /\ sourceAccount s <> ""%string /\ loading s = false.
Proof.
  intros Hin.
  assert (Hc : e = ClickUpload).
  { destruct e as [ | | | | [] | ? [] | | ? ? [] | | | | ? [] | | [] | | | | ];
      try reflexivity; exfalso; cbn [handle] in Hin;
      repeat match type of Hin with
             | context [if ?c then _ else _] => destruct c
             end;
      try (unfold modal_onClose in Hin;
           destruct (str_truthy (batchId s) && (step s =? 2)));
      cbn in Hin; intuition congruence. }
  subst e. cbn [handle] in Hin.
  destruct (open s && (step s =? 1) && upload_enabled s) eqn:E; [| destruct Hin].
  apply andb_prop in E as [E Hen]. apply andb_prop in E as [Ho Hs].
  apply Z.eqb_eq in Hs. unfold upload_enabled, Btn_enabled in Hen.
  apply negb_true_iff, orb_false_iff in Hen as [Hd Hl].
  apply orb_false_iff in Hd as [Hf Hsrc].
  apply negb_false_iff, bool_decide_eq_true in Hf.
  repeat split; try assumption.
  intros Heq. rewrite Heq in Hsrc. discriminate Hsrc.
Qed.

(** X9: In a Review step whose state holds no batch id, closing the modal
    issues no request at all, and Cancel issues the clear request without
    a batch: a DELETE of /import/staged. *)
Theorem review_without_batch (s : state) :
  open s = true -> step s = 2 -> str_truthy (batchId s) = false ->
  handle s CloseModal = (set_open false s, [])
  /\ handle s ClickCancel = (set_open false s, [Api (clearStaged (batchId s))])
  /\ request_line (clearStaged (batchId s)) = ("DELETE", "/import/staged")%string.
Proof.
  intros Ho Hs Hb. cbn [handle]. unfold review_cancel, modal_onClose, onClose.
  rewrite Ho, Hs, Hb. split; [reflexivity |]. split; [reflexivity |].
  unfold request_line, batch_query. unfold str_truthy in Hb.
  destruct (batchId s) as [b |]; [| reflexivity].
  apply negb_false_iff in Hb. rewrite Hb. reflexivity.
Qed.

(** *** Select all *)

Lemma size_active_ids (staged : list row) :
  NoDup (active_ids staged) ->
  size (list_to_set (active_ids staged) : gset Z) = activeCount staged.
Proof.
  intros Hnd. rewrite size_list_to_set by exact Hnd.
  unfold active_ids, activeCount. apply length_map.
Qed.

(** X11: When the rows that are not rejected have distinct ids, the header
    checkbox selects exactly their ids unless as many ids are already
    selected; the checkbox is then shown checked when there is such a row,
    and a second click clears the selection. *)
Theorem select_all_active_spec (s : state) :
  NoDup (active_ids (staged s)) ->
  size (selected s) <> activeCount (staged s) ->
  let s1 := selectAllActive s in
  (forall i : Z, i ∈ selected s1 <-> exists r, In r (staged s) /\ active r = true /\ id r = i)
  /\ ((1 <= activeCount (staged s))%nat -> all_checked s1 = true)
  /\ selected (selectAllActive s1) = ∅
  /\ staged s1 = staged s.
Proof.
  intros Hnd Hne s1. subst s1. unfold selectAllActive.
  fold (activeCount (staged s)).
  destruct (Nat.eqb_spec (size (selected s)) (activeCount (staged s))) as [E | _];
    [contradiction |].
  cbn [selected staged set_selected].
  fold (active_ids (staged s)).
  split; [| split; [| split; [| reflexivity]]].
  - intros i. rewrite elem_of_list_to_set. unfold active_ids.
    rewrite list_elem_of_In, in_map_iff. split.
    + intros (r & Hid & Hin). apply filter_In in Hin as [Hin Ha]. eauto.
    + intros (r & Hin & Ha & Hid). exists r. split; [exact Hid |].
      apply filter_In. auto.
  - intros Hpos. unfold all_checked. cbn [selected staged set_selected].
    rewrite (size_active_ids _ Hnd), Nat.eqb_refl. cbn.
    apply negb_true_iff, Nat.eqb_neq. lia.
  - rewrite (size_active_ids _ Hnd). unfold activeCount. rewrite Nat.eqb_refl. reflexivity.
Qed.

End ImportRequests.

(** In the Review step of the sample import nothing is selected: a click
    on the header checkbox selects the one row. *)
Lemma select_all_active_spec_witness :
  ReviewSelection.all_checked
    (ImportModal.selectAllActive (fst (ImportModal.run ImportModal.initial Notions.to_review)))
  = true.
Proof.
  destruct (select_all_active_spec (fst (ImportModal.run ImportModal.initial Notions.to_review)))
    as (_ & H & _).
  - vm_compute. repeat constructor. intros Hin. inversion Hin.
  - vm_compute. discriminate.
  - apply H. vm_compute. lia.
Defined.

(** A click on Upload & Parse with a file and a source account chosen. *)
Lemma upload_request_guard_witness :
  ImportModal.loading
    (fst (ImportModal.run ImportModal.initial
            [ImportModal.OpenModal; ImportModal.ChooseFile "statement.csv";
             ImportModal.ChooseSource "12"])) = false.
Proof.
  destruct (upload_request_guard
              (fst (ImportModal.run ImportModal.initial
                      [ImportModal.OpenModal; ImportModal.ChooseFile "statement.csv";
                       ImportModal.ChooseSource "12"]))
              ImportModal.ClickUpload) as (_ & _ & _ & _ & _ & H).
  - vm_compute. left. reflexivity.
  - exact H.
Defined.

(** The Review step reached by the rows of an upload that settle after the
    modal was closed and opened again. *)
Lemma review_without_batch_witness :
  let s := fst (ImportModal.run ImportModal.initial
                  [ImportModal.OpenModal; ImportModal.ChooseFile "statement.csv";
                   ImportModal.ChooseSource "12"; ImportModal.ClickUpload;
                   ImportModal.UploadSettled (Resolves Notions.sample_upload);
                   ImportModal.CloseModal; ImportModal.OpenModal;
                   ImportModal.StagedSettled Notions.sample_upload
                     (Resolves [Notions.sample_row])]) in
  snd (ImportModal.handle s ImportModal.CloseModal) = [].
Proof.
  cbv zeta.
  destruct (review_without_batch
              (fst (ImportModal.run ImportModal.initial
                  [ImportModal.OpenModal; ImportModal.ChooseFile "statement.csv";
                   ImportModal.ChooseSource "12"; ImportModal.ClickUpload;
                   ImportModal.UploadSettled (Resolves Notions.sample_upload);
                   ImportModal.CloseModal; ImportModal.OpenModal;
                   ImportModal.StagedSettled Notions.sample_upload
                     (Resolves [Notions.sample_row])]))
              ltac:(vm_compute; reflexivity) ltac:(vm_compute; reflexivity)
              ltac:(vm_compute; reflexivity)) as (H & _).
  rewrite H. reflexivity.
Defined.

(** A click on Cancel in the Review step of the sample import. *)
Lemma clear_only_from_review_witness :
  ImportModal.batchId (fst (ImportModal.run ImportModal.initial Notions.to_review))
  = Some "b1"%string.
Proof.
  destruct (clear_only_from_review
              (fst (ImportModal.run ImportModal.initial Notions.to_review))
              ImportModal.ClickCancel (Some "b1"%string)) as (_ & _ & _ & H).
  - vm_compute. left. reflexivity.
  - symmetry. exact H.
Defined.

(** ** The period shown by the Transactions tab *)

Section PeriodFacts.

Import Js AppJsx Period Notions.

Lemma month_cases (m : Z) :
  0 <= m < 12 ->
  m = 0 \/ m = 1 \/ m = 2 \/ m = 3 \/ m = 4 \/ m = 5 \/ m = 6 \/ m = 7 \/ m = 8
  \/ m = 9 \/ m = 10 \/ m = 11.
Proof. lia. Qed.

(** X2: For a date in year [y] and month [m] (0 for January), the financial
    year that [getCurrentFY] returns holds the month: the month lies
    between April of that year and March of the next, the selector has a
    slot labelled with it, and the range of that slot starts on the first
    day of the month [m] of the year [y]. *)
Theorem current_month_in_current_fy (y m : Z) :
  0 <= m < 12 ->
  let fy := getCurrentFY y m in
  let slot := (m + 9) mod 12 in
  fy * 12 + 3 <= y * 12 + m <= fy * 12 + 14
  /\ 0 <= slot < 12
  /\ MONTHS !! Z.to_nat slot = calendar !! Z.to_nat m
  /\ start (getMonthRange fy slot)
     = (String_of_Z y +:+ "-" +:+ padStart (String_of_Z (m + 1)) 2 "0" +:+ "-01")%string.
Proof.
  intros H fy slot. subst fy slot.
  split; [unfold getCurrentFY; destruct (Z.ltb_spec m 3); lia |].
  split; [apply Z.mod_pos_bound; lia |].
  destruct (month_cases m H) as [-> | H']; [| repeat destruct H' as [-> | H']; try subst m];
    (split; [reflexivity |]);
    unfold getCurrentFY, getMonthRange; cbn; rewrite ?Z.sub_add; reflexivity.
Qed.

End PeriodFacts.

(** The second of February 2025 belongs to FY 2024. *)
Lemma current_month_in_current_fy_witness :
  Period.getCurrentFY 2025 1 = 2024
  /\ AppJsx.start (AppJsx.getMonthRange (Period.getCurrentFY 2025 1) 10) = "2025-02-01"%string.
Proof.
  destruct (current_month_in_current_fy 2025 1 ltac:(lia)) as (_ & _ & _ & H).
  split; [reflexivity | exact H].
Defined.

(** ** Balances in the list of the Accounts tab *)

Section BalanceSign.

Import Js AccountsList.

(** X12: A Liability or Income balance is printed without a minus sign, and the
    same whatever its sign; a balance of another type is printed with a
    minus sign exactly when it is negative and not zero. *)
Theorem fmtBal_sign (bal : number) (type : string) :
  (type = "Liability"%string \/ type = "Income"%string ->
   String.prefix "-" (fmtBal bal type) = false
   /\ fmtBal (SFopp bal) type = fmtBal bal type)
  /\ (type <> "Liability"%string -> type <> "Income"%string ->
      String.prefix "-" (fmtBal bal type) = negative bal && truthy bal).
Proof.
  split.
  - intros Ht. assert (E : String.eqb type "Liability" || String.eqb type "Income" = true).
    { destruct Ht as [-> | ->]; reflexivity. }
    unfold fmtBal. rewrite E. split.
    + destruct bal as [[] | [] | | [] ? ?]; reflexivity.
    + destruct bal as [[] | [] | | [] ? ?]; reflexivity.
  - intros H1 H2. unfold fmtBal.
    apply String.eqb_neq in H1, H2. rewrite H1, H2. cbn [orb].
    destruct bal as [[] | [] | | [] ? ?]; reflexivity.
Qed.

End BalanceSign.

(** A home loan of -2,50,000 rupees. *)
Lemma fmtBal_sign_witness :
  AccountsList.fmtBal (Js.of_Z (-250000)) "Liability" = "₹2,50,000"%string.
Proof.
  destruct (fmtBal_sign (Js.of_Z (-250000)) "Liability") as [H _].
  destruct (H (or_introl eq_refl)) as [_ E].
  rewrite <- E. vm_compute. reflexivity.
Defined.

(** ** The pager of the Transactions tab *)

Section PagerFacts.

Import Pager.

Lemma pages_bounds (t : Z) : 30 * pages t - 29 <= t <= 30 * pages t.
Proof.
  unfold pages. pose proof (Z.div_mod (t + 29) 30 ltac:(lia)) as Hd.
  pose proof (Z.mod_pos_bound (t + 29) 30 ltac:(lia)) as Hm. lia.
Qed.

(** X13: While the page is between 1 and the number of pages, the two buttons
    keep it there, the page requested has a first transaction among the
    [total] that match, and Next followed by Prev comes back to the same
    page. *)
Theorem pager_in_range (p : pager) :
  1 <= page p <= pages (total p) ->
  (1 <= page (click_next p) <= pages (total (click_next p)))
  /\ (1 <= page (click_prev p) <= pages (total (click_prev p)))
  /\ 30 * (page p - 1) < total p
  /\ (shown p = true -> next_enabled p = true -> click_prev (click_next p) = p)
  /\ (next_enabled p = true <-> page p < pages (total p))
  /\ (prev_enabled p = true <-> 1 < page p).
Proof.
  intros H. pose proof (pages_bounds (total p)) as Hb.
  unfold click_next, click_prev, next_enabled, prev_enabled, shown.
  destruct (30 <? total p) eqn:Es; destruct (Z.leb_spec (pages (total p)) (page p));
    destruct (Z.leb_spec (page p) 1); cbn [andb negb page total];
    repeat split; try lia; try discriminate; try reflexivity;
    try (intros _ _; destruct p; cbn in *;
         repeat match goal with
                | |- context [?a <=? ?b] => destruct (Z.leb_spec a b); try lia
                | |- context [?a <? ?b] => destruct (Z.ltb_spec a b); try lia
                end; cbn; f_equal; lia);
    try (intros; lia).
Qed.

(** X14: Once a fetch reports at most 30 matches the pager is hidden: neither
    button changes the page, even when the page left behind is past the
    last one; only a change of the period, the filter or the search goes
    back to page 1. *)
Theorem pager_hidden (p : pager) (n : Z) :
  n <= 30 ->
  click_prev (fetched n p) = fetched n p
  /\ click_next (fetched n p) = fetched n p
  /\ page (fetched n p) = page p
  /\ page (filter_changed (fetched n p)) = 1.
Proof.
  intros H. unfold click_prev, click_next, shown, fetched. cbn [total page].
  destruct (Z.ltb_spec 30 n); [lia |]. repeat split; reflexivity.
Qed.

End PagerFacts.

(** From page 2 of 61 transactions, Next and then Prev. *)
Lemma pager_in_range_witness :
  Pager.click_prev (Pager.click_next {| Pager.page := 2; Pager.total := 61 |})
  = {| Pager.page := 2; Pager.total := 61 |}.
Proof.
  destruct (pager_in_range {| Pager.page := 2; Pager.total := 61 |}
              ltac:(vm_compute; split; discriminate)) as (_ & _ & _ & H & _).
  apply H; reflexivity.
Defined.

(** Page 2 of 31 transactions; the one on it is deleted. *)
Lemma pager_hidden_witness :
  Pager.pages 30 = 1
  /\ Pager.page (Pager.click_prev (Pager.fetched 30 {| Pager.page := 2; Pager.total := 31 |})) = 2.
Proof.
  destruct (pager_hidden {| Pager.page := 2; Pager.total := 31 |} 30 ltac:(lia)) as (H & _).
  split; [reflexivity |]. rewrite H. reflexivity.
Defined.

(** ** Transactions grouped by date *)

Section GroupingFacts.

Import Grouping MoreNotions.

Lemma find_group_add_same (k : string) (tx : transaction) (groups : list group) :
  find_group k (add k tx groups) = Some (default [] (find_group k groups) ++ [tx]).
Proof.
  induction groups as [| g rest IH]; cbn [add find_group].
  - cbn [group_date txns]. rewrite String.eqb_refl. reflexivity.
  - destruct (String.eqb (group_date g) k) eqn:E; cbn [find_group group_date txns]; rewrite E.
    + reflexivity.
    + exact IH.
Qed.

Lemma find_group_add_other (k k' : string) (tx : transaction) (groups : list group) :
  k <> k' -> find_group k (add k' tx groups) = find_group k groups.
Proof.
  intros Hne. induction groups as [| g rest IH]; cbn [add find_group].
  - cbn [group_date]. destruct (String.eqb_spec k' k); [congruence | reflexivity].
  - destruct (String.eqb_spec (group_date g) k') as [E | E]; cbn [find_group group_date txns].
    + destruct (String.eqb_spec (group_date g) k); [congruence | reflexivity].
    + rewrite IH. reflexivity.
Qed.

Lemma add_keys (k : string) (tx : transaction) (groups : list group) :
  map group_date (add k tx groups)
  = if bool_decide (k ∈ map group_date groups) then map group_date groups
    else map group_date groups ++ [k].
Proof.
  induction groups as [| g rest IH]; [reflexivity |]. cbn [add map].
  destruct (String.eqb_spec (group_date g) k) as [E | E].
  - rewrite bool_decide_eq_true_2 by (rewrite E; apply list_elem_of_here). reflexivity.
  - cbn [map]. rewrite IH. destruct (bool_decide (k ∈ map group_date rest)) eqn:B.
    + apply bool_decide_eq_true in B.
      rewrite bool_decide_eq_true_2 by (apply list_elem_of_further, B). reflexivity.
    + apply bool_decide_eq_false in B.
      rewrite bool_decide_eq_false_2; [reflexivity |].
      intros H. apply elem_of_cons in H as [H | H]; [congruence | contradiction].
Qed.

Lemma add_keys_NoDup (k : string) (tx : transaction) (groups : list group) :
  List.NoDup (map group_date groups) -> List.NoDup (map group_date (add k tx groups)).
Proof.
  intros H. rewrite add_keys. destruct (bool_decide (k ∈ map group_date groups)) eqn:B;
    [exact H |].
  apply bool_decide_eq_false in B. apply NoDup_ListNoDup, NoDup_app.
  split; [apply NoDup_ListNoDup, H |]. split; [| apply NoDup_singleton].
  intros x Hx Hk. apply list_elem_of_singleton in Hk. subst x. contradiction.
Qed.

(** What the loop has filed under each key after a list of transactions. *)
Lemma fold_find_group (l : list transaction) (groups : list group) (k : string) :
  find_group k (fold_left (fun gs tx => add (key_of tx) tx gs) l groups)
  = match filed_under k l with
    | [] => find_group k groups
    | new => Some (default [] (find_group k groups) ++ new)
    end.
Proof.
  revert groups. induction l as [| tx l IH]; intros groups; [reflexivity |].
  cbn [fold_left]. rewrite IH. unfold filed_under. cbn [List.filter].
  destruct (String.eqb_spec (key_of tx) k) as [E | E].
  - subst k. rewrite find_group_add_same. cbn [default].
    destruct (List.filter _ l); [reflexivity |]. unfold default, from_option, id.
    rewrite <- app_assoc. reflexivity.
  - rewrite find_group_add_other by congruence. reflexivity.
Qed.

Lemma fold_keys_NoDup (l : list transaction) (groups : list group) :
  List.NoDup (map group_date groups) ->
  List.NoDup (map group_date (fold_left (fun gs tx => add (key_of tx) tx gs) l groups)).
Proof.
  revert groups. induction l as [| tx l IH]; intros groups H; [exact H |].
  cbn [fold_left]. apply IH, add_keys_NoDup, H.
Qed.

Lemma find_group_In (groups : list group) (g : group) :
  List.NoDup (map group_date groups) -> In g groups ->
  find_group (group_date g) groups = Some (txns g).
Proof.
  induction groups as [| h rest IH]; intros Hnd Hin; [destruct Hin |].
  cbn [find_group]. inversion Hnd as [| ? ? Hh Hrest]; subst.
  destruct Hin as [-> | Hin]; [rewrite String.eqb_refl; reflexivity |].
  destruct (String.eqb_spec (group_date h) (group_date g)) as [E | E].
  - exfalso. apply Hh. rewrite E. apply in_map, Hin.
  - apply IH; assumption.
Qed.

Lemma find_group_Some (groups : list group) (k : string) (l : list transaction) :
  find_group k groups = Some l -> exists g, In g groups /\ group_date g = k /\ txns g = l.
Proof.
  induction groups as [| h rest IH]; cbn [find_group]; [discriminate |].
  destruct (String.eqb_spec (group_date h) k) as [E | E].
  - intros [= <-]. exists h. split; [left; reflexivity | split; [exact E | reflexivity]].
  - intros H. destruct (IH H) as (g & Hin & Hk & Hl). exists g. split; [right |]; auto.
Qed.

Lemma grouped_partition (l : list transaction) :
  List.NoDup (map group_date (grouped l))
  /\ (forall g, In g (grouped l) ->
        txns g = filed_under (group_date g) l /\ txns g <> [])
  /\ (forall tx, In tx l ->
        exists g, In g (grouped l) /\ group_date g = key_of tx /\ In tx (txns g)).
Proof.
  assert (Hnd : List.NoDup (map group_date (grouped l))).
  { apply fold_keys_NoDup. constructor. }
  split; [exact Hnd |]. split.
  - intros g Hin. pose proof (find_group_In _ g Hnd Hin) as Hf.
    unfold grouped in Hf. rewrite fold_find_group in Hf. cbn [find_group default app] in Hf.
    destruct (filed_under (group_date g) l) as [| x new] eqn:E; [discriminate |].
    injection Hf as <-. split; [reflexivity | discriminate].
  - intros tx Hin.
    assert (Hm : In tx (filed_under (key_of tx) l)).
    { apply filter_In. split; [exact Hin | apply String.eqb_refl]. }
    pose proof (fold_find_group l [] (key_of tx)) as Hf. cbn [find_group default app] in Hf.
    destruct (filed_under (key_of tx) l) as [| x new] eqn:E; [destruct Hm |].
    apply find_group_Some in Hf as (g & Hg & Hk & Hl).
    exists g. split; [exact Hg |]. split; [exact Hk |]. rewrite Hl. exact Hm.
Qed.

(** X15: Grouping by date loses and repeats nothing.  When no transaction has
    for its date (the part of the time stamp before T, or "unknown") a name
    that objects inherit, the groups are computed and have distinct dates;
    each group holds, in list order, exactly the transactions whose date is
    the group's, and is not empty; and every transaction has its group. *)
Theorem groupedByDate_partition (l : list transaction) :
  (forall tx, In tx l -> inherited (key_of tx) = false) ->
  exists groups, groupedByDate l = Some groups
    /\ List.NoDup (map group_date groups)
    /\ (forall g, In g groups ->
          txns g = filed_under (group_date g) l /\ txns g <> [])
    /\ (forall tx, In tx l ->
          exists g, In g groups /\ group_date g = key_of tx /\ In tx (txns g)).
Proof.
  intros Hk. exists (grouped l). split; [| apply grouped_partition].
  unfold groupedByDate.
  destruct (existsb (fun tx => inherited (key_of tx)) l) eqn:E; [| reflexivity].
  apply existsb_exists in E as (tx & Hin & Hi). rewrite (Hk tx Hin) in Hi. discriminate Hi.
Qed.

End GroupingFacts.

(** Two transactions of the first of May around one without a date. *)
Lemma groupedByDate_partition_witness :
  let l := [{| Grouping.transaction_id := 1; Grouping.date := Some "2024-05-01T00:00:00.000Z"%string |};
            {| Grouping.transaction_id := 2; Grouping.date := None |};
            {| Grouping.transaction_id := 3; Grouping.date := Some "2024-05-01T18:30:00.000Z"%string |}] in
  (option_map (map (fun g => (Grouping.group_date g, map Grouping.transaction_id (Grouping.txns g))))
     (Grouping.groupedByDate l)
   = Some [("2024-05-01", [1; 3]); ("unknown", [2])]%string)
  /\ exists groups, Grouping.groupedByDate l = Some groups
       /\ List.NoDup (map Grouping.group_date groups).
Proof.
  cbv zeta. split; [vm_compute; reflexivity |].
  destruct (groupedByDate_partition
              [{| Grouping.transaction_id := 1; Grouping.date := Some "2024-05-01T00:00:00.000Z"%string |};
               {| Grouping.transaction_id := 2; Grouping.date := None |};
               {| Grouping.transaction_id := 3; Grouping.date := Some "2024-05-01T18:30:00.000Z"%string |}])
    as (groups & Hg & Hnd & _).
  - intros tx [<- | [<- | [<- | []]]]; reflexivity.
  - exists groups. split; assumption.
Defined.

(** ** The transaction form *)

Section TransactionForm.

Import TransactionModal MoreNotions.

Lemma save_filled (editTx : option Z) (f : form) :
  truthy (amount f) = true -> truthy (debit_account_id f) = true ->
  truthy (credit_account_id f) = true ->
  save editTx f = match editTx with
                  | Some i => [updateTransaction i f]
                  | None => [createTransaction f]
                  end.
Proof. intros Ha Hd Hc. unfold save. rewrite Ha, Hd, Hc. reflexivity. Qed.

(** X18: The Transfer preset fills From and To with the same account, the first
    Asset account of the list, and [save] accepts the form as soon as an
    amount is typed: nothing in the form requires the two accounts of a
    transaction to differ.  A form with an empty amount or account issues
    no request. *)
Theorem transfer_preset_same_account (accounts : list Accounts.account) (f : form)
    (p : preset) :
  In p presets -> label p = "🔄 Transfer"%string ->
  let f' := apply_preset accounts p f in
  debit_account_id f' = credit_account_id f'
  /\ (truthy (amount f) = true -> truthy (debit_account_id f') = true ->
      save None f' = [createTransaction f'])
  /\ (forall (editTx : option Z) (g : form),
        truthy (amount g) = false \/ truthy (debit_account_id g) = false
        \/ truthy (credit_account_id g) = false ->
        List.filter is_request (save editTx g) = []).
Proof.
  intros Hin Hl f'. subst f'.
  assert (Hp : dt p = ct p).
  { destruct Hin as [<- | [<- | [<- | [<- | []]]]]; cbn in Hl; try discriminate Hl; reflexivity. }
  unfold apply_preset. cbn [debit_account_id credit_account_id amount]. rewrite Hp.
  split; [reflexivity |]. split.
  - intros Ha Hd. apply save_filled; assumption.
  - intros editTx g Hg. unfold save.
    destruct Hg as [-> | [-> | ->]]; cbn; rewrite ?orb_true_r; reflexivity.
Qed.

End TransactionForm.

(** A savings account and a wallet, 500 rupees typed. *)
Lemma transfer_preset_same_account_witness :
  let accounts := [Notions.account_of "Expense" Js.pzero;
                   {| Accounts.account_id := 4; Accounts.account_type := "Asset";
                      Accounts.sub_type := None; Accounts.description := None;
                      Accounts.calculated_balance := Accounts.Missing;
                      Accounts.current_balance := Accounts.Missing |};
                   {| Accounts.account_id := 9; Accounts.account_type := "Asset";
                      Accounts.sub_type := None; Accounts.description := None;
                      Accounts.calculated_balance := Accounts.Missing;
                      Accounts.current_balance := Accounts.Missing |}] in
  let f := {| TransactionModal.amount := TransactionModal.Text "500";
              TransactionModal.debit_account_id := TransactionModal.Text "";
              TransactionModal.credit_account_id := TransactionModal.Text "";
              TransactionModal.category := "Uncategorized" |} in
  let p := {| TransactionModal.label := "🔄 Transfer"; TransactionModal.dt := "Asset";
              TransactionModal.ct := "Asset" |} in
  TransactionModal.debit_account_id (TransactionModal.apply_preset accounts p f)
  = TransactionModal.Number 4
  /\ TransactionModal.credit_account_id (TransactionModal.apply_preset accounts p f)
     = TransactionModal.Number 4.
Proof.
  cbv zeta.
  destruct (transfer_preset_same_account
              [Notions.account_of "Expense" Js.pzero;
               {| Accounts.account_id := 4; Accounts.account_type := "Asset";
                  Accounts.sub_type := None; Accounts.description := None;
                  Accounts.calculated_balance := Accounts.Missing;
                  Accounts.current_balance := Accounts.Missing |};
               {| Accounts.account_id := 9; Accounts.account_type := "Asset";
                  Accounts.sub_type := None; Accounts.description := None;
                  Accounts.calculated_balance := Accounts.Missing;
                  Accounts.current_balance := Accounts.Missing |}]
              {| TransactionModal.amount := TransactionModal.Text "500";
                 TransactionModal.debit_account_id := TransactionModal.Text "";
                 TransactionModal.credit_account_id := TransactionModal.Text "";
                 TransactionModal.category := "Uncategorized" |}
              {| TransactionModal.label := "🔄 Transfer"; TransactionModal.dt := "Asset";
                 TransactionModal.ct := "Asset" |}
              ltac:(right; right; left; reflexivity) eq_refl) as (H & _).
  split; [vm_compute; reflexivity | rewrite <- H; vm_compute; reflexivity].
Defined.

(** ** Signing in and out *)

Section SessionFacts.

Import App Session.

(** X5: A login that the server grants stores the token it carries, in the
    client and in storage, and sets the user; after a reload of the page
    the startup sends that token with its validation call.  A login that
    the server refuses stores nothing and shows the message of the error. *)
Theorem login_then_reload (w : world) (email password t : string) (u : user_t)
    (accounts_settle accounts_again : outcome (list Accounts.account))
    (me_settles : outcome user_t) :
  t <> ""%string ->
  let w1 := snd (submit email password
                   (Resolves {| token := Some t; granted_user := u |}) accounts_settle w) in
  let w2 := snd (startup me_settles accounts_again (reload w1)) in
  localStorage w1 !! "ft_token"%string = Some t
  /\ api_token w1 = Some t
  /\ user w1 = Some u
  /\ head (requests w2) = Some {| what := me; bearer := Some t |}
  /\ (forall u', me_settles = Resolves u' -> user w2 = Some u' /\ render w2 = Tabs)
  /\ (forall e : string,
        let refused := submit email password (Rejects e) accounts_settle w in
        fst refused = Resolves {| loading := false; error := e |}
        /\ localStorage (snd refused) = localStorage w
        /\ api_token (snd refused) = api_token w
        /\ user (snd refused) = user w).
Proof.
  intros Hne w1 w2.
  assert (H1 : localStorage w1 !! "ft_token"%string = Some t).
  { subst w1. unfold submit, await, handleLogin, setItem, set_api_token, setUser, setAccounts,
      try_catch, mbind, M_bind, mret, M_ret. cbn.
    destruct accounts_settle; cbn; apply lookup_insert_eq. }
  split; [exact H1 |].
  split; [subst w1; unfold submit, await, handleLogin, setItem, set_api_token, setUser,
            setAccounts, try_catch, mbind, M_bind, mret, M_ret; cbn;
          destruct accounts_settle; reflexivity |].
  split; [subst w1; unfold submit, await, handleLogin, setItem, set_api_token, setUser,
            setAccounts, try_catch, mbind, M_bind, mret, M_ret; cbn;
          destruct accounts_settle; reflexivity |].
  assert (H2 : forall ms, let w' := snd (startup ms accounts_again (reload w1)) in
             head (requests w') = Some {| what := me; bearer := Some t |}
             /\ forall u', ms = Resolves u' -> user w' = Some u' /\ render w' = Tabs).
  { intros ms. unfold reload, startup, boot, getItem, mbind, M_bind. cbn.
    rewrite H1, (str_truthy_token t Hne). cbn.
    destruct ms as [u0 | m0]; cbn.
    - destruct accounts_again; cbn;
        (split; [reflexivity | intros u' [= <-]; split; reflexivity]).
    - split; [reflexivity | intros u' [=]]. }
  destruct (H2 me_settles) as [Ha Hb].
  split; [exact Ha |]. split; [exact Hb |].
  intros e refused. subst refused. unfold submit, await. cbn. repeat split; reflexivity.
Qed.

(** X6: Signing out removes the token from storage and from the client and
    unsets the user; the page reloaded afterwards asks for nothing and
    shows the login screen. *)
Theorem logout_then_reload (w : world) (me_settles : outcome user_t)
    (accounts_settle : outcome (list Accounts.account)) :
  let w1 := snd (handleLogout w) in
  let w2 := snd (startup me_settles accounts_settle (reload w1)) in
  localStorage w1 !! "ft_token"%string = None
  /\ api_token w1 = None
  /\ user w1 = None
  /\ accounts w1 = []
  /\ requests w2 = []
  /\ render w2 = AuthScreen.
Proof.
  intros w1 w2.
  assert (H1 : localStorage w1 !! "ft_token"%string = None).
  { subst w1. unfold handleLogout, removeItem, set_api_token, setUser, setAccounts,
      mbind, M_bind. cbn. apply lookup_delete_eq. }
  split; [exact H1 |]. do 3 (split; [reflexivity |]).
  destruct (startup_without_token (localStorage w1) me_settles accounts_settle H1)
    as (Hr & Hs & _).
  split; assumption.
Qed.

End SessionFacts.

(** Signing in on a fresh page with a token the server then accepts. *)
Lemma login_then_reload_witness :
  App.render
    (snd (App.startup (Resolves Notions.sample_user) (Resolves [])
            (Session.reload
               (snd (Session.submit "asha@example.com" "secret12"
                       (Resolves {| Session.token := Some "t0k3n"%string;
                                    Session.granted_user := Notions.sample_user |})
                       (Resolves []) (App.boot ∅))))))
  = App.Tabs.
Proof.
  destruct (login_then_reload (App.boot ∅) "asha@example.com" "secret12" "t0k3n"
              Notions.sample_user (Resolves []) (Resolves []) (Resolves Notions.sample_user)
              ltac:(discriminate)) as (_ & _ & _ & _ & H & _).
  apply (H Notions.sample_user eq_refl).
Defined.

(** ** The export to comma-separated values *)

Section CsvFacts.

Import Csv MoreNotions.

Variable prototype_text : string -> string.

Local Abbreviation get := (Csv.get prototype_text).
Local Abbreviation line := (Csv.line prototype_text).
Local Abbreviation exportCSV := (Csv.exportCSV prototype_text).
Local Abbreviation values := (MoreNotions.values prototype_text).

Lemma string_app_cons (x : ascii) (a b : string) : String x a +:+ b = String x (a +:+ b).
Proof. reflexivity. Qed.

Lemma string_app_nil_l (b : string) : "" +:+ b = b.
Proof. reflexivity. Qed.

Lemma string_app_assoc (a b c : string) : (a +:+ b) +:+ c = a +:+ (b +:+ c).
Proof.
  induction a as [| x a IH]; [reflexivity |].
  rewrite !string_app_cons. f_equal. exact IH.
Qed.

Lemma string_app_nil_r (a : string) : a +:+ "" = a.
Proof.
  induction a as [| x a IH]; [reflexivity |].
  rewrite string_app_cons. f_equal. exact IH.
Qed.

Lemma join_cons (sep x y : string) (l : list string) :
  join sep (x :: y :: l) = x +:+ sep +:+ join sep (y :: l).
Proof. reflexivity. Qed.

Lemma read_quote_closes f rec recs s :
  read Quoted f rec recs (String dquote s) = read Closed f rec recs s.
Proof. reflexivity. Qed.

Lemma read_quote_doubled f rec recs s :
  read Closed f rec recs (String dquote s) = read Quoted (f +:+ String dquote "") rec recs s.
Proof. reflexivity. Qed.

Lemma read_quote_opens rec recs s :
  read Unquoted "" rec recs (String dquote s) = read Quoted "" rec recs s.
Proof. reflexivity. Qed.

Lemma read_closed_comma f rec recs s :
  read Closed f rec recs (String comma s) = read Unquoted "" (rec ++ [f]) recs s.
Proof. reflexivity. Qed.

Lemma read_closed_newline f rec recs s :
  read Closed f rec recs (String newline s) = read Unquoted "" [] (recs ++ [rec ++ [f]]) s.
Proof. reflexivity. Qed.

Lemma read_bare_comma f rec recs s :
  read Unquoted f rec recs (String comma s) = read Unquoted "" (rec ++ [f]) recs s.
Proof. reflexivity. Qed.

Lemma read_bare_newline f rec recs s :
  read Unquoted f rec recs (String newline s) = read Unquoted "" [] (recs ++ [rec ++ [f]]) s.
Proof. reflexivity. Qed.

Lemma read_quoted (s : string) : forall f rec recs rest,
  read Quoted f rec recs (replace_quotes s +:+ String dquote rest)
  = read Closed (f +:+ s) rec recs rest.
Proof.
  induction s as [| c s IH]; intros f rec recs rest.
  - cbn [replace_quotes]. rewrite string_app_nil_l, read_quote_closes, string_app_nil_r.
    reflexivity.
  - cbn [replace_quotes]. destruct (Ascii.eqb c dquote) eqn:Hc.
    + apply Ascii.eqb_eq in Hc. subst c.
      rewrite !string_app_cons, read_quote_closes, read_quote_doubled, IH, string_app_assoc.
      reflexivity.
    + rewrite string_app_cons. cbn [read]. rewrite Hc, IH, string_app_assoc. reflexivity.
Qed.

Lemma read_cell (v : option string) rec recs rest :
  read Unquoted "" rec recs (cell v +:+ rest)
  = read Closed (default ""%string v) rec recs rest.
Proof.
  unfold cell. rewrite string_app_assoc, !string_app_cons, string_app_nil_l.
  rewrite read_quote_opens, read_quoted. reflexivity.
Qed.

Lemma read_bare (h : string) : forall f rec recs rest,
  bare h = true ->
  read Unquoted f rec recs (h +:+ rest) = read Unquoted (f +:+ h) rec recs rest.
Proof.
  induction h as [| c h IH]; intros f rec recs rest Hb.
  - rewrite string_app_nil_l, string_app_nil_r. reflexivity.
  - cbn [bare] in Hb. apply andb_prop in Hb as [Hb Hh]. apply andb_prop in Hb as [Hb Hn].
    apply andb_prop in Hb as [Hq Hc]. apply negb_true_iff in Hq, Hc, Hn.
    rewrite string_app_cons. cbn [read].
    rewrite Hq, Hc, Hn, IH, string_app_assoc by assumption. reflexivity.
Qed.

(** A line of quoted cells, read up to its end. *)
Lemma read_cells (vs : list (option string)) : forall rec recs,
  vs <> [] ->
  read Unquoted "" rec recs (join (String comma "") (map cell vs))
  = Some (recs ++ [rec ++ map (default ""%string) vs])
  /\ forall rest,
       read Unquoted "" rec recs
         (join (String comma "") (map cell vs) +:+ String newline rest)
       = read Unquoted "" [] (recs ++ [rec ++ map (default ""%string) vs]) rest.
Proof.
  induction vs as [| v vs IH]; intros rec recs Hne; [congruence |].
  destruct vs as [| v' vs].
  - cbn [map join]. split.
    + rewrite <- (string_app_nil_r (cell v)), read_cell. reflexivity.
    + intros rest. rewrite read_cell, read_closed_newline. reflexivity.
  - assert (Hne' : v' :: vs <> []) by discriminate.
    destruct (IH (rec ++ [default ""%string v]) recs Hne') as [IH1 IH2].
    cbn [map] in *. rewrite join_cons. split.
    + rewrite read_cell, string_app_cons, string_app_nil_l, read_closed_comma.
      rewrite IH1, <- app_assoc. reflexivity.
    + intros rest.
      rewrite string_app_assoc, read_cell, !string_app_cons, string_app_nil_l.
      rewrite read_closed_comma, IH2, <- app_assoc. reflexivity.
Qed.

Lemma value_of_get (r : object) (h : string) :
  default ""%string (get r h) = value_of prototype_text r h.
Proof.
  unfold Csv.get, value_of.
  destruct (List.find (fun kv => String.eqb (fst kv) h) r) as [[k [v |]] |];
    [reflexivity | reflexivity |].
  destruct (Js.inherited_name h); reflexivity.
Qed.

Lemma read_lines (headers : list string) (rows : list object) : forall recs,
  headers <> [] -> rows <> [] ->
  read Unquoted "" [] recs (join (String newline "") (map (line headers) rows))
  = Some (recs ++ map (values headers) rows).
Proof.
  intros recs Hh. revert recs.
  assert (Hv : forall r, map (default ""%string) (map (get r) headers) = values headers r).
  { intros r. unfold MoreNotions.values. rewrite map_map. apply map_ext. intros h.
    apply value_of_get. }
  assert (Hl : forall r, line headers r = join (String comma "") (map cell (map (get r) headers))).
  { intros r. unfold Csv.line. rewrite map_map. reflexivity. }
  assert (Hm : forall r, map (get r) headers <> []).
  { intros r. destruct headers; [congruence | discriminate]. }
  induction rows as [| r rows IH]; intros recs Hne; [congruence |].
  destruct rows as [| r' rows].
  - cbn [map join]. rewrite Hl.
    destruct (read_cells (map (get r) headers) [] recs (Hm r)) as [H1 _].
    rewrite H1, Hv. reflexivity.
  - cbn [map] in *. rewrite join_cons, string_app_cons, string_app_nil_l, Hl.
    destruct (read_cells (map (get r) headers) [] recs (Hm r)) as [_ H2].
    rewrite H2, IH by discriminate. rewrite Hv, <- app_assoc. reflexivity.
Qed.

(** The line of column names, read up to the line feed after it. *)
Lemma read_names (hs : list string) : forall rec rest,
  hs <> [] -> forallb bare hs = true ->
  read Unquoted "" rec [] (join (String comma "") hs +:+ String newline rest)
  = read Unquoted "" [] [rec ++ hs] rest.
Proof.
  induction hs as [| h hs IH]; intros rec rest Hne Hb; [congruence |].
  cbn [forallb] in Hb. apply andb_prop in Hb as [Hh Hb].
  destruct hs as [| h' hs].
  - cbn [join]. rewrite read_bare, read_bare_newline, string_app_nil_l by assumption.
    reflexivity.
  - rewrite join_cons, !string_app_assoc, read_bare by assumption.
    rewrite string_app_cons, !string_app_nil_l, read_bare_comma.
    rewrite IH by (assumption || discriminate). rewrite <- app_assoc. reflexivity.
Qed.

Lemma own_value (r : object) (h : string) (v : option string) :
  List.NoDup (keys r) -> In (h, v) r -> value_of prototype_text r h = default ""%string v.
Proof.
  unfold value_of, keys. induction r as [| [k w] r IH]; intros Hnd Hin; [destruct Hin |].
  cbn [List.find fst]. cbn [map fst] in Hnd. apply List.NoDup_cons_iff in Hnd as [Hk Hnd].
  destruct (String.eqb_spec k h) as [E | E].
  - subst k. destruct Hin as [[= ->] | Hin]; [destruct v; reflexivity |].
    exfalso. apply Hk. apply (in_map fst) in Hin. exact Hin.
  - destruct Hin as [[= -> _] | Hin]; [congruence |]. apply IH; assumption.
Qed.

Lemma inherited_value (r : object) (h : string) :
  ~ In h (keys r) ->
  value_of prototype_text r h = if Js.inherited_name h then prototype_text h else ""%string.
Proof.
  unfold value_of, keys. induction r as [| [k w] r IH]; intros Hin; [reflexivity |].
  cbn [List.find fst]. cbn [map fst] in Hin.
  destruct (String.eqb_spec k h) as [E | E]; [exfalso; apply Hin; left; exact E |].
  apply IH. intros H. apply Hin. right. exact H.
Qed.

(** X19: What is exported can be read back: for rows that are not empty,
    whose first row has at least one key and only keys free of quotes,
    commas and line feeds, the file holds the keys of the first row and
    then, for every row in order, what the row holds under these keys,
    whatever quotes, commas or line feeds the values contain.  Under a key
    a row holds the text of its own property, empty when the property is
    absent; a row without the property holds the text of the property it
    inherits when the key is a name that objects inherit, and the empty
    text otherwise.  A key that the first row lacks is not exported, and
    without rows no file is offered. *)
Theorem exportCSV_reads_back (rows : list object) (r0 : object) :
  head rows = Some r0 -> keys r0 <> [] -> forallb bare (keys r0) = true ->
  exists csv, exportCSV rows = Some csv
    /\ read_csv csv = Some (keys r0 :: map (values (keys r0)) rows)
    /\ (forall r h v, In r rows -> List.NoDup (keys r) -> In (h, v) r ->
          value_of prototype_text r h = default ""%string v)
    /\ (forall r h, In r rows -> ~ In h (keys r) ->
          value_of prototype_text r h
          = if Js.inherited_name h then prototype_text h else ""%string).
Proof.
  intros Hhd Hk Hb. destruct rows as [| r rows]; [discriminate |].
  injection Hhd as ->. eexists. split; [reflexivity |]. split.
  - unfold read_csv. cbn [map]. rewrite join_cons, string_app_cons, string_app_nil_l.
    rewrite read_names by assumption.
    change (line (keys r0) r0 :: map (line (keys r0)) rows)
      with (map (line (keys r0)) (r0 :: rows)).
    rewrite read_lines by (assumption || discriminate). reflexivity.
  - split.
    + intros r h v _ Hnd Hin. apply own_value; assumption.
    + intros r h _ Hh. apply inherited_value, Hh.
Qed.

End CsvFacts.

(** A row with a description that holds a comma, a quoted word and a line
    feed, between its date and its amount, and a second row that has an
    amount only: under the key toString of the first row it exports the
    function it inherits. *)
Lemma exportCSV_reads_back_witness :
  let quoted := (String Csv.dquote "5" +:+ String Csv.dquote "")%string in
  let note := ("Tea, " +:+ quoted +:+ " cups" +:+ String Csv.newline "at noon")%string in
  let t1 := [("Date", Some "2024-05-01"); ("toString", Some note); ("Description", None);
             ("Amount", Some "120.5")]%string in
  let t2 := [("Amount", Some "40")]%string in
  exists csv, Csv.exportCSV MoreNotions.chromium_text [t1; t2] = Some csv
    /\ MoreNotions.read_csv csv
       = Some [["Date"; "toString"; "Description"; "Amount"];
               ["2024-05-01"; note; ""; "120.5"];
               [""; "function toString() { [native code] }"; ""; "40"]]%string.
Proof.
  cbv zeta.
  destruct (exportCSV_reads_back MoreNotions.chromium_text
              [[("Date", Some "2024-05-01");
                ("toString",
                 Some ("Tea, " +:+ (String Csv.dquote "5" +:+ String Csv.dquote "") +:+ " cups"
                       +:+ String Csv.newline "at noon"));
                ("Description", None); ("Amount", Some "120.5")];
               [("Amount", Some "40")]]%string
              _ eq_refl ltac:(discriminate) eq_refl) as (csv & He & Hr & _).
  exists csv. split; [exact He |]. rewrite Hr. vm_compute. reflexivity.
Defined.

(** ** Selecting transactions on a page *)

Section PageSelection.

Import TransactionsTab MoreNotions.

Lemma size_page_ids (s : state) :
  NoDup (page_ids s) -> size (list_to_set (page_ids s) : gset Z) = length (txns s).
Proof.
  intros Hnd. rewrite size_list_to_set by exact Hnd. apply length_map.
Qed.

(** With the selection inside the page, as many ids are selected as the
    page has transactions exactly when every transaction is selected. *)
Lemma full_page (s : state) :
  NoDup (page_ids s) -> within_page s ->
  size (selected s) = length (txns s) <-> selected s = list_to_set (page_ids s).
Proof.
  intros Hnd Hin. split.
  - intros Hsz. apply set_subseteq_size_eq.
    + intros i Hi. apply elem_of_list_to_set, list_elem_of_In, Hin, Hi.
    + rewrite (size_page_ids s Hnd), Hsz. reflexivity.
  - intros ->. apply size_page_ids, Hnd.
Qed.

(** X16: While the transactions of the page have distinct ids and the selection
    lies within the page, the checkboxes keep it there; the header checkbox
    is shown checked exactly when the page is not empty and each of its
    transactions is selected, and a click on it selects the whole page, or
    nothing when the whole page was selected. *)
Theorem selection_within_page (s : state) :
  NoDup (page_ids s) -> within_page s ->
  (forall tx, In tx (txns s) -> within_page (toggleSelect (Grouping.transaction_id tx) s))
  /\ within_page (selectAll s)
  /\ (header_checked s = true <->
      txns s <> [] /\ forall tx, In tx (txns s) -> isSel s tx = true)
  /\ selected (selectAll s) = (if header_checked s then ∅ else list_to_set (page_ids s)).
Proof.
  intros Hnd Hin.
  pose proof (full_page s Hnd Hin) as Hfull.
  split; [| split; [| split]].
  - intros tx Htx i. unfold toggleSelect.
    destruct (decide (Grouping.transaction_id tx ∈ selected s)); cbn [selected set_selected].
    + intros Hi. apply elem_of_difference in Hi as [Hi _]. apply Hin, Hi.
    + intros Hi. apply elem_of_union in Hi as [Hi | Hi]; [apply Hin, Hi |].
      apply elem_of_singleton in Hi. subst i. unfold page_ids. cbn [txns set_selected].
      apply in_map, Htx.
  - intros i. unfold selectAll.
    destruct (Nat.eqb (size (selected s)) (length (txns s))); cbn [selected set_selected].
    + intros Hi. apply elem_of_empty in Hi. contradiction.
    + intros Hi. apply elem_of_list_to_set, list_elem_of_In in Hi. exact Hi.
  - unfold header_checked, isSel. rewrite andb_true_iff, Nat.eqb_eq, Nat.ltb_lt, Hfull. split.
    + intros [Hs Hl]. split; [destruct (txns s); [cbn in Hl; lia | discriminate] |].
      intros tx Htx. apply bool_decide_eq_true. rewrite Hs.
      apply elem_of_list_to_set, list_elem_of_In, in_map, Htx.
    + intros [Hne Hall]. split; [| destruct (txns s); [congruence | cbn; lia]].
      apply Hfull, Nat.le_antisymm.
      * rewrite <- (size_page_ids s Hnd). apply subseteq_size.
        intros i Hi. apply elem_of_list_to_set, list_elem_of_In, Hin, Hi.
      * rewrite <- (size_page_ids s Hnd). apply subseteq_size.
        intros i Hi. apply elem_of_list_to_set, list_elem_of_In, in_map_iff in Hi.
        destruct Hi as (tx & <- & Htx). specialize (Hall tx Htx).
        apply bool_decide_eq_true in Hall. exact Hall.
  - unfold selectAll, header_checked.
    destruct (Nat.eqb (size (selected s)) (length (txns s))) eqn:E; cbn [selected set_selected andb].
    + destruct (txns s) as [| tx l] eqn:Et; [| reflexivity].
      cbn. unfold page_ids. rewrite Et. reflexivity.
    + reflexivity.
Qed.

(** X17: Going to another page keeps the selection, whereas a change of the
    period, the filter or the search empties it.  When the page that
    arrives has as many transactions as are selected and none of them is
    selected, the header checkbox is shown checked although no row of the
    page is, and a click on it empties the selection instead of selecting
    the page. *)
Theorem selection_survives_page_change (s : state) (data : list Grouping.transaction)
    (total : option Z) :
  length data = size (selected s) -> data <> [] ->
  (forall tx, In tx data -> Grouping.transaction_id tx ∉ selected s) ->
  let s' := loaded (Some data) total (click_next s) in
  selected s' = selected s
  /\ header_checked s' = true
  /\ (forall tx, In tx (txns s') -> isSel s' tx = false)
  /\ selected (selectAll s') = ∅
  /\ selected (period_changed s) = ∅.
Proof.
  intros Hlen Hne Hout s'. subst s'. unfold loaded, click_next, header_checked, selectAll, isSel.
  cbn [txns selected pager set_pager set_selected default from_option id].
  rewrite <- Hlen, Nat.eqb_refl. cbn [selected set_selected].
  split; [reflexivity |]. split.
  - destruct data; [congruence | reflexivity].
  - split; [| split; reflexivity].
    intros tx Htx. apply bool_decide_eq_false, Hout, Htx.
Qed.

End PageSelection.

(** A page of two transactions, one of them selected. *)
Lemma selection_within_page_witness :
  let s := {| TransactionsTab.txns :=
                [{| Grouping.transaction_id := 7; Grouping.date := None |};
                 {| Grouping.transaction_id := 8; Grouping.date := None |}];
              TransactionsTab.selected := {[ 8 ]};
              TransactionsTab.pager := {| Pager.page := 1; Pager.total := 2 |} |} in
  TransactionsTab.selected (TransactionsTab.selectAll s) = {[ 7; 8 ]}
  /\ TransactionsTab.selected (TransactionsTab.selectAll (TransactionsTab.selectAll s)) = ∅.
Proof.
  cbv zeta.
  assert (Hnd : NoDup [7; 8]) by (apply NoDup_ListNoDup; repeat constructor; cbn; intuition lia).
  assert (Hin : forall i : Z, i ∈ ({[ 8 ]} : gset Z) -> In i [7; 8]).
  { intros i Hi. apply elem_of_singleton in Hi. subst i. right. left. reflexivity. }
  destruct (selection_within_page
              {| TransactionsTab.txns :=
                   [{| Grouping.transaction_id := 7; Grouping.date := None |};
                    {| Grouping.transaction_id := 8; Grouping.date := None |}];
                 TransactionsTab.selected := {[ 8 ]};
                 TransactionsTab.pager := {| Pager.page := 1; Pager.total := 2 |} |}
              Hnd Hin) as (_ & _ & _ & H).
  split; [rewrite H; vm_compute; reflexivity | reflexivity].
Defined.

(** Transaction 7 is selected on the first page; the second page holds
    transaction 31 alone. *)
Lemma selection_survives_page_change_witness :
  let s := {| TransactionsTab.txns := [{| Grouping.transaction_id := 7; Grouping.date := None |}];
              TransactionsTab.selected := {[ 7 ]};
              TransactionsTab.pager := {| Pager.page := 1; Pager.total := 31 |} |} in
  let s' := TransactionsTab.loaded
              (Some [{| Grouping.transaction_id := 31; Grouping.date := None |}]) (Some 31)
              (TransactionsTab.click_next s) in
  Pager.page (TransactionsTab.pager s') = 2
  /\ TransactionsTab.header_checked s' = true
  /\ TransactionsTab.isSel s' {| Grouping.transaction_id := 31; Grouping.date := None |} = false.
Proof.
  cbv zeta.
  assert (Hout : forall tx, In tx [{| Grouping.transaction_id := 31; Grouping.date := None |}] ->
                 Grouping.transaction_id tx ∉ ({[ 7 ]} : gset Z)).
  { intros tx [<- | []] Hi. apply elem_of_singleton in Hi. discriminate Hi. }
  destruct (selection_survives_page_change
              {| TransactionsTab.txns := [{| Grouping.transaction_id := 7; Grouping.date := None |}];
                 TransactionsTab.selected := {[ 7 ]};
                 TransactionsTab.pager := {| Pager.page := 1; Pager.total := 31 |} |}
              [{| Grouping.transaction_id := 31; Grouping.date := None |}] (Some 31)
              (eq_sym (size_singleton (C := gset Z) 7)) ltac:(discriminate) Hout)
    as (_ & Hc & Hs & _).
  split; [reflexivity |]. split; [exact Hc |].
  apply Hs. left. reflexivity.
Defined.

(** ** The direct import of [src/unnamed/part_000] *)

Section DirectImport.

Import Part000ImportModal MoreNotions.

Lemma refreshes_app (es1 es2 : list effect) :
  refreshes (es1 ++ es2) = (refreshes es1 + refreshes es2)%nat.
Proof. unfold refreshes. rewrite List.filter_app, length_app. reflexivity. Qed.

Lemma imports_cons (e : event) (events : list event) :
  imports (e :: events) = (counts_as_import e + imports events)%nat.
Proof.
  unfold counts_as_import, imports. cbn [List.filter].
  destruct e as [| | | | | [data | m]]; try reflexivity.
  destruct (positive (imported data)); reflexivity.
Qed.

Lemma handle_refreshes (s : state) (e : event) :
  (refreshes (snd (handle s e)) + pending (fst (handle s e))
   <= pending s + counts_as_import e)%nat.
Proof.
  unfold pending, counts_as_import, imports, done.
  destruct e as [| f | | | | [data | m]]; cbn [handle].
  - cbn. lia.
  - destruct (open s); cbn; lia.
  - destruct (open s && negb (loading s)); [| cbn; lia].
    fold (done s). destruct (done s) eqn:Hd.
    + cbn. lia.
    + unfold handleUpload. unfold done in Hd. destruct (file s); cbn; rewrite Hd; lia.
  - destruct (open s); cbn; destruct (result s) as [d |]; try destruct (positive (imported d)); lia.
  - destruct (open s); cbn; destruct (result s) as [d |]; try destruct (positive (imported d)); lia.
  - cbn. destruct (positive (imported data)); cbn; lia.
  - cbn. lia.
Qed.

Lemma run_refreshes (events : list event) : forall s : state,
  (refreshes (snd (run s events)) <= pending s + imports events)%nat.
Proof.
  induction events as [| e events IH]; intros s.
  - cbn. lia.
  - cbn [run]. pose proof (handle_refreshes s e) as He.
    destruct (handle s e) as [s1 es1]. specialize (IH s1).
    destruct (run s1 events) as [s2 es2]. cbn [fst snd] in *.
    rewrite refreshes_app, imports_cons. lia.
Qed.

(** X20: Whatever is done with the modal, the list of the tab is fetched again
    at most once for every upload that reported imported transactions. *)
Theorem direct_import_refresh_needs_import (events : list event) :
  (refreshes (snd (run initial events)) <= imports events)%nat.
Proof. apply (run_refreshes events initial). Qed.

(** X21: After an import that reported transactions the main button reads Done
    and fetches the list again; Cancel, the close button and the backdrop
    close the modal without fetching, and forget the result: unless another
    upload imports something, nothing done afterwards fetches the list. *)
Theorem direct_import_closed_without_refresh (s : state) (e : event) (events : list event) :
  open s = true -> done s = true -> e = ClickCancel \/ e = CloseModal ->
  imports events = 0%nat ->
  main_label s = "Done"%string
  /\ (loading s = false -> snd (handle s ClickMain) = [FetchTxns])
  /\ open (fst (handle s e)) = false
  /\ refreshes (snd (run s (e :: events))) = 0%nat.
Proof.
  intros Ho Hd He Hi.
  split; [unfold main_label; rewrite Hd; reflexivity |].
  split; [intros Hl; cbn [handle]; rewrite Ho, Hl, Hd; reflexivity |].
  assert (Hh : handle s e = close s) by (destruct He as [-> | ->]; cbn [handle]; rewrite Ho; reflexivity).
  split; [rewrite Hh; reflexivity |].
  cbn [run]. rewrite Hh. unfold close.
  pose proof (run_refreshes events
                {| open := false; file := None; loading := loading s; result := None |}) as Hr.
  destruct (run _ events) as [s2 es2]. cbn [snd] in *.
  unfold pending, done in Hr. cbn [result] in Hr. rewrite Hi in Hr.
  rewrite refreshes_app. cbn. lia.
Qed.

End DirectImport.

(** A statement of three transactions is imported and the modal closed by
    its close button; opened again, the main button asks for a file. *)
Lemma direct_import_closed_without_refresh_witness :
  let data := {| Part000ImportModal.imported := Some 3; Part000ImportModal.skipped := Some 0;
                 Part000ImportModal.errors := None; Part000ImportModal.error := None |} in
  snd (Part000ImportModal.run Part000ImportModal.initial
         [Part000ImportModal.OpenModal;
          Part000ImportModal.ChooseFile (Some "may.csv"%string);
          Part000ImportModal.ClickMain;
          Part000ImportModal.UploadSettled (Resolves data);
          Part000ImportModal.CloseModal;
          Part000ImportModal.OpenModal;
          Part000ImportModal.ClickMain])
  = [Part000ImportModal.importCSV "may.csv";
     Part000ImportModal.Toast "Imported 3 transactions!" "success";
     Part000ImportModal.Toast "Select a CSV file" "error"]
  /\ MoreNotions.refreshes
       (snd (Part000ImportModal.run
               {| Part000ImportModal.open := true; Part000ImportModal.file := Some "may.csv"%string;
                  Part000ImportModal.loading := false; Part000ImportModal.result := Some data |}
               [Part000ImportModal.CloseModal; Part000ImportModal.OpenModal;
                Part000ImportModal.ClickMain])) = 0%nat.
Proof.
  cbv zeta. split; [vm_compute; reflexivity |].
  apply (direct_import_closed_without_refresh
           {| Part000ImportModal.open := true; Part000ImportModal.file := Some "may.csv"%string;
              Part000ImportModal.loading := false;
              Part000ImportModal.result :=
                Some {| Part000ImportModal.imported := Some 3;
                        Part000ImportModal.skipped := Some 0;
                        Part000ImportModal.errors := None;
                        Part000ImportModal.error := None |} |}
           Part000ImportModal.CloseModal
           [Part000ImportModal.OpenModal; Part000ImportModal.ClickMain]
           eq_refl eq_refl (or_intror eq_refl) eq_refl).
Defined.

(** ** Leaving the Review step: a witness *)

(** Cancel and the close button in the Review step of the sample import. *)
Lemma review_exit_clears_witness :
  snd (ImportModal.handle (fst (ImportModal.run ImportModal.initial Notions.to_review))
         ImportModal.CloseModal)
  = [ImportModal.Api (ImportModal.clearStaged (Some "b1"%string))].
Proof.
  destruct (review_exit_clears (fst (ImportModal.run ImportModal.initial Notions.to_review))
              eq_refl eq_refl eq_refl) as [_ H].
  rewrite H. reflexivity.
Defined.

